(** * 7MS trading agent: detectors, risk calculator, order submission, approval

    A shallow embedding of the tool functions of [app.py]
    ([identify_order_blocks], [detect_liquidity_sweep], [find_mss_and_poi],
    [calculate_entry_sl_tp], [send_order], [get_market_data]), of the
    helpers [get_filling_mode] and [get_retcode_description], and of the
    approval flow ([stream_agent_with_interrupt], [run_agent_analysis] and
    [handle_approval] of [agent_app.py], the prompts of [main] of
    [app.py]).

    Conventions.
    - Prices are Python floats in the source.  They are embedded as exact
      rationals ([Q]); comparisons, [min]/[max], [abs] and [round] are the
      rational ones, and float division keeps its Python behaviour of
      raising [ZeroDivisionError] on a zero divisor.  Comparisons of given
      prices and the choice of a minimum or maximum are the same on
      binary64 numbers; sums, products and quotients are the same only up
      to the rounding of each operation.  Statements therefore give a
      computed value by the expression the code evaluates, or by the order
      of the reported levels, and none rests on the exact algebra of the
      rationals; the arithmetic of the risk calculator is also given on
      binary64 numbers ([Binary64]).
    - A pandas frame of rates is a [list Candle]; [df.iloc[i]] is a checked
      list lookup that raises [IndexError] out of range.
    - The MetaTrader terminal, the agent runtime and the operator's keyboard
      are collaborators: their answers are inputs of the embedded functions.
    - The JSON text a tool returns is embedded as the record that is
      serialised. *)

From Stdlib Require Import QArith Qround Qabs Lqa ZArith Lia.
From stdpp Require Import base list strings gmap.

Local Open Scope Q_scope.

(* ===================================================================== *)
(** * Numbers *)
(* ===================================================================== *)

Module Num.

(** [a < b] as a boolean, next to the library's [Qle_bool]. *)
Definition Qlt_bool (a b : Q) : bool := negb (Qle_bool b a).

(** Python's [max(a, b)] and [min(a, b)]: the first argument wins a tie. *)
Definition py_max (a b : Q) : Q := if Qlt_bool a b then b else a.
Definition py_min (a b : Q) : Q := if Qlt_bool b a then b else a.

(** Round to the nearest integer, ties to the even neighbour. *)
Definition round_half_even (x : Q) : Z :=
  let f := Qfloor x in
  let r := x - inject_Z f in
  if Qlt_bool r (1 # 2) then f
  else if Qlt_bool (1 # 2) r then (f + 1)%Z
  else if Z.even f then f else (f + 1)%Z.

(** Python's [round(x, ndigits)] for a non-negative [ndigits]. *)
Definition py_round (x : Q) (ndigits : nat) : Q :=
  let scale := inject_Z (10 ^ Z.of_nat ndigits) in
  inject_Z (round_half_even (x * scale)) / scale.

End Num.

Notation "a <? b" := (Num.Qlt_bool a b) : Q_scope.
Notation "a <=? b" := (Qle_bool a b) : Q_scope.

(* ===================================================================== *)
(** * Exceptions *)
(* ===================================================================== *)

Inductive exn : Type :=
  | IndexError
  | ValueError
  | ZeroDivisionError.

(** The outcome of running Python code that may raise. *)
Inductive result (A : Type) : Type :=
  | Ok (a : A)
  | Raise (e : exn).

Arguments Ok {A} a.
Arguments Raise {A} e.

#[global] Instance result_ret : MRet result := fun A a => Ok a.

#[global] Instance result_bind : MBind result := fun A B k m =>
  match m with
  | Ok a => k a
  | Raise e => Raise e
  end.

(** [a / b] on Python floats. *)
Definition py_div (a b : Q) : result Q :=
  if Qeq_bool b 0 then Raise ZeroDivisionError else Ok (a / b).

(** [for i in idxs: s = body(s, i)], stopping at the first exception. *)
Fixpoint for_each {S : Type} (body : S -> nat -> result S) (s : S)
    (idxs : list nat) : result S :=
  match idxs with
  | [] => Ok s
  | i :: rest => s' ← body s i; for_each body s' rest
  end.

(** [range(a, b)] for non-negative [a]; [b] has already been clamped at 0,
    which leaves every range of the source unchanged (its lower bounds are
    non-negative). *)
Definition range (a b : nat) : list nat := seq a (b - a).

(** [l[-n:]] for a positive [n]: the last [n] elements, or all of [l]. *)
Definition last_n {A} (n : nat) (l : list A) : list A :=
  drop (length l - n) l.

(* ===================================================================== *)
(** * Candles *)
(* ===================================================================== *)

Record Candle : Type := mkCandle {
  time : Z;     (* epoch seconds; [str(candle['time'])] renders it *)
  open : Q;
  high : Q;
  low : Q;
  close : Q
}.

(** A frame of rates, in time order. *)
Abbreviation DataFrame := (list Candle).

(** [df.iloc[i]] for [i >= 0]. *)
Definition iloc (df : DataFrame) (i : nat) : result Candle :=
  match df !! i with
  | Some c => Ok c
  | None => Raise IndexError
  end.

(** [df.iloc[-1]]. *)
Definition iloc_last (df : DataFrame) : result Candle :=
  match last df with
  | Some c => Ok c
  | None => Raise IndexError
  end.

(** What a tool hands back: an error payload or its report. *)
Inductive reply (A : Type) : Type :=
  | ErrorReply (msg : string)
  | Report (a : A).

Arguments ErrorReply {A} msg.
Arguments Report {A} a.

(** [df.iloc[a:b]] for [0 <= a <= b]. *)
Definition iloc_slice (df : DataFrame) (a b : nat) : DataFrame :=
  take (b - a) (drop a df).

(** [series.min()] and [series.max()].  On an empty selection pandas answers
    NaN, which has no rational counterpart: the embedding raises there. *)
Definition series_min (xs : list Q) : result Q :=
  match xs with
  | [] => Raise ValueError
  | x :: rest => Ok (foldl Num.py_min x rest)
  end.

Definition series_max (xs : list Q) : result Q :=
  match xs with
  | [] => Raise ValueError
  | x :: rest => Ok (foldl Num.py_max x rest)
  end.

(* ===================================================================== *)
(** * [identify_order_blocks] *)
(* ===================================================================== *)

Module OrderBlocks.

Inductive Timeframe : Type := TF_15M | TF_1H | TF_4H | TF_D1.

Inductive Direction : Type := bullish | bearish | both.

Inductive Kind : Type := bullish_ob | bearish_ob.

Inductive Strength : Type := reversal | continuation.

Record OrderBlock : Type := mkOrderBlock {
  type : Kind;
  timeframe : Timeframe;
  ob_time : Z;
  zone_low : Q;
  zone_high : Q;
  gap_size : Q;
  strength : Strength;
  current_price_distance : Q
}.

Record OrderBlockReport : Type := mkReport {
  symbol : string;
  report_timeframe : Timeframe;
  order_blocks_found : nat;
  order_blocks : list OrderBlock
}.

(** ["reversal" if timeframe in ["4H", "D1"] else "continuation"] *)
Definition strength_of (tf : Timeframe) : Strength :=
  match tf with
  | TF_4H | TF_D1 => reversal
  | TF_15M | TF_1H => continuation
  end.

(** [direction in ["bullish", "both"]] *)
Definition wants_bullish (d : Direction) : bool :=
  match d with bullish | both => true | bearish => false end.

(** [direction in ["bearish", "both"]] *)
Definition wants_bearish (d : Direction) : bool :=
  match d with bearish | both => true | bullish => false end.

(** One iteration of [for i in range(2, len(df))]. *)
Definition scan_body (df : DataFrame) (tf : Timeframe) (direction : Direction)
    (order_blocks : list OrderBlock) (i : nat) : result (list OrderBlock) :=
  candle1 ← iloc df (i - 2);
  candle2 ← iloc df (i - 1);
  candle3 ← iloc df i;
  order_blocks ←
    (if wants_bullish direction then
       if high candle1 <? close candle2 then
         let gap := open candle2 - high candle1 in
         if 0 <? gap then
           if low candle3 <=? high candle1 then
             latest ← iloc_last df;
             mret (order_blocks ++ [
               {| type := bullish_ob;
                  timeframe := tf;
                  ob_time := time candle1;
                  zone_low := low candle1;
                  zone_high := high candle1;
                  gap_size := gap;
                  strength := strength_of tf;
                  current_price_distance := close latest - high candle1 |}])
           else mret order_blocks
         else mret order_blocks
       else mret order_blocks
     else mret order_blocks);
  if wants_bearish direction then
    if close candle2 <? low candle1 then
      let gap := low candle1 - open candle2 in
      if 0 <? gap then
        if low candle1 <=? high candle3 then
          latest ← iloc_last df;
          mret (order_blocks ++ [
            {| type := bearish_ob;
               timeframe := tf;
               ob_time := time candle1;
               zone_high := high candle1;
               zone_low := low candle1;
               gap_size := gap;
               strength := strength_of tf;
               current_price_distance := low candle1 - close latest |}])
        else mret order_blocks
      else mret order_blocks
    else mret order_blocks
  else mret order_blocks.

(** The list the loop has accumulated when it ends. *)
Definition scan (df : DataFrame) (tf : Timeframe) (direction : Direction)
    : result (list OrderBlock) :=
  for_each (scan_body df tf direction) [] (range 2 (length df)).

(** [rates] is what [mt5.copy_rates_from_pos] answered ([None] on failure). *)
Definition identify_order_blocks (rates : option DataFrame) (sym : string)
    (tf : Timeframe) (direction : Direction)
    : result (reply OrderBlockReport) :=
  match rates with
  | None => mret (ErrorReply "Error: Failed to fetch data")
  | Some df =>
      order_blocks ← scan df tf direction;
      mret (Report {| symbol := sym;
                      report_timeframe := tf;
                      order_blocks_found := length order_blocks;
                      order_blocks := last_n 10 order_blocks |})
  end.

End OrderBlocks.

(* ===================================================================== *)
(** * [detect_liquidity_sweep] *)
(* ===================================================================== *)

Module LiquiditySweep.

Inductive Kind : Type := bullish_liq_sweep | bearish_liq_sweep.

Inductive Condition : Type := wick_sweep | two_candle_rejection.

(** The keys that differ between the three dictionaries the loop appends. *)
Inductive Detail : Type :=
  | WickLow (sweep_low close_price : Q)
  | Rejection (first_candle_body_ratio second_candle_inverse : Q)
  | WickHigh (sweep_high close_price : Q).

Record Sweep : Type := mkSweep {
  type : Kind;
  condition : Condition;
  sweep_time : Z;
  swept_level : Q;
  detail : Detail;
  confirmation_candle : Z;
  valid : bool
}.

Record SweepReport : Type := mkReport {
  symbol : string;
  sweeps_detected : nat;
  recent_sweeps : list Sweep;
  current_price : Q
}.

(** [body_size = abs(current['close'] - current['open'])] *)
Definition body_size (c : Candle) : Q := Qabs (close c - open c).

(** [candle_range = current['high'] - current['low']] *)
Definition candle_range (c : Candle) : Q := high c - low c.

(** [body_ratio = body_size / candle_range if candle_range > 0 else 0] *)
Definition body_ratio (c : Candle) : result Q :=
  if 0 <? candle_range c then py_div (body_size c) (candle_range c)
  else mret 0.

(** One iteration of [for i in range(5, len(df) - 2)]. *)
Definition scan_body (df : DataFrame) (sweeps : list Sweep) (i : nat)
    : result (list Sweep) :=
  current ← iloc df i;
  next1 ← iloc df (i + 1);
  (* [next2] is read and never used *)
  next2 ← (if decide (i + 2 < length df)%nat
           then c ← iloc df (i + 2); mret (Some c)
           else mret None);
  recent_lows ← series_min (low <$> iloc_slice df (i - 5) i);
  (* bullish, condition 1: wick sweep *)
  let sweeps :=
    if (low current <? recent_lows) && (recent_lows <? close current) then
      if (recent_lows <? close next1) && (recent_lows <? low next1) then
        sweeps ++ [
          {| type := bullish_liq_sweep;
             condition := wick_sweep;
             sweep_time := time current;
             swept_level := recent_lows;
             detail := WickLow (low current) (close current);
             confirmation_candle := time next1;
             valid := true |}]
      else sweeps
    else sweeps in
  (* bullish, condition 2: two candle rejection *)
  ratio ← body_ratio current;
  sweeps ←
    (if (close current <? open current)
        && (ratio <=? 3 # 10)
        && (close current <? recent_lows) then
       let next_body := Qabs (close next1 - open next1) in
       if (open next1 <? close next1)
          && (recent_lows <? close next1)
          && (body_size current * (4 # 10) <=? next_body) then
         inverse ← py_div next_body (body_size current);
         mret (sweeps ++ [
           {| type := bullish_liq_sweep;
              condition := two_candle_rejection;
              sweep_time := time current;
              swept_level := recent_lows;
              detail := Rejection ratio inverse;
              confirmation_candle := time next1;
              valid := true |}])
       else mret sweeps
     else mret sweeps);
  (* bearish: wick sweep *)
  recent_highs ← series_max (high <$> iloc_slice df (i - 5) i);
  if (recent_highs <? high current) && (close current <? recent_highs) then
    if (close next1 <? recent_highs) && (high next1 <? recent_highs) then
      mret (sweeps ++ [
        {| type := bearish_liq_sweep;
           condition := wick_sweep;
           sweep_time := time current;
           swept_level := recent_highs;
           detail := WickHigh (high current) (close current);
           confirmation_candle := time next1;
           valid := true |}])
    else mret sweeps
  else mret sweeps.

Definition scan (df : DataFrame) : result (list Sweep) :=
  for_each (scan_body df) [] (range 5 (length df - 2)).

(** [rates] is what [mt5.copy_rates_from_pos] answered for the requested
    [lookback_candles] ([None] on failure). *)
Definition detect_liquidity_sweep (rates : option DataFrame) (sym : string)
    : result (reply SweepReport) :=
  match rates with
  | None => mret (ErrorReply "Error: Failed to fetch 15M data")
  | Some df =>
      sweeps ← scan df;
      latest ← iloc_last df;
      mret (Report {| symbol := sym;
                      sweeps_detected := length sweeps;
                      recent_sweeps := last_n 5 sweeps;
                      current_price := close latest |})
  end.

End LiquiditySweep.

(* ===================================================================== *)
(** * [find_mss_and_poi] *)
(* ===================================================================== *)

Module StructureShift.

Inductive PoiKind : Type := FVG | Order_Block.

Record POI : Type := mkPOI {
  type : PoiKind;
  poi_time : Z;
  zone_low : Q;
  zone_high : Q;
  gap_size : option Q      (* only the FVG dictionary has this key *)
}.

Record MssReport : Type := mkReport {
  symbol : string;
  mss_found : bool;
  mss_level : Q;
  mss_time : Z;
  mss_zone_start : Q;
  mss_zone_end : Q;
  pois_in_zone : nat;
  pois : list POI;
  current_price : Q
}.

(** Position of the first smallest value among [xs], scanning from
    position [i] with [best] at value [v] the smallest so far. *)
Fixpoint idxmin_from (xs : list Q) (i best : nat) (v : Q) : nat :=
  match xs with
  | [] => best
  | x :: rest =>
      if x <? v then idxmin_from rest (S i) i x
      else idxmin_from rest (S i) best v
  end.

(** [series.idxmin()]: raises [ValueError] on an empty series. *)
Definition idxmin (xs : list Q) : result nat :=
  match xs with
  | [] => Raise ValueError
  | x :: rest => Ok (idxmin_from rest 1 0 x)
  end.

(** [for i in range(lowest_idx + 1, len(df))] with its [break]: the answer
    is the pair [(mss_level, mss_time)] when the loop breaks and [None]
    when it runs out of candles. *)
Fixpoint mss_loop (df : DataFrame) (lowest_idx : nat) (recent_high : Q)
    (idxs : list nat) : result (option (Q * Z)) :=
  match idxs with
  | [] => mret None
  | i :: rest =>
      current ← iloc df i;
      recent_high ←
        (if decide (lowest_idx + 1 < i)%nat then
           previous ← iloc df (i - 1);
           mret (Num.py_max recent_high (high previous))
         else mret recent_high);
      if recent_high <? high current
      then mret (Some (recent_high, time current))
      else mss_loop df lowest_idx recent_high rest
  end.

(** [for i in range(lowest_idx, lowest_idx + 50)] with its [break]. *)
Fixpoint poi_loop (df : DataFrame) (mss_zone_start mss_zone_end : Q)
    (pois : list POI) (idxs : list nat) : result (list POI) :=
  match idxs with
  | [] => mret pois
  | i :: rest =>
      if decide (length df - 1 <= i)%nat then mret pois
      else
        candle ← iloc df i;
        pois ←
          (if (mss_zone_start <=? low candle) && (low candle <=? mss_zone_end)
           then
             pois ←
               (if decide (2 <= i)%nat then
                  c1 ← iloc df (i - 2);
                  let c3 := candle in
                  let gap := low c3 - high c1 in
                  if 0 <? gap then
                    mret (pois ++ [
                      {| type := FVG;
                         poi_time := time candle;
                         zone_low := high c1;
                         zone_high := low c3;
                         gap_size := Some gap |}])
                  else mret pois
                else mret pois);
             if decide (0 < i)%nat then
               prev ← iloc df (i - 1);
               if high prev <? close candle then
                 mret (pois ++ [
                   {| type := Order_Block;
                      poi_time := time prev;
                      zone_low := low prev;
                      zone_high := high prev;
                      gap_size := None |}])
               else mret pois
             else mret pois
           else mret pois);
        poi_loop df mss_zone_start mss_zone_end pois rest
  end.

(** [rates] is what [mt5.copy_rates_from_pos] answered for the last 200
    one-minute candles ([None] on failure). *)
Definition find_mss_and_poi (rates : option DataFrame) (sym : string)
    : result (reply MssReport) :=
  match rates with
  | None => mret (ErrorReply "Error: Failed to fetch 1M data for MSS analysis")
  | Some df =>
      lowest_idx ← idxmin (low <$> df);
      lowest_point ← iloc df lowest_idx;
      found ← mss_loop df lowest_idx (high lowest_point)
                (range (lowest_idx + 1) (length df));
      match found with
      | None => mret (ErrorReply "No MSS detected yet")
      | Some (level, shift_time) =>
          let mss_zone_start := low lowest_point in
          let mss_zone_end := level in
          pois ← poi_loop df mss_zone_start mss_zone_end []
                   (range lowest_idx (lowest_idx + 50));
          latest ← iloc_last df;
          mret (Report {| symbol := sym;
                          mss_found := true;
                          mss_level := level;
                          mss_time := shift_time;
                          mss_zone_start := mss_zone_start;
                          mss_zone_end := mss_zone_end;
                          pois_in_zone := length pois;
                          pois := last_n 5 pois;
                          current_price := close latest |})
      end
  end.

End StructureShift.

(* ===================================================================== *)
(** * The MetaTrader terminal *)
(* ===================================================================== *)

Module Terminal.

(** The fields of [mt5.symbol_info(SYMBOL)] the tools read. *)
Record SymbolInfo : Type := mkSymbolInfo {
  visible : bool;
  filling_mode : Z;
  point : Q
}.

(** [mt5.symbol_info_tick(SYMBOL)] *)
Record Tick : Type := mkTick {
  ask : Q;
  bid : Q
}.

Inductive OrderType : Type := ORDER_TYPE_BUY | ORDER_TYPE_SELL.

Inductive Filling : Type :=
  ORDER_FILLING_FOK | ORDER_FILLING_IOC | ORDER_FILLING_RETURN.

Inductive Action : Type := TRADE_ACTION_DEAL.

Inductive TypeTime : Type := ORDER_TIME_GTC.

(** The dictionary handed to [mt5.order_send]. *)
Record TradeRequest : Type := mkRequest {
  action : Action;
  symbol : string;
  volume : Q;
  type : OrderType;
  price : Q;
  sl : Q;
  tp : Q;
  deviation : Z;
  magic : Z;
  comment : string;
  type_time : TypeTime;
  type_filling : Filling
}.

(** The fields of the answer of [mt5.order_send] the tool reports. *)
Record OrderResult : Type := mkResult {
  retcode : Z;
  deal : Z;
  order : Z;
  result_volume : Q;
  result_price : Q
}.

Definition TRADE_RETCODE_DONE : Z := 10009.

(** What the terminal answers to each call the tools make. *)
Record Answers : Type := mkAnswers {
  symbol_info : option SymbolInfo;
  symbol_select : bool;
  symbol_info_tick : option Tick;
  order_send : TradeRequest -> option OrderResult
}.

End Terminal.

(* ===================================================================== *)
(** * [calculate_entry_sl_tp] *)
(* ===================================================================== *)

Module Risk.

Inductive Direction : Type := buy | sell.

Record TradeParameters : Type := mkParameters {
  direction : Direction;
  entry_price : Q;
  stop_loss : Q;
  take_profit : Q;
  sl_points : Q;
  tp_points : Q;
  risk_reward_ratio : Q;
  risk_pips : Q;
  reward_pips : Q;
  sl_buffer_used : Q
}.

(** [sl_buffer = sl_buffer_pips * 10 * point] with [sl_buffer_pips = 20] *)
Definition sl_buffer (point : Q) : Q := 20 * 10 * point.

(** The two branches of [if direction == "buy": ... else: ...]: the
    unrounded [(sl, risk, tp)]. *)
Definition levels (d : Direction) (entry_price poi_level mss_level : Q)
    (use_mss_sl : bool) (point : Q) : Q * Q * Q :=
  match d with
  | buy =>
      let sl := if use_mss_sl then mss_level - sl_buffer point
                else poi_level - sl_buffer point in
      let risk := entry_price - sl in
      let tp := entry_price + risk * 2 in
      (sl, risk, tp)
  | sell =>
      let sl := if use_mss_sl then mss_level + sl_buffer point
                else poi_level + sl_buffer point in
      let risk := sl - entry_price in
      let tp := entry_price - risk * 2 in
      (sl, risk, tp)
  end.

(** [info] is what [mt5.symbol_info(SYMBOL)] answered. *)
Definition calculate_entry_sl_tp (info : option Terminal.SymbolInfo)
    (d : Direction) (entry_price poi_level mss_level : Q) (use_mss_sl : bool)
    : result (reply TradeParameters) :=
  match info with
  | None => mret (ErrorReply "Failed to get symbol info")
  | Some symbol_info =>
      let point := Terminal.point symbol_info in
      let '(sl, risk, tp) :=
        levels d entry_price poi_level mss_level use_mss_sl point in
      sl_pts ← py_div (Qabs (entry_price - sl)) point;
      tp_pts ← py_div (Qabs (tp - entry_price)) point;
      risk_reward ← (if 0 <? sl_pts then py_div tp_pts sl_pts else mret 0);
      rsk_pips ← py_div sl_pts 10;
      rwd_pips ← py_div tp_pts 10;
      buffer_points ← py_div (sl_buffer point) point;
      mret (Report {| direction := d;
                      entry_price := Num.py_round entry_price 2;
                      stop_loss := Num.py_round sl 2;
                      take_profit := Num.py_round tp 2;
                      sl_points := Num.py_round sl_pts 1;
                      tp_points := Num.py_round tp_pts 1;
                      risk_reward_ratio := Num.py_round risk_reward 2;
                      risk_pips := Num.py_round rsk_pips 1;
                      reward_pips := Num.py_round rwd_pips 1;
                      sl_buffer_used := Num.py_round buffer_points 1 |})
  end.

End Risk.

(* ===================================================================== *)
(** * [send_order] *)
(* ===================================================================== *)

Module Orders.

Import Terminal.

Definition SYMBOL : string := "XAUUSD".
Definition LOT : Q := 1 # 100.
Definition MAGIC_NUMBER : Z := 7777.

(** The JSON the tool returns. *)
Inductive Response : Type :=
  | SymbolInfoNotAvailable
  | FailedToSelectSymbol
  | FailedToGetCurrentPrice
  | OrderSendReturnedNone (request : TradeRequest)
  | OrderSent (outcome : OrderResult) (request : TradeRequest) (success : bool).

(** [send_order]: the response together with the requests that reached
    [mt5.order_send], in call order. *)
Definition send_order (mt5 : Answers) (d : Risk.Direction)
    (entry_price sl_price tp_price lot_size : Q) (note : string)
    : Response * list TradeRequest :=
  match symbol_info mt5 with
  | None => (SymbolInfoNotAvailable, [])
  | Some info =>
      if negb (visible info) && negb (symbol_select mt5)
      then (FailedToSelectSymbol, [])
      else
        match symbol_info_tick mt5 with
        | None => (FailedToGetCurrentPrice, [])
        | Some tick =>
            let '(order_type, execution_price) :=
              match d with
              | Risk.buy => (ORDER_TYPE_BUY, ask tick)
              | Risk.sell => (ORDER_TYPE_SELL, bid tick)
              end in
            let mode := filling_mode info in
            let filling :=
              if negb (Z.land mode 1 =? 0)%Z then ORDER_FILLING_FOK
              else if negb (Z.land mode 2 =? 0)%Z then ORDER_FILLING_IOC
              else ORDER_FILLING_RETURN in
            let request :=
              {| action := TRADE_ACTION_DEAL;
                 symbol := SYMBOL;
                 volume := lot_size;
                 type := order_type;
                 price := execution_price;
                 sl := sl_price;
                 tp := tp_price;
                 deviation := 20;
                 magic := MAGIC_NUMBER;
                 comment := note;
                 type_time := ORDER_TIME_GTC;
                 type_filling := filling |} in
            match order_send mt5 request with
            | None => (OrderSendReturnedNone request, [request])
            | Some outcome =>
                (OrderSent outcome request
                   (retcode outcome =? TRADE_RETCODE_DONE)%Z,
                 [request])
            end
        end
  end.

End Orders.

(* ===================================================================== *)
(** * Approval of an interrupted [send_order] call *)
(* ===================================================================== *)

Module Approval.

(** A value of a tool-call argument. *)
Inductive PyVal : Type :=
  | VFloat (q : Q)
  | VInt (z : Z)
  | VStr (s : string).

(** An entry of [interrupt_data["action_requests"]]. *)
Record ActionRequest : Type := mkAction {
  name : string;
  args : gmap string PyVal
}.

(** An entry of [resume_value["decisions"]]. *)
Inductive Decision : Type :=
  | approve
  | reject (message : string)
  | edit (edited_action : ActionRequest).

(** [resume_value["decisions"]] *)
Abbreviation ResumeValue := (list Decision).

(** What [stream_agent_with_interrupt] observes when the agent is resumed:
    the run completes, stops at a further interrupt, or raises. *)
Inductive StreamOutcome : Type :=
  | Completed
  | Interrupted (action_requests : list ActionRequest)
  | StreamRaised.

(** The agent, as far as the handlers use it: resumed with a
    [Command(resume=...)], it streams to one of the outcomes. *)
Definition Agent : Type := ResumeValue -> StreamOutcome.

(** The fields of the global [agent_state] that [handle_approval] uses. *)
Record AgentState : Type := mkState {
  agent : option Agent;
  current_thread_id : string;
  pending_interrupt : option (list ActionRequest)
}.

Definition set_pending (st : AgentState)
    (p : option (list ActionRequest)) : AgentState :=
  {| agent := agent st;
     current_thread_id := current_thread_id st;
     pending_interrupt := p |}.

(** The body of [for action in action_requests] in the edit branch of
    [handle_approval]. *)
Definition edit_decision (entry_price sl_price tp_price lot_size : Q)
    (action : ActionRequest) : Decision :=
  let edited_args := args action in                      (* .copy() *)
  let edited_args := <["entry_price" := VFloat entry_price]> edited_args in
  let edited_args := <["sl_price" := VFloat sl_price]> edited_args in
  let edited_args := <["tp_price" := VFloat tp_price]> edited_args in
  let edited_args := <["lot_size" := VFloat lot_size]> edited_args in
  edit {| name := name action; args := edited_args |}.

(** The [resume_value] that [handle_approval] builds ([None] when the
    decision is none of the three words). *)
Definition resume_value_of (decision : string)
    (entry_price sl_price tp_price lot_size : Q)
    (action_requests : list ActionRequest) : option ResumeValue :=
  if decide (decision = "approve") then
    Some ((fun _ => approve) <$> action_requests)
  else if decide (decision = "reject") then
    Some ((fun _ => reject "Trade rejected by user") <$> action_requests)
  else if decide (decision = "edit") then
    Some (edit_decision entry_price sl_price tp_price lot_size
            <$> action_requests)
  else None.

(** Outcome of [handle_approval]: the new [agent_state], the resume
    commands that reached the agent (in call order) and whether the
    approval panel stays visible. *)
Record Handled : Type := mkHandled {
  state : AgentState;
  resumed_with : list ResumeValue;
  panel_visible : bool
}.

Definition handle_approval (st : AgentState) (decision : string)
    (entry_price sl_price tp_price lot_size : Q) : Handled :=
  match pending_interrupt st with
  | None => {| state := st; resumed_with := []; panel_visible := false |}
  | Some action_requests =>
      match resume_value_of decision entry_price sl_price tp_price lot_size
              action_requests, agent st with
      | Some resume_value, Some run =>
          match run resume_value with
          | Interrupted interrupt_data =>
              {| state := set_pending st (Some interrupt_data);
                 resumed_with := [resume_value];
                 panel_visible := true |}
          | Completed | StreamRaised =>
              {| state := set_pending st None;
                 resumed_with := [resume_value];
                 panel_visible := false |}
          end
      | _, _ =>
          {| state := set_pending st None;
             resumed_with := [];
             panel_visible := false |}
      end
  end.

(** The console handler of [main] in [app.py].  The operator's keyboard is
    an input: [answer n key] is the stripped line typed at the prompt for
    argument [key] of action number [n]. *)
Section Console.

(** Python's [float(s)] and [int(s)]; [None] stands for [ValueError]. *)
Variable py_float : string -> option Q.
Variable py_int : string -> option Z.

(** The body of [for key, original_value in action['args'].items()]. *)
Definition edited_value (new_value_input : string)
    (original_value : PyVal) : PyVal :=
  if decide (new_value_input = "") then original_value
  else
    match original_value with
    | VFloat _ =>
        match py_float new_value_input with
        | Some q => VFloat q
        | None => VStr new_value_input
        end
    | VInt _ =>
        match py_int new_value_input with
        | Some z => VInt z
        | None => VStr new_value_input
        end
    | VStr _ => VStr new_value_input
    end.

Definition console_edit_decision (answer : nat -> string -> string)
    (n : nat) (action : ActionRequest) : Decision :=
  edit {| name := name action;
          args := map_imap
                    (fun key original_value =>
                       Some (edited_value (answer n key) original_value))
                    (args action) |}.

(** The [resume_value] that [main] builds from the typed decision. *)
Definition console_resume_value (decision reason : string)
    (answer : nat -> string -> string)
    (action_requests : list ActionRequest) : ResumeValue :=
  if decide (decision = "approve") then
    (fun _ => approve) <$> action_requests
  else if decide (decision = "reject") then
    (fun _ => reject (if decide (reason = "")
                      then "Trade rejected by user" else reason))
      <$> action_requests
  else if decide (decision = "edit") then
    imap (console_edit_decision answer) action_requests
  else
    (fun _ => reject "Invalid input - trade cancelled") <$> action_requests.

End Console.

End Approval.

(* ===================================================================== *)
(** * Further functions: market data, filling mode, return codes, the
      agent's stream and the analysis run *)
(* ===================================================================== *)

From Stdlib Require Import PrimFloat.
From stdpp Require Import pretty.

Local Open Scope Q_scope.

(* ===================================================================== *)
(** * [get_market_data] *)
(* ===================================================================== *)

Module MarketData.

Inductive Timeframe : Type :=
  | TIMEFRAME_M1
  | TIMEFRAME_M15
  | TIMEFRAME_H1
  | TIMEFRAME_H4
  | TIMEFRAME_D1.

(** The dictionary [tf_map] of the tool. *)
Definition tf_map : gmap string Timeframe :=
  <["1M" := TIMEFRAME_M1]>
  (<["15M" := TIMEFRAME_M15]>
  (<["1H" := TIMEFRAME_H1]>
  (<["4H" := TIMEFRAME_H4]>
  (<["D1" := TIMEFRAME_D1]> ∅)))).

Record LatestCandle : Type := mkLatest {
  latest_time : Z;
  latest_open : Q;
  latest_high : Q;
  latest_low : Q;
  latest_close : Q;
  latest_range : Q
}.

Record MarketReport : Type := mkReport {
  symbol : string;
  timeframe : string;
  bars_count : nat;
  latest_candle : LatestCandle;
  recent_high : Q;
  recent_low : Q;
  data_file : string
}.

Definition invalid_timeframe : string :=
  "Error: Invalid timeframe. Use: ['1M', '15M', '1H', '4H', 'D1']".

Definition failed_to_fetch (sym tf : string) : string :=
  "Error: Failed to fetch data for " +:+ sym +:+ " on " +:+ tf.

(** [copy_rates sym tf bars] is what
    [mt5.copy_rates_from_pos(symbol, tf_map[timeframe], 0, bars)] answers
    ([None] when the terminal answers [None]). *)
Definition get_market_data
    (copy_rates : string -> Timeframe -> Z -> option DataFrame)
    (sym tf : string) (bars : Z) : result (reply MarketReport) :=
  match tf_map !! tf with
  | None => mret (ErrorReply invalid_timeframe)
  | Some mapped =>
      match copy_rates sym mapped bars with
      | None => mret (ErrorReply (failed_to_fetch sym tf))
      | Some df =>
          if decide (length df = 0%nat)
          then mret (ErrorReply (failed_to_fetch sym tf))
          else
            latest ← iloc_last df;
            let high_low_range := high latest - low latest in
            highest ← series_max (high <$> last_n 20 df);
            lowest ← series_min (low <$> last_n 20 df);
            mret (Report
              {| symbol := sym;
                 timeframe := tf;
                 bars_count := length df;
                 latest_candle :=
                   {| latest_time := time latest;
                      latest_open := open latest;
                      latest_high := high latest;
                      latest_low := low latest;
                      latest_close := close latest;
                      latest_range := high_low_range |};
                 recent_high := highest;
                 recent_low := lowest;
                 data_file :=
                   "/analysis/" +:+ sym +:+ "_" +:+ tf +:+ "_data.csv" |})
      end
  end.

(** The values of [Literal["1M", "15M", "1H", "4H", "D1"]]. *)
Definition timeframes : list string := ["1M"; "15M"; "1H"; "4H"; "D1"].

(** What a call of the tool gives: the [@tool] wrapper validates the
    arguments against the signature first, and refuses a [timeframe]
    outside the [Literal] with a [ValidationError] before the body runs. *)
Inductive Invoked : Type :=
  | ValidationError
  | Ran (outcome : result (reply MarketReport)).

Definition invoke
    (copy_rates : string -> Timeframe -> Z -> option DataFrame)
    (sym tf : string) (bars : Z) : Invoked :=
  if decide (tf ∈ timeframes)
  then Ran (get_market_data copy_rates sym tf bars)
  else ValidationError.

End MarketData.

(* ===================================================================== *)
(** * [get_filling_mode] *)
(* ===================================================================== *)

Module FillingProbe.

(** The dictionary handed to [mt5.order_check]. *)
Record CheckRequest : Type := mkCheck {
  action : Terminal.Action;
  symbol : string;
  volume : Q;
  type : Terminal.OrderType;
  price : Q;
  type_filling : Terminal.Filling;
  type_time : Terminal.TypeTime
}.

(** What the terminal answers to the calls of the helper:
    [mt5.symbol_info(symbol)] (as far as it is read: its [volume_min]),
    [mt5.symbol_info_tick(symbol)] and [mt5.order_check] (its [retcode]);
    [None] stands for the answer [None]. *)
Record Answers : Type := mkAnswers {
  volume_min : option Q;
  symbol_info_tick : option Terminal.Tick;
  order_check : CheckRequest -> option Z
}.

(** The helper returns a mode, or raises [AttributeError] when it reads a
    field of a missing symbol information or tick. *)
Inductive Outcome : Type :=
  | Chosen (mode : Terminal.Filling)
  | AttributeErrorRaised.

Definition filling_modes : list Terminal.Filling :=
  [ Terminal.ORDER_FILLING_FOK;
    Terminal.ORDER_FILLING_IOC;
    Terminal.ORDER_FILLING_RETURN ].

(** The [request] built at each turn of the loop. *)
Definition probe_request (sym : string) (lot : Q) (tick : Terminal.Tick)
    (mode : Terminal.Filling) : CheckRequest :=
  {| action := Terminal.TRADE_ACTION_DEAL;
     symbol := sym;
     volume := lot;
     type := Terminal.ORDER_TYPE_BUY;
     price := Terminal.ask tick;
     type_filling := mode;
     type_time := Terminal.ORDER_TIME_GTC |}.

(** [for mode in filling_modes: ...] with its early [return]; the default
    fallback follows the loop. *)
Fixpoint try_modes (mt5 : Answers) (sym : string)
    (modes : list Terminal.Filling) : Outcome :=
  match modes with
  | [] => Chosen Terminal.ORDER_FILLING_RETURN
  | mode :: rest =>
      match volume_min mt5, symbol_info_tick mt5 with
      | Some lot, Some tick =>
          match order_check mt5 (probe_request sym lot tick mode) with
          | Some retcode =>
              if (retcode =? Terminal.TRADE_RETCODE_DONE)%Z
              then Chosen mode
              else try_modes mt5 sym rest
          | None => try_modes mt5 sym rest
          end
      | _, _ => AttributeErrorRaised
      end
  end.

Definition get_filling_mode (mt5 : Answers) (sym : string) : Outcome :=
  try_modes mt5 sym filling_modes.

End FillingProbe.

(* ===================================================================== *)
(** * [get_retcode_description] *)
(* ===================================================================== *)

Module Retcode.

Definition retcode_dict : gmap Z string :=
  list_to_map
    [ (10004%Z, "TRADE_RETCODE_REQUOTE - Requote");
      (10006%Z, "TRADE_RETCODE_REJECT - Request rejected");
      (10007%Z, "TRADE_RETCODE_CANCEL - Request canceled by trader");
      (10008%Z, "TRADE_RETCODE_PLACED - Order placed");
      (10009%Z, "TRADE_RETCODE_DONE - Request completed");
      (10010%Z, "TRADE_RETCODE_DONE_PARTIAL - Only part of the request was completed");
      (10011%Z, "TRADE_RETCODE_ERROR - Request processing error");
      (10012%Z, "TRADE_RETCODE_TIMEOUT - Request canceled by timeout");
      (10013%Z, "TRADE_RETCODE_INVALID - Invalid request");
      (10014%Z, "TRADE_RETCODE_INVALID_VOLUME - Invalid volume in the request");
      (10015%Z, "TRADE_RETCODE_INVALID_PRICE - Invalid price in the request");
      (10016%Z, "TRADE_RETCODE_INVALID_STOPS - Invalid stops in the request");
      (10017%Z, "TRADE_RETCODE_TRADE_DISABLED - Trade is disabled");
      (10018%Z, "TRADE_RETCODE_MARKET_CLOSED - Market is closed");
      (10019%Z, "TRADE_RETCODE_NO_MONEY - There is not enough money to complete the request");
      (10020%Z, "TRADE_RETCODE_PRICE_CHANGED - Prices changed");
      (10021%Z, "TRADE_RETCODE_PRICE_OFF - There are no quotes to process the request");
      (10022%Z, "TRADE_RETCODE_INVALID_EXPIRATION - Invalid order expiration date");
      (10023%Z, "TRADE_RETCODE_ORDER_CHANGED - Order state changed");
      (10024%Z, "TRADE_RETCODE_TOO_MANY_REQUESTS - Too frequent requests");
      (10025%Z, "TRADE_RETCODE_NO_CHANGES - No changes in request");
      (10026%Z, "TRADE_RETCODE_SERVER_DISABLES_AT - Autotrading disabled by server");
      (10027%Z, "TRADE_RETCODE_CLIENT_DISABLES_AT - Autotrading disabled by client terminal");
      (10028%Z, "TRADE_RETCODE_LOCKED - Request locked for processing");
      (10029%Z, "TRADE_RETCODE_FROZEN - Order or position frozen");
      (10030%Z, "TRADE_RETCODE_INVALID_FILL - Invalid order filling type") ].

(** [retcode_dict.get(retcode, f"Unknown retcode: {retcode}")] *)
Definition get_retcode_description (retcode : Z) : string :=
  default ("Unknown retcode: " +:+ pretty retcode) (retcode_dict !! retcode).

End Retcode.

(* ===================================================================== *)
(** * [stream_agent_with_interrupt] *)
(* ===================================================================== *)

Module Stream.

(** The [value] of an interrupt: something falsy; a dictionary, with the
    list under its key ["action_requests"] ([None] when the key is missing
    or holds something falsy); or another truthy value, which has no
    [get]. *)
Inductive InterruptValue : Type :=
  | Falsy
  | Payload (action_requests : option (list Approval.ActionRequest))
  | Other.

(** A chunk of [agent.stream(..., stream_mode="updates")], as far as the
    control flow reads it: the values of the interrupts under its key
    ["__interrupt__"], or [None] when it has no such key.  The node outputs
    of a chunk (dictionaries of state updates or [None]) only feed the
    rendered HTML, and their messages are handled inside a [try]; they are
    left out. *)
Record Chunk : Type := mkChunk {
  interrupts : option (list InterruptValue)
}.

(** What the generator [agent.stream(...)] does when iterated: it yields
    [chunks] and then either is exhausted or raises. *)
Record Streamed : Type := mkStreamed {
  chunks : list Chunk;
  raises : bool
}.

(** [format_interrupt_request_beautiful], as far as it can fail: for every
    action request it evaluates [args.get('direction', 'N/A').upper()], so
    a ["direction"] that is not a string raises [AttributeError]; the
    other arguments are only interpolated into the HTML. *)
Definition renders (action : Approval.ActionRequest) : bool :=
  match Approval.args action !! "direction" with
  | None => true
  | Some (Approval.VStr _) => true
  | Some (Approval.VFloat _) => false
  | Some (Approval.VInt _) => false
  end.

(** The loop of [process_stream].  [Interrupted data] stands for the
    return value [(output_html, True, data)], [Completed] for
    [(output_html, False, None)]; [StreamRaised] for an exception: of the
    generator, of [chunk["__interrupt__"][0]] on an empty sequence, of
    [interrupt_data.get] on a value that is no dictionary, or of
    [format_interrupt_request_beautiful], which is called on the action
    requests before they are returned. *)
Fixpoint process_stream (rest : list Chunk) (raises_at_end : bool)
    : Approval.StreamOutcome :=
  match rest with
  | [] => if raises_at_end then Approval.StreamRaised else Approval.Completed
  | chunk :: later =>
      match interrupts chunk with
      | None => process_stream later raises_at_end
      | Some [] => Approval.StreamRaised
      | Some (Falsy :: _) => process_stream later raises_at_end
      | Some (Payload None :: _) => process_stream later raises_at_end
      | Some (Payload (Some []) :: _) => process_stream later raises_at_end
      | Some (Payload (Some (action :: more)) :: _) =>
          if forallb renders (action :: more)
          then Approval.Interrupted (action :: more)
          else Approval.StreamRaised
      | Some (Other :: _) => Approval.StreamRaised
      end
  end.

Definition stream_agent_with_interrupt (stream : Streamed)
    : Approval.StreamOutcome :=
  process_stream (chunks stream) (raises stream).

(** The chunks at which the loop of [process_stream] stops to ask for
    approval: the first interrupt carries a non-empty list of action
    requests. *)
Definition actionable (chunk : Chunk)
    : option (list Approval.ActionRequest) :=
  match interrupts chunk with
  | Some (Payload (Some (action :: more)) :: _) => Some (action :: more)
  | _ => None
  end.

(** The chunks at which reading the first interrupt raises. *)
Definition faulty (chunk : Chunk) : bool :=
  match interrupts chunk with
  | Some [] => true
  | Some (Other :: _) => true
  | _ => false
  end.

End Stream.

(* ===================================================================== *)
(** * [run_agent_analysis] *)
(* ===================================================================== *)

Module Analysis.

(** The global [agent_state], with the flag by which [run_agent_analysis]
    guards itself. *)
Record RunState : Type := mkRun {
  is_running : bool;
  core : Approval.AgentState
}.

(** What the collaborators answer during one run: the two start-up checks,
    the agent that [create_7ms_agent] builds ([None] when it raises), the
    fresh [uuid4] and what the agent streams for the initial message. *)
Record Startup : Type := mkStartup {
  initialize_mt5 : bool;
  check_symbol : bool;
  create_7ms_agent : option Approval.Agent;
  thread_id : string;
  initial_stream : Stream.Streamed
}.

(** What the function hands to the GUI next to the HTML: whether the
    approval panel is shown and the values its three number fields are
    filled with. *)
Record Shown : Type := mkShown {
  approval_visible : bool;
  prefilled : option (Approval.PyVal * Approval.PyVal * Approval.PyVal)
}.

Definition hidden : Shown :=
  {| approval_visible := false; prefilled := None |}.

(** [action['args'].get(key, 0)] *)
Definition arg_or_zero (action : Approval.ActionRequest) (key : string)
    : Approval.PyVal :=
  default (Approval.VInt 0) (Approval.args action !! key).

Definition leave (agent : option Approval.Agent) (thread : string)
    (pending : option (list Approval.ActionRequest)) : RunState :=
  {| is_running := false;                                 (* [finally] *)
     core := {| Approval.agent := agent;
                Approval.current_thread_id := thread;
                Approval.pending_interrupt := pending |} |}.

(** The part of [run_agent_analysis] after the agent is known: a new
    thread, the stream, and the branch on [has_interrupt].  After the loop
    [for idx, action in enumerate(interrupt_data)] the variable [action]
    is the last action request. *)
Definition analyse (agent : Approval.Agent) (env : Startup)
    : RunState * Shown :=
  match Stream.stream_agent_with_interrupt (initial_stream env) with
  | Approval.Interrupted interrupt_data =>
      (leave (Some agent) (thread_id env) (Some interrupt_data),
       {| approval_visible := true;
          prefilled :=
            (fun action =>
               (arg_or_zero action "entry_price",
                arg_or_zero action "sl_price",
                arg_or_zero action "tp_price"))
            <$> last interrupt_data |})
  | Approval.Completed | Approval.StreamRaised =>
      (leave (Some agent) (thread_id env) None, hidden)
  end.

(** [run_agent_analysis]: the state it leaves and what it shows. *)
Definition run_agent_analysis (st : RunState) (env : Startup)
    : RunState * Shown :=
  if is_running st then (st, hidden)
  else
    (* is_running = True; pending_interrupt = None *)
    let thread0 := Approval.current_thread_id (core st) in
    match Approval.agent (core st) with
    | None =>
        if negb (initialize_mt5 env) then (leave None thread0 None, hidden)
        else if negb (check_symbol env) then (leave None thread0 None, hidden)
        else
          match create_7ms_agent env with
          | None => (leave None thread0 None, hidden)
          | Some agent => analyse agent env
          end
    | Some agent => analyse agent env
    end.

End Analysis.

(* ===================================================================== *)
(** * The prompts of [main] *)
(* ===================================================================== *)

Module Console.

Section Keyboard.

(** Python's [float(s)] and [int(s)] ([None] stands for [ValueError]),
    [s.strip()] and [s.lower()]. *)
Variable py_float : string -> option Q.
Variable py_int : string -> option Z.
Variable py_strip : string -> string.
Variable py_lower : string -> string.

(** The lines the operator types, as [input] returns them: at the
    decision prompt, at the prompt for the rejection reason, and in edit
    mode at the prompt for argument [key] of action number [n]. *)
Record Typed : Type := mkTyped {
  decision_line : string;
  reason_line : string;
  value_line : nat -> string -> string
}.

(** The [resume_value] that [main] builds from what is typed:
    [decision = input(...).strip().lower()],
    [reason = input(...).strip()] and
    [new_value_input = input(...).strip()]. *)
Definition typed_resume_value (typed : Typed)
    (action_requests : list Approval.ActionRequest) : Approval.ResumeValue :=
  let decision := py_lower (py_strip (decision_line typed)) in
  let reason := py_strip (reason_line typed) in
  Approval.console_resume_value py_float py_int decision reason
    (fun n key => py_strip (value_line typed n key))
    action_requests.

End Keyboard.

End Console.

(* ===================================================================== *)
(** * The arithmetic of [calculate_entry_sl_tp] in binary64 *)
(* ===================================================================== *)

Module Binary64.

Local Open Scope float_scope.

(** Python's float division. *)
Definition py_div (a b : float) : result float :=
  if b =? 0 then Raise ZeroDivisionError else Ok (a / b).

(** [sl_buffer = sl_buffer_pips * 10 * point]: the product of the two
    integers is converted for the multiplication with the float. *)
Definition sl_buffer (point : float) : float := 200 * point.

(** The two branches of [if direction == "buy": ... else: ...]. *)
Definition levels (d : Risk.Direction) (entry_price poi_level mss_level : float)
    (use_mss_sl : bool) (point : float) : float * float * float :=
  match d with
  | Risk.buy =>
      let sl := if use_mss_sl then mss_level - sl_buffer point
                else poi_level - sl_buffer point in
      let risk := entry_price - sl in
      let tp := entry_price + risk * 2 in
      (sl, risk, tp)
  | Risk.sell =>
      let sl := if use_mss_sl then mss_level + sl_buffer point
                else poi_level + sl_buffer point in
      let risk := sl - entry_price in
      let tp := entry_price - risk * 2 in
      (sl, risk, tp)
  end.

(** The values of [sl], [tp] and [risk_reward] before they are rounded for
    the report. *)
Definition unrounded (d : Risk.Direction) (entry_price poi_level mss_level : float)
    (use_mss_sl : bool) (point : float) : result (float * float * float) :=
  let '(sl, risk, tp) :=
    levels d entry_price poi_level mss_level use_mss_sl point in
  match py_div (PrimFloat.abs (entry_price - sl)) point with
  | Raise e => Raise e
  | Ok sl_points =>
      match py_div (PrimFloat.abs (tp - entry_price)) point with
      | Raise e => Raise e
      | Ok tp_points =>
          if 0 <? sl_points then
            match py_div tp_points sl_points with
            | Raise e => Raise e
            | Ok risk_reward => Ok (sl, tp, risk_reward)
            end
          else Ok (sl, tp, 0)
      end
  end.

End Binary64.

(* ===================================================================== *)
(** * Properties of detections, and the series of the scenarios *)
(* ===================================================================== *)

Module Props.

(** An order block that comes from an anchor candle of the frame: its zone
    is the candle's range, its gap is positive and its distance is measured
    from the close of the last candle. *)
Definition anchored (df : DataFrame) (ob : OrderBlocks.OrderBlock) : Prop :=
  exists anchor latest,
    anchor ∈ df /\ last df = Some latest /\
    OrderBlocks.zone_low ob = low anchor /\
    OrderBlocks.zone_high ob = high anchor /\
    0 < OrderBlocks.gap_size ob /\
    OrderBlocks.current_price_distance ob =
      match OrderBlocks.type ob with
      | OrderBlocks.bullish_ob => close latest - OrderBlocks.zone_high ob
      | OrderBlocks.bearish_ob => OrderBlocks.zone_low ob - close latest
      end.

(** A sweep found at a loop index [i] between 5 and [len - 3], whose
    confirmation is the candle at [i + 1] of the frame. *)
Definition confirmed (df : DataFrame) (s : LiquiditySweep.Sweep) : Prop :=
  exists (i : nat) current next1,
    (5 <= i <= length df - 3)%nat /\ (i + 1 < length df)%nat /\
    df !! i = Some current /\ df !! (i + 1)%nat = Some next1 /\
    LiquiditySweep.sweep_time s = time current /\
    LiquiditySweep.confirmation_candle s = time next1.

End Props.

Module Scenario.

Definition candle (t : Z) (o h l c : Q) : Candle :=
  {| time := t; open := o; high := h; low := l; close := c |}.

(** A bearish order block: the second candle gaps below the low of the
    first, the third trades back up into it and closes at 96. *)
Definition bearish_series : DataFrame :=
  [ candle 1 100 101 99 100;
    candle 2 98 (985 # 10) 97 (975 # 10);
    candle 3 98 (995 # 10) 95 96 ].

(** A bullish order block whose anchor candle has no range. *)
Definition flat_anchor_series : DataFrame :=
  [ candle 1 100 100 100 100;
    candle 2 101 102 101 102;
    candle 3 101 101 (995 # 10) 100 ].

(** Scenario B: the candle at index 5 dips below the low of the five
    candles before it (1900) and closes back above at 1901.5; the next
    candle stays above 1900 and closes at 1902. *)
Definition sweep_series : DataFrame :=
  [ candle 1 1903 1905 1902 1904;
    candle 2 1904 1905 1901 1902;
    candle 3 1902 1904 1900 1903;
    candle 4 1903 1904 1902 1903;
    candle 5 1903 1904 1901 1902;
    candle 6 1901 1902 1899 (19015 # 10);
    candle 7 (19015 # 10) (19025 # 10) (19005 # 10) 1902;
    candle 8 1902 1903 1901 1902 ].

Definition sweep_found : LiquiditySweep.Sweep :=
  {| LiquiditySweep.type := LiquiditySweep.bullish_liq_sweep;
     LiquiditySweep.condition := LiquiditySweep.wick_sweep;
     LiquiditySweep.sweep_time := 6;
     LiquiditySweep.swept_level := 1900;
     LiquiditySweep.detail := LiquiditySweep.WickLow 1899 (19015 # 10);
     LiquiditySweep.confirmation_candle := 7;
     LiquiditySweep.valid := true |}.

Definition sweep_report : LiquiditySweep.SweepReport :=
  {| LiquiditySweep.symbol := "XAUUSD";
     LiquiditySweep.sweeps_detected := 1;
     LiquiditySweep.recent_sweeps := [sweep_found];
     LiquiditySweep.current_price := 1902 |}.

(** The lowest candle has no range and the next candle trades above it. *)
Definition flat_low_series : DataFrame :=
  [ candle 1 100 100 100 100;
    candle 2 (1005 # 10) 101 (1005 # 10) 101 ].

(** The lowest candle is followed by a break of its high; the candle in
    between closes above the high of the lowest one. *)
Definition shift_series : DataFrame :=
  [ candle 1 102 103 101 102;
    candle 2 101 102 100 101;
    candle 3 101 102 101 102;
    candle 4 102 104 102 103;
    candle 5 103 105 103 104 ].

Definition shift_report : StructureShift.MssReport :=
  {| StructureShift.symbol := "XAUUSD";
     StructureShift.mss_found := true;
     StructureShift.mss_level := 102;
     StructureShift.mss_time := 4;
     StructureShift.mss_zone_start := 100;
     StructureShift.mss_zone_end := 102;
     StructureShift.pois_in_zone := 1;
     StructureShift.pois :=
       [ {| StructureShift.type := StructureShift.Order_Block;
            StructureShift.poi_time := 3;
            StructureShift.zone_low := 101;
            StructureShift.zone_high := 102;
            StructureShift.gap_size := None |} ];
     StructureShift.current_price := 104 |}.

(** A terminal that quotes 4190.8 / 4191.0 and fills every order. *)
Definition quoting_terminal : Terminal.Answers :=
  {| Terminal.symbol_info :=
       Some {| Terminal.visible := true;
               Terminal.filling_mode := 1;
               Terminal.point := 1 # 100 |};
     Terminal.symbol_select := true;
     Terminal.symbol_info_tick :=
       Some {| Terminal.ask := 4191; Terminal.bid := 41908 # 10 |};
     Terminal.order_send := fun request =>
       Some {| Terminal.retcode := Terminal.TRADE_RETCODE_DONE;
               Terminal.deal := 1;
               Terminal.order := 1;
               Terminal.result_volume := Terminal.volume request;
               Terminal.result_price := Terminal.price request |} |}.

(** Scenario D: the proposed call of [send_order] that waits for approval. *)
Definition proposed_order : Approval.ActionRequest :=
  {| Approval.name := "send_order";
     Approval.args :=
       <["direction" := Approval.VStr "buy"]>
       (<["entry_price" := Approval.VFloat 4190]>
       (<["sl_price" := Approval.VFloat 4178]>
       (<["tp_price" := Approval.VFloat 4214]>
       (<["lot_size" := Approval.VFloat (1 # 100)]> ∅)))) |}.

(** An agent that runs to completion whatever it is resumed with. *)
Definition waiting_state : Approval.AgentState :=
  {| Approval.agent := Some (fun _ => Approval.Completed);
     Approval.current_thread_id := "thread-1";
     Approval.pending_interrupt := Some [proposed_order] |}.

Definition bearish_block : OrderBlocks.OrderBlock :=
  {| OrderBlocks.type := OrderBlocks.bearish_ob;
     OrderBlocks.timeframe := OrderBlocks.TF_4H;
     OrderBlocks.ob_time := 1;
     OrderBlocks.zone_low := 99;
     OrderBlocks.zone_high := 101;
     OrderBlocks.gap_size := 1;
     OrderBlocks.strength := OrderBlocks.reversal;
     OrderBlocks.current_price_distance := 3 |}.

Definition bearish_report : OrderBlocks.OrderBlockReport :=
  {| OrderBlocks.symbol := "XAUUSD";
     OrderBlocks.report_timeframe := OrderBlocks.TF_4H;
     OrderBlocks.order_blocks_found := 1;
     OrderBlocks.order_blocks := [bearish_block] |}.

Definition flat_block : OrderBlocks.OrderBlock :=
  {| OrderBlocks.type := OrderBlocks.bullish_ob;
     OrderBlocks.timeframe := OrderBlocks.TF_4H;
     OrderBlocks.ob_time := 1;
     OrderBlocks.zone_low := 100;
     OrderBlocks.zone_high := 100;
     OrderBlocks.gap_size := 1;
     OrderBlocks.strength := OrderBlocks.reversal;
     OrderBlocks.current_price_distance := 0 |}.

Definition flat_report : OrderBlocks.OrderBlockReport :=
  {| OrderBlocks.symbol := "XAUUSD";
     OrderBlocks.report_timeframe := OrderBlocks.TF_4H;
     OrderBlocks.order_blocks_found := 1;
     OrderBlocks.order_blocks := [flat_block] |}.

Definition flat_low_report : StructureShift.MssReport :=
  {| StructureShift.symbol := "XAUUSD";
     StructureShift.mss_found := true;
     StructureShift.mss_level := 100;
     StructureShift.mss_time := 2;
     StructureShift.mss_zone_start := 100;
     StructureShift.mss_zone_end := 100;
     StructureShift.pois_in_zone := 0;
     StructureShift.pois := [];
     StructureShift.current_price := 101 |}.

(** XAUUSD as the broker describes it: two decimals, so a point is 0.01. *)
Definition gold : Terminal.SymbolInfo :=
  {| Terminal.visible := true;
     Terminal.filling_mode := 1;
     Terminal.point := 1 # 100 |}.

End Scenario.

(* ===================================================================== *)
(** * Patterns behind the detections *)
(* ===================================================================== *)

Module Pattern.

(** The bullish test of [identify_order_blocks] on three consecutive
    candles: the second closes above the high of the first and opens with a
    gap above it, the third trades back down to that high. *)
Definition bullish (c1 c2 c3 : Candle) : Prop :=
  high c1 < close c2 /\ 0 < open c2 - high c1 /\ low c3 <= high c1.

(** Its mirror image. *)
Definition bearish (c1 c2 c3 : Candle) : Prop :=
  close c2 < low c1 /\ 0 < low c1 - open c2 /\ low c1 <= high c3.

(** An order block read off the three candles that start at position [i]:
    the block is stamped with the first candle and the frame's timeframe,
    and its kind is one the direction filter lets through. *)
Definition order_block_at (df : DataFrame) (tf : OrderBlocks.Timeframe)
    (direction : OrderBlocks.Direction) (i : nat)
    (ob : OrderBlocks.OrderBlock) : Prop :=
  exists c1 c2 c3,
    df !! i = Some c1 /\ df !! (i + 1)%nat = Some c2 /\
    df !! (i + 2)%nat = Some c3 /\
    OrderBlocks.ob_time ob = time c1 /\
    OrderBlocks.zone_low ob = low c1 /\
    OrderBlocks.zone_high ob = high c1 /\
    OrderBlocks.timeframe ob = tf /\
    OrderBlocks.strength ob = OrderBlocks.strength_of tf /\
    match OrderBlocks.type ob with
    | OrderBlocks.bullish_ob =>
        OrderBlocks.wants_bullish direction = true /\
        bullish c1 c2 c3 /\
        OrderBlocks.gap_size ob = open c2 - high c1
    | OrderBlocks.bearish_ob =>
        OrderBlocks.wants_bearish direction = true /\
        bearish c1 c2 c3 /\
        OrderBlocks.gap_size ob = low c1 - open c2
    end.

(** The two tests as the loop evaluates them. *)
Definition bullish_fires (direction : OrderBlocks.Direction)
    (c1 c2 c3 : Candle) : bool :=
  OrderBlocks.wants_bullish direction && (high c1 <? close c2)
  && (0 <? open c2 - high c1) && (low c3 <=? high c1).

Definition bearish_fires (direction : OrderBlocks.Direction)
    (c1 c2 c3 : Candle) : bool :=
  OrderBlocks.wants_bearish direction && (close c2 <? low c1)
  && (0 <? low c1 - open c2) && (low c1 <=? high c3).

Definition bullish_block (tf : OrderBlocks.Timeframe)
    (c1 c2 latest : Candle) : OrderBlocks.OrderBlock :=
  {| OrderBlocks.type := OrderBlocks.bullish_ob;
     OrderBlocks.timeframe := tf;
     OrderBlocks.ob_time := time c1;
     OrderBlocks.zone_low := low c1;
     OrderBlocks.zone_high := high c1;
     OrderBlocks.gap_size := open c2 - high c1;
     OrderBlocks.strength := OrderBlocks.strength_of tf;
     OrderBlocks.current_price_distance := close latest - high c1 |}.

Definition bearish_block (tf : OrderBlocks.Timeframe)
    (c1 c2 latest : Candle) : OrderBlocks.OrderBlock :=
  {| OrderBlocks.type := OrderBlocks.bearish_ob;
     OrderBlocks.timeframe := tf;
     OrderBlocks.ob_time := time c1;
     OrderBlocks.zone_low := low c1;
     OrderBlocks.zone_high := high c1;
     OrderBlocks.gap_size := low c1 - open c2;
     OrderBlocks.strength := OrderBlocks.strength_of tf;
     OrderBlocks.current_price_distance := low c1 - close latest |}.

(** What one pass of the loop at index [i] appends to the list. *)
Definition found_at (df : DataFrame) (tf : OrderBlocks.Timeframe)
    (direction : OrderBlocks.Direction) (i : nat)
    : list OrderBlocks.OrderBlock :=
  match df !! (i - 2)%nat, df !! (i - 1)%nat, df !! i, last df with
  | Some c1, Some c2, Some c3, Some latest =>
      (if bullish_fires direction c1 c2 c3
       then [bullish_block tf c1 c2 latest] else [])
      ++ (if bearish_fires direction c1 c2 c3
          then [bearish_block tf c1 c2 latest] else [])
  | _, _, _, _ => []
  end.

(** The levels a sweep at loop index [i] is measured against: the lowest
    low and the highest high of the five candles before it. *)
Definition window_low (df : DataFrame) (i : nat) : result Q :=
  series_min (low <$> iloc_slice df (i - 5) i).

Definition window_high (df : DataFrame) (i : nat) : result Q :=
  series_max (high <$> iloc_slice df (i - 5) i).

(** A sweep read off the candle at position [i] and the one after it. *)
Definition sweep_at (df : DataFrame) (i : nat)
    (s : LiquiditySweep.Sweep) : Prop :=
  exists current next1,
    (5 <= i)%nat /\ df !! i = Some current /\
    df !! (i + 1)%nat = Some next1 /\
    LiquiditySweep.sweep_time s = time current /\
    LiquiditySweep.confirmation_candle s = time next1 /\
    LiquiditySweep.valid s = true /\
    let level := LiquiditySweep.swept_level s in
    match LiquiditySweep.type s, LiquiditySweep.condition s with
    | LiquiditySweep.bullish_liq_sweep, LiquiditySweep.wick_sweep =>
        window_low df i = Ok level /\
        LiquiditySweep.detail s
          = LiquiditySweep.WickLow (low current) (close current) /\
        low current < level /\ level < close current /\
        level < close next1 /\ level < low next1
    | LiquiditySweep.bullish_liq_sweep, LiquiditySweep.two_candle_rejection =>
        window_low df i = Ok level /\
        close current < open current /\ close current < level /\
        open next1 < close next1 /\ level < close next1 /\
        exists ratio inverse,
          LiquiditySweep.detail s = LiquiditySweep.Rejection ratio inverse
    | LiquiditySweep.bearish_liq_sweep, LiquiditySweep.wick_sweep =>
        window_high df i = Ok level /\
        LiquiditySweep.detail s
          = LiquiditySweep.WickHigh (high current) (close current) /\
        level < high current /\ close current < level /\
        close next1 < level /\ high next1 < level
    | LiquiditySweep.bearish_liq_sweep, LiquiditySweep.two_candle_rejection =>
        False
    end.

(** A point of interest read off the frame inside the zone
    [[zone_start, zone_end]]: a fair-value gap between the high of one
    candle and the low of the candle two positions later, or the range of a
    candle whose successor closes above its high. *)
Definition poi_at (df : DataFrame) (zone_start zone_end : Q)
    (p : StructureShift.POI) : Prop :=
  match StructureShift.type p with
  | StructureShift.FVG =>
      exists (i : nat) c1 c3,
        df !! i = Some c1 /\ df !! (i + 2)%nat = Some c3 /\
        StructureShift.poi_time p = time c3 /\
        StructureShift.zone_low p = high c1 /\
        StructureShift.zone_high p = low c3 /\
        StructureShift.gap_size p = Some (low c3 - high c1) /\
        high c1 < low c3 /\
        zone_start <= low c3 /\ low c3 <= zone_end
  | StructureShift.Order_Block =>
      exists (i : nat) prev candle,
        df !! i = Some prev /\ df !! (i + 1)%nat = Some candle /\
        StructureShift.poi_time p = time prev /\
        StructureShift.zone_low p = low prev /\
        StructureShift.zone_high p = high prev /\
        StructureShift.gap_size p = None /\
        high prev < close candle /\
        zone_start <= low candle /\ low candle <= zone_end
  end.

End Pattern.

(* ===================================================================== *)
(** * Further sample series *)
(* ===================================================================== *)

Module Sample.

Import Scenario.

(** A wick sweep of the low at 1900 on the sixth candle, confirmed by the
    seventh, then a small bearish candle closing below the new low at 1899
    that the ninth candle rejects. *)
Definition two_sweeps_series : DataFrame :=
  [ candle 1 1903 1905 1902 1904;
    candle 2 1904 1905 1901 1902;
    candle 3 1902 1904 1900 1903;
    candle 4 1903 1904 1902 1903;
    candle 5 1903 1904 1901 1902;
    candle 6 1901 1902 1899 (19015 # 10);
    candle 7 (19015 # 10) (19025 # 10) (19005 # 10) 1902;
    candle 8 (18985 # 10) 1900 1896 1898;
    candle 9 1898 1901 1898 1900;
    candle 10 1900 1901 1899 1900 ].

(** The sixth candle spikes above the high at 1905 of the five candles
    before it and closes back below; the seventh stays below. *)
Definition bearish_sweep_series : DataFrame :=
  [ candle 1 1903 1905 1902 1904;
    candle 2 1904 1905 1901 1902;
    candle 3 1902 1904 1900 1903;
    candle 4 1903 1904 1902 1903;
    candle 5 1903 1904 1901 1902;
    candle 6 1903 1906 1903 1904;
    candle 7 1904 (19045 # 10) 1902 1903;
    candle 8 1903 1904 1902 1903 ].

Definition wick_found : LiquiditySweep.Sweep := Scenario.sweep_found.

Definition rejection_found : LiquiditySweep.Sweep :=
  {| LiquiditySweep.type := LiquiditySweep.bullish_liq_sweep;
     LiquiditySweep.condition := LiquiditySweep.two_candle_rejection;
     LiquiditySweep.sweep_time := 8;
     LiquiditySweep.swept_level := 1899;
     LiquiditySweep.detail := LiquiditySweep.Rejection (5 # 40) (20 # 5);
     LiquiditySweep.confirmation_candle := 9;
     LiquiditySweep.valid := true |}.

Definition two_sweeps_report : LiquiditySweep.SweepReport :=
  {| LiquiditySweep.symbol := "XAUUSD";
     LiquiditySweep.sweeps_detected := 2;
     LiquiditySweep.recent_sweeps := [wick_found; rejection_found];
     LiquiditySweep.current_price := 1900 |}.

Definition bearish_sweep_found : LiquiditySweep.Sweep :=
  {| LiquiditySweep.type := LiquiditySweep.bearish_liq_sweep;
     LiquiditySweep.condition := LiquiditySweep.wick_sweep;
     LiquiditySweep.sweep_time := 6;
     LiquiditySweep.swept_level := 1905;
     LiquiditySweep.detail := LiquiditySweep.WickHigh 1906 1904;
     LiquiditySweep.confirmation_candle := 7;
     LiquiditySweep.valid := true |}.

Definition bearish_sweep_report : LiquiditySweep.SweepReport :=
  {| LiquiditySweep.symbol := "XAUUSD";
     LiquiditySweep.sweeps_detected := 1;
     LiquiditySweep.recent_sweeps := [bearish_sweep_found];
     LiquiditySweep.current_price := 1903 |}.

End Sample.

(* ===================================================================== *)
(** * Notions and sample data for the further functions *)
(* ===================================================================== *)

Module Probe.

(** The terminal accepts a filling mode: [order_check] answers the probe
    request of that mode with the return code 10009. *)
Definition accepts (mt5 : FillingProbe.Answers) (sym : string) (lot : Q)
    (tick : Terminal.Tick) (mode : Terminal.Filling) : Prop :=
  FillingProbe.order_check mt5 (FillingProbe.probe_request sym lot tick mode)
  = Some Terminal.TRADE_RETCODE_DONE.

(** The position of a mode in [filling_modes]. *)
Definition rank (mode : Terminal.Filling) : nat :=
  match mode with
  | Terminal.ORDER_FILLING_FOK => 0
  | Terminal.ORDER_FILLING_IOC => 1
  | Terminal.ORDER_FILLING_RETURN => 2
  end.

(** A chunk that the loop of [process_stream] passes by. *)
Definition passed (chunk : Stream.Chunk) : Prop :=
  Stream.actionable chunk = None /\ Stream.faulty chunk = false.

(** The values that fill the three number fields of the approval panel
    for an action request. *)
Definition shown_values (action : Approval.ActionRequest)
    : Approval.PyVal * Approval.PyVal * Approval.PyVal :=
  (Analysis.arg_or_zero action "entry_price",
   Analysis.arg_or_zero action "sl_price",
   Analysis.arg_or_zero action "tp_price").

End Probe.

Module Desk.

(** A terminal that answers every request for rates with the candles of
    Scenario B. *)
Definition rates (sym : string) (tf : MarketData.Timeframe) (bars : Z)
    : option DataFrame :=
  Some Scenario.sweep_series.

Definition market_report : MarketData.MarketReport :=
  {| MarketData.symbol := "XAUUSD";
     MarketData.timeframe := "15M";
     MarketData.bars_count := 8;
     MarketData.latest_candle :=
       {| MarketData.latest_time := 8;
          MarketData.latest_open := 1902;
          MarketData.latest_high := 1903;
          MarketData.latest_low := 1901;
          MarketData.latest_close := 1902;
          MarketData.latest_range := 2 |};
     MarketData.recent_high := 1905;
     MarketData.recent_low := 1899;
     MarketData.data_file := "/analysis/XAUUSD_15M_data.csv" |}.

(** A run whose third chunk carries the proposal of Scenario D. *)
Definition proposal_stream : Stream.Streamed :=
  {| Stream.chunks :=
       [ {| Stream.interrupts := None |};
         {| Stream.interrupts := Some [Stream.Falsy] |};
         {| Stream.interrupts :=
              Some [Stream.Payload (Some [Scenario.proposed_order])] |};
         {| Stream.interrupts := None |} ];
     Stream.raises := false |}.

(** The state of the application before its first run. *)
Definition idle : Analysis.RunState :=
  {| Analysis.is_running := false;
     Analysis.core :=
       {| Approval.agent := None;
          Approval.current_thread_id := "";
          Approval.pending_interrupt := None |} |}.

Definition startup : Analysis.Startup :=
  {| Analysis.initialize_mt5 := true;
     Analysis.check_symbol := true;
     Analysis.create_7ms_agent := Some (fun _ => Approval.Completed);
     Analysis.thread_id := "thread-2";
     Analysis.initial_stream := proposal_stream |}.

End Desk.

(* ===================================================================== *)
(** * Basic facts *)
(* ===================================================================== *)

Lemma Qlt_bool_iff (a b : Q) : (a <? b) = true <-> a < b.
Proof.
  unfold Num.Qlt_bool. rewrite negb_true_iff, <- not_true_iff_false, Qle_bool_iff.
  split; [apply Qnot_le_lt | apply Qlt_not_le].
Qed.

Lemma Qlt_bool_false (a b : Q) : (a <? b) = false <-> b <= a.
Proof.
  unfold Num.Qlt_bool. rewrite negb_false_iff. apply Qle_bool_iff.
Qed.

Lemma bind_Ok {A B} (m : result A) (k : A -> result B) (b : B) :
  m ≫= k = Ok b -> exists a, m = Ok a /\ k a = Ok b.
Proof.
  destruct m as [a|e]; cbn; [eauto | discriminate].
Qed.

Lemma iloc_Ok (df : DataFrame) (i : nat) (c : Candle) :
  iloc df i = Ok c <-> df !! i = Some c.
Proof.
  unfold iloc. destruct (df !! i); split; congruence.
Qed.

Lemma iloc_in_range (df : DataFrame) (i : nat) :
  (i < length df)%nat -> exists c, iloc df i = Ok c.
Proof.
  intros Hi. destruct (lookup_lt_is_Some_2 df i Hi) as [c Hc].
  exists c. by apply iloc_Ok.
Qed.

Lemma iloc_last_Ok (df : DataFrame) (c : Candle) :
  iloc_last df = Ok c <-> last df = Some c.
Proof.
  unfold iloc_last. destruct (last df); split; congruence.
Qed.

Lemma elem_of_range (a b i : nat) : i ∈ range a b <-> (a <= i < b)%nat.
Proof.
  unfold range. rewrite elem_of_seq. lia.
Qed.

(** An invariant of the accumulator that every iteration preserves holds
    when the loop ends. *)
Lemma for_each_invariant {S} (P : S -> Prop) (body : S -> nat -> result S)
    (idxs : list nat) :
  (forall s i s', i ∈ idxs -> P s -> body s i = Ok s' -> P s') ->
  forall s s', P s -> for_each body s idxs = Ok s' -> P s'.
Proof.
  induction idxs as [|i rest IH]; intros Hstep s s' Hs Hrun; cbn in Hrun.
  - congruence.
  - apply bind_Ok in Hrun as (s1 & Hbody & Hrest).
    eapply IH; [| |exact Hrest].
    + intros ? ? ? ?. apply Hstep. by right.
    + eapply Hstep; [by left|exact Hs|exact Hbody].
Qed.

(** A loop whose body never raises on its indices runs to its end. *)
Lemma for_each_total {S} (body : S -> nat -> result S) (idxs : list nat) :
  (forall s i, i ∈ idxs -> exists s', body s i = Ok s') ->
  forall s, exists s', for_each body s idxs = Ok s'.
Proof.
  induction idxs as [|i rest IH]; intros Hbody s; cbn.
  - eauto.
  - destruct (Hbody s i) as [s1 ->]; [by left|]. cbn.
    apply IH. intros ? ? ?. apply Hbody. by right.
Qed.

Lemma last_n_length_le {A} (n : nat) (l : list A) :
  (length (last_n n l) <= n)%nat.
Proof.
  unfold last_n. rewrite length_drop. lia.
Qed.

Lemma last_n_length_le_all {A} (n : nat) (l : list A) :
  (length (last_n n l) <= length l)%nat.
Proof.
  unfold last_n. rewrite length_drop. lia.
Qed.

Lemma last_n_suffix {A} (n : nat) (l : list A) : last_n n l `suffix_of` l.
Proof.
  unfold last_n. apply suffix_drop.
Qed.

Lemma elem_of_last_n {A} (n : nat) (l : list A) (x : A) :
  x ∈ last_n n l -> x ∈ l.
Proof.
  intros Hx. destruct (last_n_suffix n l) as [k Hk]. rewrite Hk.
  apply elem_of_app. by right.
Qed.

(** The slice keeps the most recent elements and drops the oldest. *)
Example last_n_keeps_most_recent :
  last_n 5 [1; 2; 3; 4; 5; 6; 7]%nat = [3; 4; 5; 6; 7]%nat /\
  last_n 5 [1; 2; 3]%nat = [1; 2; 3]%nat.
Proof. split; reflexivity. Qed.

(* ===================================================================== *)
(** * Order blocks *)
(* ===================================================================== *)

Ltac bind_inv H :=
  let a := fresh "a" in
  let Ha := fresh "Ha" in
  apply bind_Ok in H as (a & Ha & H).

Ltac ok_inv H := cbn in H; injection H as <-.

Lemma scan_body_anchored (df : DataFrame) tf direction acc i acc' :
  Forall (Props.anchored df) acc ->
  OrderBlocks.scan_body df tf direction acc i = Ok acc' ->
  Forall (Props.anchored df) acc'.
Proof.
  intros Hacc Hrun. unfold OrderBlocks.scan_body in Hrun.
  bind_inv Hrun. rename a into c1. apply iloc_Ok in Ha as Hc1.
  bind_inv Hrun. rename a into c2.
  bind_inv Hrun. rename a into c3.
  bind_inv Hrun. rename a into mid.
  assert (Hin : c1 ∈ df) by (eapply list_elem_of_lookup_2; exact Hc1).
  assert (Hmid : Forall (Props.anchored df) mid).
  { destruct (OrderBlocks.wants_bullish direction); [|by ok_inv Ha2].
    destruct (high c1 <? close c2); [|by ok_inv Ha2].
    destruct (0 <? open c2 - high c1) eqn:Hgap; [|by ok_inv Ha2].
    destruct (low c3 <=? high c1); [|by ok_inv Ha2].
    bind_inv Ha2. apply iloc_last_Ok in Ha3. ok_inv Ha2.
    apply Forall_app; split; [done|]. apply Forall_singleton.
    exists c1, a. cbn. apply Qlt_bool_iff in Hgap. by repeat split. }
  destruct (OrderBlocks.wants_bearish direction); [|by ok_inv Hrun].
  destruct (close c2 <? low c1); [|by ok_inv Hrun].
  destruct (0 <? low c1 - open c2) eqn:Hgap; [|by ok_inv Hrun].
  destruct (low c1 <=? high c3); [|by ok_inv Hrun].
  bind_inv Hrun. apply iloc_last_Ok in Ha3. ok_inv Hrun.
  apply Forall_app; split; [done|]. apply Forall_singleton.
  exists c1, a. cbn. apply Qlt_bool_iff in Hgap. by repeat split.
Qed.

Lemma scan_anchored (df : DataFrame) tf direction all :
  OrderBlocks.scan df tf direction = Ok all ->
  Forall (Props.anchored df) all.
Proof.
  unfold OrderBlocks.scan.
  apply (for_each_invariant (Forall (Props.anchored df))); [|constructor].
  intros s i s' _. apply scan_body_anchored.
Qed.

Lemma identify_order_blocks_Report rates sym tf direction r :
  OrderBlocks.identify_order_blocks rates sym tf direction = Ok (Report r) ->
  exists df all,
    rates = Some df /\ OrderBlocks.scan df tf direction = Ok all /\
    OrderBlocks.order_blocks_found r = length all /\
    OrderBlocks.order_blocks r = last_n 10 all.
Proof.
  destruct rates as [df|]; cbn; [|discriminate].
  intros Hrun. bind_inv Hrun. cbn in Hrun. injection Hrun as <-.
  exists df, a. by repeat split.
Qed.

Lemma returned_block_anchored rates sym tf direction r ob :
  OrderBlocks.identify_order_blocks rates sym tf direction = Ok (Report r) ->
  ob ∈ OrderBlocks.order_blocks r ->
  exists df, rates = Some df /\ Props.anchored df ob.
Proof.
  intros Hrun Hob.
  apply identify_order_blocks_Report in Hrun as (df & all & -> & Hscan & _ & Hlist).
  exists df; split; [done|].
  rewrite Hlist in Hob. apply elem_of_last_n in Hob.
  apply scan_anchored in Hscan. rewrite Forall_forall in Hscan. by apply Hscan.
Qed.

(* ===================================================================== *)
(** * Liquidity sweeps *)
(* ===================================================================== *)

Ltac run_step := cbn [mbind result_bind mret result_ret].

Lemma py_div_Ok (a b : Q) : ~ b == 0 -> py_div a b = Ok (a / b).
Proof.
  intros Hb. unfold py_div. destruct (Qeq_bool b 0) eqn:E; [|done].
  by apply Qeq_bool_iff in E.
Qed.

Lemma py_div_Raise (a b : Q) : b == 0 -> py_div a b = Raise ZeroDivisionError.
Proof.
  intros Hb. unfold py_div. apply Qeq_bool_iff in Hb. by rewrite Hb.
Qed.

Lemma body_ratio_zero_range (c : Candle) :
  high c == low c -> LiquiditySweep.body_ratio c = Ok 0.
Proof.
  intros Hflat. unfold LiquiditySweep.body_ratio, LiquiditySweep.candle_range.
  destruct (0 <? high c - low c) eqn:E; [|done].
  apply Qlt_bool_iff in E. lra.
Qed.

Lemma body_ratio_total (c : Candle) :
  exists q, LiquiditySweep.body_ratio c = Ok q.
Proof.
  unfold LiquiditySweep.body_ratio.
  destruct (0 <? LiquiditySweep.candle_range c) eqn:E; [|by exists 0].
  apply Qlt_bool_iff in E. rewrite py_div_Ok; [eauto|lra].
Qed.

Lemma body_size_pos (c : Candle) :
  close c < open c -> 0 < LiquiditySweep.body_size c.
Proof.
  intros Hbear. unfold LiquiditySweep.body_size.
  rewrite Qabs_neg by lra. lra.
Qed.

Lemma series_min_total (xs : list Q) :
  (0 < length xs)%nat -> exists q, series_min xs = Ok q.
Proof.
  destruct xs; cbn; [lia|eauto].
Qed.

Lemma series_max_total (xs : list Q) :
  (0 < length xs)%nat -> exists q, series_max xs = Ok q.
Proof.
  destruct xs; cbn; [lia|eauto].
Qed.

Lemma window_length {A} (f : Candle -> A) (df : DataFrame) (i : nat) :
  (5 <= i)%nat -> (i <= length df)%nat ->
  length (f <$> iloc_slice df (i - 5) i) = 5%nat.
Proof.
  intros H5 Hi. unfold iloc_slice.
  rewrite length_fmap, length_take, length_drop. lia.
Qed.

(** Inside its range the loop body never raises. *)
Lemma sweep_body_total (df : DataFrame) sweeps (i : nat) :
  (5 <= i)%nat -> (i + 3 <= length df)%nat ->
  exists sweeps', LiquiditySweep.scan_body df sweeps i = Ok sweeps'.
Proof.
  intros H5 Hi. unfold LiquiditySweep.scan_body.
  destruct (iloc_in_range df i) as [current ->]; [lia|]. run_step.
  destruct (iloc_in_range df (i + 1)) as [next1 ->]; [lia|]. run_step.
  destruct (decide (i + 2 < length df)%nat); [|lia].
  destruct (iloc_in_range df (i + 2)) as [next2 ->]; [lia|]. run_step.
  destruct (series_min_total (low <$> iloc_slice df (i - 5) i))
    as [recent_lows ->]; [rewrite window_length; lia|]. run_step.
  destruct (body_ratio_total current) as [ratio ->]. run_step.
  destruct (series_max_total (high <$> iloc_slice df (i - 5) i))
    as [recent_highs ->]; [rewrite window_length; lia|].
  cbv zeta.
  destruct (close current <? open current) eqn:Hbear; cbn [andb].
  - apply Qlt_bool_iff, body_size_pos in Hbear.
    rewrite py_div_Ok by lra.
    repeat (case_match; run_step); eauto.
  - repeat (case_match; run_step); eauto.
Qed.

(** The scan of the detector runs to its end on every frame. *)
Lemma sweep_scan_total (df : DataFrame) :
  exists sweeps, LiquiditySweep.scan df = Ok sweeps.
Proof.
  unfold LiquiditySweep.scan. apply for_each_total.
  intros s i Hi. apply elem_of_range in Hi.
  apply sweep_body_total; lia.
Qed.

Lemma sweep_body_confirmed (df : DataFrame) acc (i : nat) acc' :
  (5 <= i <= length df - 3)%nat ->
  Forall (Props.confirmed df) acc ->
  LiquiditySweep.scan_body df acc i = Ok acc' ->
  Forall (Props.confirmed df) acc'.
Proof.
  intros Hi Hacc Hrun. unfold LiquiditySweep.scan_body in Hrun.
  bind_inv Hrun. rename a into current. apply iloc_Ok in Ha as Hcur.
  bind_inv Hrun. rename a into next1. apply iloc_Ok in Ha0 as Hnext.
  assert (Hlen : (i + 1 < length df)%nat) by (eapply lookup_lt_Some; exact Hnext).
  assert (Hnew : forall k lvl d c,
    Props.confirmed df
      {| LiquiditySweep.type := k; LiquiditySweep.condition := c;
         LiquiditySweep.sweep_time := time current;
         LiquiditySweep.swept_level := lvl; LiquiditySweep.detail := d;
         LiquiditySweep.confirmation_candle := time next1;
         LiquiditySweep.valid := true |}).
  { intros. exists i, current, next1. repeat split; try done; lia. }
  bind_inv Hrun. bind_inv Hrun. rename a0 into recent_lows.
  cbv zeta in Hrun.
  bind_inv Hrun. rename a0 into ratio.
  bind_inv Hrun. rename a0 into mid.
  bind_inv Hrun. rename a0 into recent_highs.
  assert (Hmid : Forall (Props.confirmed df) mid).
  { repeat (case_match; try bind_inv Ha4); ok_inv Ha4;
      repeat (apply Forall_app; split); try apply Forall_singleton; auto. }
  repeat case_match; ok_inv Hrun;
    repeat (apply Forall_app; split); try apply Forall_singleton; auto.
Qed.

Lemma sweep_scan_confirmed (df : DataFrame) all :
  LiquiditySweep.scan df = Ok all -> Forall (Props.confirmed df) all.
Proof.
  unfold LiquiditySweep.scan.
  apply (for_each_invariant (Forall (Props.confirmed df))); [|constructor].
  intros s i s' Hi. apply elem_of_range in Hi.
  apply sweep_body_confirmed. lia.
Qed.

Lemma detect_liquidity_sweep_Report rates sym r :
  LiquiditySweep.detect_liquidity_sweep rates sym = Ok (Report r) ->
  exists df all,
    rates = Some df /\ LiquiditySweep.scan df = Ok all /\
    LiquiditySweep.sweeps_detected r = length all /\
    LiquiditySweep.recent_sweeps r = last_n 5 all.
Proof.
  destruct rates as [df|]; cbn; [|discriminate].
  intros Hrun. bind_inv Hrun. bind_inv Hrun. cbn in Hrun. injection Hrun as <-.
  exists df, a. by repeat split.
Qed.

(** On a frame with at least one candle the detector returns its report. *)
Lemma detect_liquidity_sweep_total (df : DataFrame) sym :
  df <> [] ->
  exists r, LiquiditySweep.detect_liquidity_sweep (Some df) sym = Ok (Report r).
Proof.
  intros Hne. unfold LiquiditySweep.detect_liquidity_sweep.
  destruct (sweep_scan_total df) as [sweeps ->]. run_step.
  unfold iloc_last. destruct (last df) as [latest|] eqn:Hlast.
  - run_step. eauto.
  - by apply last_None in Hlast.
Qed.

(* ===================================================================== *)
(** * Structure shift *)
(* ===================================================================== *)

Lemma py_max_ge_l (a b : Q) : a <= Num.py_max a b.
Proof.
  unfold Num.py_max. destruct (a <? b) eqn:E; [|lra].
  apply Qlt_bool_iff in E. lra.
Qed.

(** The level at which the loop breaks is at least the high it started from. *)
Lemma mss_loop_level (df : DataFrame) lowest_idx idxs :
  forall recent_high level shift_time,
    StructureShift.mss_loop df lowest_idx recent_high idxs
      = Ok (Some (level, shift_time)) ->
    recent_high <= level.
Proof.
  induction idxs as [|i rest IH]; intros recent_high level shift_time Hrun;
    cbn in Hrun; [discriminate|].
  bind_inv Hrun. bind_inv Hrun. rename a0 into updated.
  assert (Hup : recent_high <= updated).
  { destruct (decide (lowest_idx + 1 < i)%nat).
    - bind_inv Ha0. ok_inv Ha0. apply py_max_ge_l.
    - ok_inv Ha0. lra. }
  destruct (updated <? high a).
  - cbn in Hrun. injection Hrun as <- _. exact Hup.
  - apply IH in Hrun. lra.
Qed.

Lemma idxmin_from_spec (whole : list Q) :
  forall rest (i best : nat) (v : Q),
    drop i whole = rest ->
    whole !! best = Some v ->
    (forall x, x ∈ take i whole -> v <= x) ->
    exists v', whole !! StructureShift.idxmin_from rest i best v = Some v' /\
               forall x, x ∈ whole -> v' <= x.
Proof.
  induction rest as [|x rest IH]; intros i best v Hdrop Hbest Hlow; cbn.
  - exists v. split; [done|]. intros y Hy. apply Hlow.
    rewrite take_ge; [done|]. by apply drop_nil_inv.
  - assert (Hx : whole !! i = Some x).
    { rewrite <- (Nat.add_0_r i), <- lookup_drop, Hdrop. done. }
    assert (Hnext : drop (S i) whole = rest).
    { rewrite (drop_S _ _ _ Hx) in Hdrop. by injection Hdrop. }
    destruct (x <? v) eqn:E.
    + apply Qlt_bool_iff in E. apply IH; [done|done|].
      intros y Hy. rewrite (take_S_r _ _ _ Hx) in Hy.
      apply elem_of_app in Hy as [Hy|Hy].
      * apply Hlow in Hy. lra.
      * apply list_elem_of_singleton in Hy as ->. lra.
    + apply Qlt_bool_false in E. apply IH; [done|done|].
      intros y Hy. rewrite (take_S_r _ _ _ Hx) in Hy.
      apply elem_of_app in Hy as [Hy|Hy].
      * by apply Hlow.
      * by apply list_elem_of_singleton in Hy as ->.
Qed.

(** [idxmin] answers a position that holds a smallest value. *)
Lemma idxmin_spec (xs : list Q) (k : nat) :
  StructureShift.idxmin xs = Ok k ->
  exists v, xs !! k = Some v /\ forall x, x ∈ xs -> v <= x.
Proof.
  destruct xs as [|x rest]; cbn; [discriminate|].
  intros [= <-]. apply (idxmin_from_spec (x :: rest)); [done|done|].
  intros y Hy. change (y ∈ [x]) in Hy.
  apply list_elem_of_singleton in Hy as ->. lra.
Qed.

Lemma find_mss_and_poi_Report rates sym r :
  StructureShift.find_mss_and_poi rates sym = Ok (Report r) ->
  exists df lowest_idx lowest_point shift_time all,
    rates = Some df /\
    StructureShift.idxmin (low <$> df) = Ok lowest_idx /\
    df !! lowest_idx = Some lowest_point /\
    StructureShift.mss_loop df lowest_idx (high lowest_point)
      (range (lowest_idx + 1) (length df))
      = Ok (Some (StructureShift.mss_level r, shift_time)) /\
    StructureShift.poi_loop df (low lowest_point) (StructureShift.mss_level r)
      [] (range lowest_idx (lowest_idx + 50)) = Ok all /\
    StructureShift.mss_zone_start r = low lowest_point /\
    StructureShift.pois_in_zone r = length all /\
    StructureShift.pois r = last_n 5 all.
Proof.
  destruct rates as [df|]; cbn; [|discriminate].
  intros Hrun. bind_inv Hrun. rename a into lowest_idx.
  bind_inv Hrun. rename a into lowest_point. apply iloc_Ok in Ha0.
  bind_inv Hrun. destruct a as [[level shift_time]|]; [|discriminate].
  bind_inv Hrun. bind_inv Hrun. cbn in Hrun. injection Hrun as <-. cbn.
  exists df, lowest_idx, lowest_point, shift_time, a. by repeat split.
Qed.

(* ===================================================================== *)
(** * Rounding and the risk calculator *)
(* ===================================================================== *)

(** With a non-zero point the calculator returns parameters, whatever the
    direction and the levels are. *)
Lemma calculate_returns info d entry poi mss use_mss :
  ~ Terminal.point info == 0 ->
  exists p,
    Risk.calculate_entry_sl_tp (Some info) d entry poi mss use_mss
      = Ok (Report p) /\
    let point := Terminal.point info in
    let '(sl, risk, tp) := Risk.levels d entry poi mss use_mss point in
    Risk.direction p = d /\
    Risk.entry_price p = Num.py_round entry 2 /\
    Risk.stop_loss p = Num.py_round sl 2 /\
    Risk.take_profit p = Num.py_round tp 2 /\
    Risk.risk_reward_ratio p =
      Num.py_round
        (if 0 <? Qabs (entry - sl) / point
         then (Qabs (tp - entry) / point) / (Qabs (entry - sl) / point)
         else 0) 2.
Proof.
  intros Hpoint. unfold Risk.calculate_entry_sl_tp.
  destruct (Risk.levels d entry poi mss use_mss (Terminal.point info))
    as [[sl risk] tp].
  rewrite !(py_div_Ok _ (Terminal.point info)) by done. run_step.
  rewrite !(py_div_Ok _ 10) by done. run_step.
  destruct (0 <? Qabs (entry - sl) / Terminal.point info) eqn:E.
  - apply Qlt_bool_iff in E. rewrite py_div_Ok by lra. run_step.
    eexists. split; [reflexivity|]. by cbn.
  - run_step. eexists. split; [reflexivity|]. by cbn.
Qed.

(** The two ways the calculator ends without parameters: the terminal has no
    symbol information, or its point is zero and the first division raises. *)
Lemma calculator_without_symbol_info d entry poi mss use_mss :
  Risk.calculate_entry_sl_tp None d entry poi mss use_mss
  = Ok (ErrorReply "Failed to get symbol info").
Proof. reflexivity. Qed.

Lemma calculator_zero_point info d entry poi mss use_mss :
  Terminal.point info == 0 ->
  Risk.calculate_entry_sl_tp (Some info) d entry poi mss use_mss
  = Raise ZeroDivisionError.
Proof.
  intros Hpoint. unfold Risk.calculate_entry_sl_tp.
  destruct (Risk.levels d entry poi mss use_mss (Terminal.point info))
    as [[sl risk] tp].
  by rewrite (py_div_Raise (Qabs (entry - sl)) _ Hpoint).
Qed.

Lemma scale_positive (n : nat) : 0 < inject_Z (10 ^ Z.of_nat n).
Proof.
  change 0 with (inject_Z 0). rewrite <- Zlt_Qlt.
  apply Z.pow_pos_nonneg; lia.
Qed.

(** Rounding keeps the order of two numbers. *)
Lemma round_half_even_mono (x y : Q) :
  x <= y -> (Num.round_half_even x <= Num.round_half_even y)%Z.
Proof.
  intros Hxy. unfold Num.round_half_even.
  pose proof (Qfloor_resp_le _ _ Hxy) as Hfloor.
  destruct (Z.eq_dec (Qfloor x) (Qfloor y)) as [Heq|Hne].
  - rewrite Heq.
    assert (Hrem : x - inject_Z (Qfloor y) <= y - inject_Z (Qfloor y)) by lra.
    destruct (x - inject_Z (Qfloor y) <? 1 # 2) eqn:X1.
    { repeat case_match; lia. }
    apply Qlt_bool_false in X1.
    destruct (y - inject_Z (Qfloor y) <? 1 # 2) eqn:Y1.
    { apply Qlt_bool_iff in Y1. lra. }
    destruct ((1 # 2) <? y - inject_Z (Qfloor y)) eqn:Y2.
    { repeat case_match; lia. }
    apply Qlt_bool_false in Y2.
    destruct ((1 # 2) <? x - inject_Z (Qfloor y)) eqn:X2.
    { apply Qlt_bool_iff in X2. lra. }
    lia.
  - repeat case_match; lia.
Qed.

Lemma py_round_mono (x y : Q) (n : nat) :
  x <= y -> Num.py_round x n <= Num.py_round y n.
Proof.
  intros Hxy. unfold Num.py_round.
  pose proof (scale_positive n) as Hscale.
  unfold Qdiv. apply Qmult_le_compat_r.
  - rewrite <- Zle_Qle. apply round_half_even_mono.
    apply Qmult_le_compat_r; lra.
  - apply Qlt_le_weak, Qinv_lt_0_compat, Hscale.
Qed.

(** The target lies on the other side of the entry than the stop. *)
Lemma levels_sides d entry poi mss use_mss point sl risk tp :
  Risk.levels d entry poi mss use_mss point = (sl, risk, tp) ->
  (sl <= entry -> entry <= tp) /\ (entry <= sl -> tp <= entry).
Proof.
  destruct d; cbn; intros [= <- <- <-]; split; lra.
Qed.

(* ===================================================================== *)
(** * Order submission and approval *)
(* ===================================================================== *)




(** Nothing stands between the typed values and the resumed agent: a buy
    edited to a stop above and a target below its entry is forwarded as
    typed. *)
Example inverted_edit_is_forwarded :
  Approval.resumed_with
    (Approval.handle_approval Scenario.waiting_state "edit"
       4190 4200 4180 (1 # 100))
  = [[Approval.edit_decision 4190 4200 4180 (1 # 100) Scenario.proposed_order]].
Proof. reflexivity. Qed.

(** Approving or rejecting resumes the agent without touching the proposed
    arguments, and an unknown decision drops the pending request without
    resuming. *)
Example approve_resumes_unchanged :
  Approval.resumed_with
    (Approval.handle_approval Scenario.waiting_state "approve" 0 0 0 (1 # 100))
  = [[Approval.approve]].
Proof. reflexivity. Qed.

Example unknown_decision_resumes_nothing :
  Approval.resumed_with
    (Approval.handle_approval Scenario.waiting_state "later" 0 0 0 (1 # 100))
  = [] /\
  Approval.pending_interrupt
    (Approval.state
       (Approval.handle_approval Scenario.waiting_state "later" 0 0 0 (1 # 100)))
  = None.
Proof. split; reflexivity. Qed.

(* ===================================================================== *)
(** * Properties of the specification *)
(* ===================================================================== *)

(** C1 (as the code has it).  Every request that [send_order] hands to
    [mt5.order_send] carries the given [sl_price], [tp_price] and
    [lot_size]; its price is the current quote of the terminal (ask for a
    buy, bid for a sell), not [entry_price]; and the request is the only one
    submitted (no retry). *)
Theorem send_order_request_fields
    mt5 d entry_price sl_price tp_price lot_size note req :
  req ∈ (Orders.send_order mt5 d entry_price sl_price tp_price lot_size note).2 ->
  (Orders.send_order mt5 d entry_price sl_price tp_price lot_size note).2 = [req] /\
  exists tick,
    Terminal.symbol_info_tick mt5 = Some tick /\
    Terminal.price req = match d with
                         | Risk.buy => Terminal.ask tick
                         | Risk.sell => Terminal.bid tick
                         end /\
    Terminal.sl req = sl_price /\
    Terminal.tp req = tp_price /\
    Terminal.volume req = lot_size.
Proof.
  unfold Orders.send_order.
  destruct (Terminal.symbol_info mt5) as [info|];
    [|by intros ?%elem_of_nil].
  destruct (negb (Terminal.visible info) && negb (Terminal.symbol_select mt5));
    [by intros ?%elem_of_nil|].
  destruct (Terminal.symbol_info_tick mt5) as [tick|];
    [|by intros ?%elem_of_nil].
  destruct d; cbn; destruct (Terminal.order_send mt5 _); cbn;
    intros ->%list_elem_of_singleton; (split; [done|]); by exists tick.
Qed.

(** C1, the claim as stated fails: approved at entry 4190 while the
    terminal asks 4191, the submitted request is priced 4191. *)
Lemma send_order_price_differs_from_entry :
  exists req,
    (Orders.send_order Scenario.quoting_terminal Risk.buy
       4190 4178 4214 (1 # 100) "7MS Strategy").2 = [req] /\
    Terminal.sl req = 4178 /\ Terminal.tp req = 4214 /\
    ~ Terminal.price req == 4190.
Proof.
  eexists. split; [reflexivity|]. cbn. repeat split. intros H. discriminate H.
Qed.

Lemma send_order_request_fields_witness :
  exists req,
    (Orders.send_order Scenario.quoting_terminal Risk.sell
       4190 4202 4166 (1 # 100) "7MS Strategy").2 = [req] /\
    Terminal.price req = 41908 # 10 /\
    Terminal.sl req = 4202 /\ Terminal.tp req = 4166.
Proof.
  eexists.
  edestruct (send_order_request_fields Scenario.quoting_terminal Risk.sell
               4190 4202 4166 (1 # 100) "7MS Strategy")
    as (Hlog & tick & Htick & Hprice & Hsl & Htp & _).
  - cbn. apply list_elem_of_here.
  - split; [exact Hlog|]. injection Htick as <-. by repeat split.
Defined.






(** The ratio is not 2 on every buy with its stop below the entry either.
    Python computes on binary64 numbers: with the entry one unit in the
    last place below 4096, the reference one below 4098 and a point of
    0.01, the stop [4096 - 2^-40] is below the entry [4096 - 2^-41], the
    target rounds to 4096, and the quotient of the two distances is 1. *)
Lemma binary64_buy_ratio_is_one :
  Binary64.unrounded Risk.buy
    0x1.fffffffffffffp+11%float 0x1.001ffffffffffp+12%float 0%float false
    0x1.47ae147ae147bp-7%float
  = Ok (0x1.ffffffffffffep+11%float, 4096%float, 1%float) /\
  PrimFloat.ltb 0x1.ffffffffffffep+11%float 0x1.fffffffffffffp+11%float = true.
Proof.
  split; vm_compute; reflexivity.
Qed.

(** Nor do the levels keep the two-to-one distance within one price unit
    at every magnitude: a buy at 1e17 with its reference at 1 gets the stop
    -1 and the target 3e17, whole numbers that rounding to two decimals
    leaves as they are, and [(3e17 - 1e17) - 2 * (1e17 - (-1))] is -2. *)
Lemma binary64_buy_target_is_off_by_two :
  Binary64.unrounded Risk.buy 1e17%float 1%float 0%float false
    0x1.47ae147ae147bp-7%float
  = Ok ((-1)%float, 3e17%float, 2%float).
Proof.
  vm_compute. reflexivity.
Qed.

(** On the numbers of Scenario C the binary64 arithmetic gives the same
    stop, target and ratio as the rational one. *)
Lemma binary64_scenario_c :
  Binary64.unrounded Risk.buy 4190%float 4180%float 4185%float false
    0x1.47ae147ae147bp-7%float
  = Ok (4178%float, 4214%float, 2%float).
Proof.
  vm_compute. reflexivity.
Qed.




(** C5 (as the code has it).  For every order block the detector returns,
    the distance is measured from the close of the last candle of the
    frame: last close minus the zone high for a bullish block, and the zone
    low minus the last close for a bearish block. *)
Theorem order_block_distance rates sym tf direction r ob :
  OrderBlocks.identify_order_blocks rates sym tf direction = Ok (Report r) ->
  ob ∈ OrderBlocks.order_blocks r ->
  exists df latest,
    rates = Some df /\ last df = Some latest /\
    OrderBlocks.current_price_distance ob =
      match OrderBlocks.type ob with
      | OrderBlocks.bullish_ob => close latest - OrderBlocks.zone_high ob
      | OrderBlocks.bearish_ob => OrderBlocks.zone_low ob - close latest
      end.
Proof.
  intros Hrun Hob.
  destruct (returned_block_anchored _ _ _ _ _ _ Hrun Hob)
    as (df & -> & anchor & latest & _ & Hlast & _ & _ & _ & Hdistance).
  by exists df, latest.
Qed.

(** C5, the claim as stated fails for a bearish block: with the zone low at
    99 and the last close at 96 the reported distance is 3, not -3. *)
Lemma bearish_distance_is_zone_low_minus_close :
  OrderBlocks.identify_order_blocks (Some Scenario.bearish_series) "XAUUSD"
    OrderBlocks.TF_4H OrderBlocks.both = Ok (Report Scenario.bearish_report) /\
  Scenario.bearish_block ∈ OrderBlocks.order_blocks Scenario.bearish_report /\
  OrderBlocks.type Scenario.bearish_block = OrderBlocks.bearish_ob /\
  last Scenario.bearish_series = Some (Scenario.candle 3 98 (995 # 10) 95 96) /\
  ~ OrderBlocks.current_price_distance Scenario.bearish_block
      == 96 - OrderBlocks.zone_low Scenario.bearish_block.
Proof.
  split; [vm_compute; reflexivity|].
  split; [apply list_elem_of_here|].
  repeat split. intros H. discriminate H.
Qed.

Lemma order_block_distance_witness :
  exists df latest,
    Some Scenario.bearish_series = Some df /\ last df = Some latest /\
    OrderBlocks.current_price_distance Scenario.bearish_block =
      OrderBlocks.zone_low Scenario.bearish_block - close latest.
Proof.
  apply (order_block_distance (Some Scenario.bearish_series) "XAUUSD"
           OrderBlocks.TF_4H OrderBlocks.both
           Scenario.bearish_report Scenario.bearish_block).
  - vm_compute. reflexivity.
  - apply list_elem_of_here.
Defined.

(** C6 (as the code has it).  Every order block the detector returns has a
    positive gap, and its zone is the range of an anchor candle of the
    frame: the zone low is below the zone high exactly when that candle's
    low is below its high, which the detector does not check. *)
Theorem order_block_zone_and_gap rates sym tf direction r ob :
  OrderBlocks.identify_order_blocks rates sym tf direction = Ok (Report r) ->
  ob ∈ OrderBlocks.order_blocks r ->
  0 < OrderBlocks.gap_size ob /\
  exists df anchor,
    rates = Some df /\ anchor ∈ df /\
    OrderBlocks.zone_low ob = low anchor /\
    OrderBlocks.zone_high ob = high anchor /\
    (low anchor < high anchor <->
       OrderBlocks.zone_low ob < OrderBlocks.zone_high ob).
Proof.
  intros Hrun Hob.
  destruct (returned_block_anchored _ _ _ _ _ _ Hrun Hob)
    as (df & -> & anchor & latest & Hin & _ & Hlow & Hhigh & Hgap & _).
  split; [exact Hgap|]. exists df, anchor.
  repeat split; try done; by rewrite Hlow, Hhigh.
Qed.

(** C6, the claim as stated fails: an anchor candle without range (high =
    low = 100) gives a returned block whose zone low equals its zone high. *)
Lemma flat_anchor_gives_empty_zone :
  OrderBlocks.identify_order_blocks (Some Scenario.flat_anchor_series) "XAUUSD"
    OrderBlocks.TF_4H OrderBlocks.both = Ok (Report Scenario.flat_report) /\
  Scenario.flat_block ∈ OrderBlocks.order_blocks Scenario.flat_report /\
  ~ OrderBlocks.zone_low Scenario.flat_block
      < OrderBlocks.zone_high Scenario.flat_block.
Proof.
  split; [vm_compute; reflexivity|].
  split; [apply list_elem_of_here|].
  intros H. discriminate H.
Qed.

Lemma order_block_zone_and_gap_witness :
  0 < OrderBlocks.gap_size Scenario.bearish_block /\
  exists df anchor,
    Some Scenario.bearish_series = Some df /\ anchor ∈ df /\
    OrderBlocks.zone_low Scenario.bearish_block = low anchor /\
    OrderBlocks.zone_high Scenario.bearish_block = high anchor /\
    (low anchor < high anchor <->
       OrderBlocks.zone_low Scenario.bearish_block
         < OrderBlocks.zone_high Scenario.bearish_block).
Proof.
  apply (order_block_zone_and_gap (Some Scenario.bearish_series) "XAUUSD"
           OrderBlocks.TF_4H OrderBlocks.both
           Scenario.bearish_report Scenario.bearish_block).
  - vm_compute. reflexivity.
  - apply list_elem_of_here.
Defined.

(** C7.  Every sweep the detector returns was found at a loop index [i]
    with [5 <= i <= len - 3]; its sweep time is the time of the candle at
    [i] and its confirmation is the candle at [i + 1], which lies inside
    the frame. *)
Theorem sweep_confirmation_in_frame rates sym r s :
  LiquiditySweep.detect_liquidity_sweep rates sym = Ok (Report r) ->
  s ∈ LiquiditySweep.recent_sweeps r ->
  exists (df : DataFrame) (i : nat) current next1,
    rates = Some df /\
    (5 <= i <= length df - 3)%nat /\ (i + 1 < length df)%nat /\
    df !! i = Some current /\ df !! (i + 1)%nat = Some next1 /\
    LiquiditySweep.sweep_time s = time current /\
    LiquiditySweep.confirmation_candle s = time next1.
Proof.
  intros Hrun Hs.
  apply detect_liquidity_sweep_Report in Hrun
    as (df & all & -> & Hscan & _ & Hlist).
  rewrite Hlist in Hs. apply elem_of_last_n in Hs.
  apply sweep_scan_confirmed in Hscan. rewrite Forall_forall in Hscan.
  destruct (Hscan s Hs) as (i & current & next1 & ?).
  by exists df, i, current, next1.
Qed.

(** Scenario B: the sweep of the low at 1900 is found at index 5 and
    confirmed by the candle at index 6. *)
Lemma sweep_confirmation_in_frame_witness :
  exists (df : DataFrame) (i : nat) current next1,
    Some Scenario.sweep_series = Some df /\
    (5 <= i <= length df - 3)%nat /\ (i + 1 < length df)%nat /\
    df !! i = Some current /\ df !! (i + 1)%nat = Some next1 /\
    LiquiditySweep.sweep_time Scenario.sweep_found = time current /\
    LiquiditySweep.confirmation_candle Scenario.sweep_found = time next1.
Proof.
  apply (sweep_confirmation_in_frame (Some Scenario.sweep_series) "XAUUSD"
           Scenario.sweep_report Scenario.sweep_found).
  - vm_compute. reflexivity.
  - apply list_elem_of_here.
Defined.

(** C8 (as the code has it).  When a shift is reported, its level is at
    least the high of the lowest candle of the frame, whose low is the zone
    start; so the level is above the zone start when that candle's low is
    below its high, and not below it when the low does not exceed the
    high. *)
Theorem shift_level_above_lowest_high rates sym r :
  StructureShift.find_mss_and_poi rates sym = Ok (Report r) ->
  exists (df : DataFrame) lowest_point,
    rates = Some df /\ lowest_point ∈ df /\
    (forall c, c ∈ df -> low lowest_point <= low c) /\
    StructureShift.mss_zone_start r = low lowest_point /\
    high lowest_point <= StructureShift.mss_level r /\
    (low lowest_point < high lowest_point ->
       StructureShift.mss_zone_start r < StructureShift.mss_level r) /\
    (low lowest_point <= high lowest_point ->
       StructureShift.mss_zone_start r <= StructureShift.mss_level r).
Proof.
  intros Hrun.
  apply find_mss_and_poi_Report in Hrun
    as (df & k & lowest_point & shift_time & all
        & -> & Hmin & Hk & Hloop & _ & Hstart & _).
  apply mss_loop_level in Hloop.
  apply idxmin_spec in Hmin as (v & Hv & Hleast).
  rewrite list_lookup_fmap, Hk in Hv. injection Hv as <-.
  exists df, lowest_point. split; [done|].
  split; [by eapply list_elem_of_lookup_2|].
  split; [intros c Hc; apply Hleast; by apply list_elem_of_fmap_2|].
  split; [exact Hstart|]. split; [exact Hloop|].
  rewrite Hstart. split; intros; lra.
Qed.

(** C8, the claim as stated fails: the lowest candle has high = low = 100
    and the next candle trades up to 101, so the shift is reported at the
    level 100, equal to the zone start. *)
Lemma flat_low_shift_equals_zone_start :
  StructureShift.find_mss_and_poi (Some Scenario.flat_low_series) "XAUUSD"
    = Ok (Report Scenario.flat_low_report) /\
  StructureShift.mss_found Scenario.flat_low_report = true /\
  ~ StructureShift.mss_zone_start Scenario.flat_low_report
      < StructureShift.mss_level Scenario.flat_low_report.
Proof.
  split; [vm_compute; reflexivity|]. split; [reflexivity|].
  intros H. discriminate H.
Qed.

Lemma shift_level_above_lowest_high_witness :
  exists (df : DataFrame) lowest_point,
    Some Scenario.shift_series = Some df /\ lowest_point ∈ df /\
    (forall c, c ∈ df -> low lowest_point <= low c) /\
    StructureShift.mss_zone_start Scenario.shift_report = low lowest_point /\
    high lowest_point <= StructureShift.mss_level Scenario.shift_report /\
    (low lowest_point < high lowest_point ->
       StructureShift.mss_zone_start Scenario.shift_report
         < StructureShift.mss_level Scenario.shift_report) /\
    (low lowest_point <= high lowest_point ->
       StructureShift.mss_zone_start Scenario.shift_report
         <= StructureShift.mss_level Scenario.shift_report).
Proof.
  apply (shift_level_above_lowest_high (Some Scenario.shift_series) "XAUUSD"
           Scenario.shift_report).
  vm_compute. reflexivity.
Defined.

(** C9, at the failing input.  A candle without range gets the body ratio
    0 ([body_ratio_zero_range]), no division of the scan raises
    ([sweep_scan_total]) and the detector returns on every frame that has a
    candle ([detect_liquidity_sweep_total]); but on a frame without candles
    the read of the last close for [current_price] raises. *)
Theorem detect_liquidity_sweep_empty_frame sym :
  LiquiditySweep.scan [] = Ok [] /\
  LiquiditySweep.detect_liquidity_sweep (Some []) sym = Raise IndexError.
Proof.
  split; reflexivity.
Qed.

(** C10.  Each detector reports the number of all the detections of its
    loop next to a list that is the suffix of at most 10 (order blocks) or
    5 (sweeps, points of interest) most recent ones of them: the list is
    never longer than its bound nor than the reported count. *)
Theorem counts_and_recent_lists
    ob_rates sym tf direction ob_report
    sweep_rates sweep_report
    mss_rates mss_report :
  OrderBlocks.identify_order_blocks ob_rates sym tf direction
    = Ok (Report ob_report) ->
  LiquiditySweep.detect_liquidity_sweep sweep_rates sym
    = Ok (Report sweep_report) ->
  StructureShift.find_mss_and_poi mss_rates sym = Ok (Report mss_report) ->
  (exists df all,
     ob_rates = Some df /\ OrderBlocks.scan df tf direction = Ok all /\
     OrderBlocks.order_blocks_found ob_report = length all /\
     OrderBlocks.order_blocks ob_report = last_n 10 all /\
     OrderBlocks.order_blocks ob_report `suffix_of` all /\
     (length (OrderBlocks.order_blocks ob_report) <= 10)%nat /\
     (length (OrderBlocks.order_blocks ob_report)
        <= OrderBlocks.order_blocks_found ob_report)%nat) /\
  (exists df all,
     sweep_rates = Some df /\ LiquiditySweep.scan df = Ok all /\
     LiquiditySweep.sweeps_detected sweep_report = length all /\
     LiquiditySweep.recent_sweeps sweep_report = last_n 5 all /\
     LiquiditySweep.recent_sweeps sweep_report `suffix_of` all /\
     (length (LiquiditySweep.recent_sweeps sweep_report) <= 5)%nat /\
     (length (LiquiditySweep.recent_sweeps sweep_report)
        <= LiquiditySweep.sweeps_detected sweep_report)%nat) /\
  (exists (df : DataFrame) (lowest_idx : nat) lowest_point all,
     mss_rates = Some df /\
     StructureShift.idxmin (low <$> df) = Ok lowest_idx /\
     df !! lowest_idx = Some lowest_point /\
     StructureShift.poi_loop df (low lowest_point)
       (StructureShift.mss_level mss_report) []
       (range lowest_idx (lowest_idx + 50)) = Ok all /\
     StructureShift.pois_in_zone mss_report = length all /\
     StructureShift.pois mss_report = last_n 5 all /\
     StructureShift.pois mss_report `suffix_of` all /\
     (length (StructureShift.pois mss_report) <= 5)%nat /\
     (length (StructureShift.pois mss_report)
        <= StructureShift.pois_in_zone mss_report)%nat).
Proof.
  intros Hob Hsweep Hmss.
  apply identify_order_blocks_Report in Hob
    as (df1 & all1 & -> & Hscan1 & Hcount1 & Hlist1).
  apply detect_liquidity_sweep_Report in Hsweep
    as (df2 & all2 & -> & Hscan2 & Hcount2 & Hlist2).
  apply find_mss_and_poi_Report in Hmss
    as (df3 & k & lowest & t & all3 & -> & Hmin3 & Hlowest3 & _ & Hloop3 & _
        & Hcount3 & Hlist3).
  split; [|split].
  - exists df1, all1. rewrite Hcount1, Hlist1.
    repeat split; try done;
      [apply last_n_suffix|apply last_n_length_le|apply last_n_length_le_all].
  - exists df2, all2. rewrite Hcount2, Hlist2.
    repeat split; try done;
      [apply last_n_suffix|apply last_n_length_le|apply last_n_length_le_all].
  - exists df3, k, lowest, all3. rewrite Hcount3, Hlist3.
    repeat split; try done;
      [apply last_n_suffix|apply last_n_length_le|apply last_n_length_le_all].
Qed.

Lemma counts_and_recent_lists_witness :
  (exists df all,
     Some Scenario.bearish_series = Some df /\
     OrderBlocks.scan df OrderBlocks.TF_4H OrderBlocks.both = Ok all /\
     OrderBlocks.order_blocks_found Scenario.bearish_report = length all /\
     OrderBlocks.order_blocks Scenario.bearish_report = last_n 10 all /\
     OrderBlocks.order_blocks Scenario.bearish_report `suffix_of` all /\
     (length (OrderBlocks.order_blocks Scenario.bearish_report) <= 10)%nat /\
     (length (OrderBlocks.order_blocks Scenario.bearish_report)
        <= OrderBlocks.order_blocks_found Scenario.bearish_report)%nat) /\
  (exists df all,
     Some Scenario.sweep_series = Some df /\ LiquiditySweep.scan df = Ok all /\
     LiquiditySweep.sweeps_detected Scenario.sweep_report = length all /\
     LiquiditySweep.recent_sweeps Scenario.sweep_report = last_n 5 all /\
     LiquiditySweep.recent_sweeps Scenario.sweep_report `suffix_of` all /\
     (length (LiquiditySweep.recent_sweeps Scenario.sweep_report) <= 5)%nat /\
     (length (LiquiditySweep.recent_sweeps Scenario.sweep_report)
        <= LiquiditySweep.sweeps_detected Scenario.sweep_report)%nat) /\
  (exists (df : DataFrame) (lowest_idx : nat) lowest_point all,
     Some Scenario.shift_series = Some df /\
     StructureShift.idxmin (low <$> df) = Ok lowest_idx /\
     df !! lowest_idx = Some lowest_point /\
     StructureShift.poi_loop df (low lowest_point)
       (StructureShift.mss_level Scenario.shift_report) []
       (range lowest_idx (lowest_idx + 50)) = Ok all /\
     StructureShift.pois_in_zone Scenario.shift_report = length all /\
     StructureShift.pois Scenario.shift_report = last_n 5 all /\
     StructureShift.pois Scenario.shift_report `suffix_of` all /\
     (length (StructureShift.pois Scenario.shift_report) <= 5)%nat /\
     (length (StructureShift.pois Scenario.shift_report)
        <= StructureShift.pois_in_zone Scenario.shift_report)%nat).
Proof.
  apply (counts_and_recent_lists
           (Some Scenario.bearish_series) "XAUUSD"
           OrderBlocks.TF_4H OrderBlocks.both Scenario.bearish_report
           (Some Scenario.sweep_series) Scenario.sweep_report
           (Some Scenario.shift_series) Scenario.shift_report);
    vm_compute; reflexivity.
Defined.

(* ===================================================================== *)
(** * Further properties: order blocks *)
(* ===================================================================== *)

Lemma ob_body_pattern (df : DataFrame) tf direction acc (i : nat) acc' :
  (2 <= i)%nat ->
  Forall (fun ob => exists j, Pattern.order_block_at df tf direction j ob) acc ->
  OrderBlocks.scan_body df tf direction acc i = Ok acc' ->
  Forall (fun ob => exists j, Pattern.order_block_at df tf direction j ob) acc'.
Proof.
  intros Hi Hacc Hrun. unfold OrderBlocks.scan_body in Hrun.
  bind_inv Hrun. rename a into c1. apply iloc_Ok in Ha.
  bind_inv Hrun. rename a into c2. apply iloc_Ok in Ha0.
  bind_inv Hrun. rename a into c3. apply iloc_Ok in Ha1.
  replace (i - 1)%nat with (i - 2 + 1)%nat in Ha0 by lia.
  replace i with (i - 2 + 2)%nat in Ha1 at 1 by lia.
  bind_inv Hrun. rename a into mid.
  assert (Hmid : Forall
    (fun ob => exists j, Pattern.order_block_at df tf direction j ob) mid).
  { destruct (OrderBlocks.wants_bullish direction) eqn:Hwant; [|by ok_inv Ha2].
    destruct (high c1 <? close c2) eqn:H1; [|by ok_inv Ha2].
    destruct (0 <? open c2 - high c1) eqn:H2; [|by ok_inv Ha2].
    destruct (low c3 <=? high c1) eqn:H3; [|by ok_inv Ha2].
    bind_inv Ha2. ok_inv Ha2.
    apply Forall_app; split; [done|]. apply Forall_singleton.
    exists (i - 2)%nat, c1, c2, c3. cbn.
    apply Qlt_bool_iff in H1, H2. apply Qle_bool_iff in H3.
    by repeat split. }
  destruct (OrderBlocks.wants_bearish direction) eqn:Hwant; [|by ok_inv Hrun].
  destruct (close c2 <? low c1) eqn:H1; [|by ok_inv Hrun].
  destruct (0 <? low c1 - open c2) eqn:H2; [|by ok_inv Hrun].
  destruct (low c1 <=? high c3) eqn:H3; [|by ok_inv Hrun].
  bind_inv Hrun. ok_inv Hrun.
  apply Forall_app; split; [done|]. apply Forall_singleton.
  exists (i - 2)%nat, c1, c2, c3. cbn.
  apply Qlt_bool_iff in H1, H2. apply Qle_bool_iff in H3.
  by repeat split.
Qed.

Lemma ob_scan_pattern (df : DataFrame) tf direction all :
  OrderBlocks.scan df tf direction = Ok all ->
  Forall (fun ob => exists j, Pattern.order_block_at df tf direction j ob) all.
Proof.
  unfold OrderBlocks.scan.
  apply (for_each_invariant
           (Forall (fun ob => exists j,
                      Pattern.order_block_at df tf direction j ob)));
    [|constructor].
  intros s i s' Hi. apply elem_of_range in Hi.
  apply ob_body_pattern. lia.
Qed.

(** A loop that appends [f i] at every index collects the lists in order. *)
Lemma for_each_appends {A} (body : list A -> nat -> result (list A))
    (f : nat -> list A) (idxs : list nat) :
  (forall s i, i ∈ idxs -> body s i = Ok (s ++ f i)) ->
  forall s, for_each body s idxs = Ok (s ++ mjoin (f <$> idxs)).
Proof.
  induction idxs as [|i rest IH]; intros Hbody s; cbn.
  - by rewrite app_nil_r.
  - rewrite Hbody by (by left). run_step.
    rewrite IH by (intros ? ? ?; apply Hbody; by right).
    by rewrite <- app_assoc.
Qed.

Lemma ob_body_found (df : DataFrame) tf direction acc (i : nat) :
  (2 <= i < length df)%nat ->
  OrderBlocks.scan_body df tf direction acc i
  = Ok (acc ++ Pattern.found_at df tf direction i).
Proof.
  intros Hi. unfold OrderBlocks.scan_body, Pattern.found_at.
  destruct (lookup_lt_is_Some_2 df (i - 2)) as [c1 H1]; [lia|].
  destruct (lookup_lt_is_Some_2 df (i - 1)) as [c2 H2]; [lia|].
  destruct (lookup_lt_is_Some_2 df i) as [c3 H3]; [lia|].
  destruct (last df) as [latest|] eqn:Hlast;
    [|apply last_None in Hlast; subst df; cbn in Hi; lia].
  unfold iloc, iloc_last. rewrite H1, H2, H3, Hlast. run_step. cbv zeta.
  unfold Pattern.bullish_fires, Pattern.bearish_fires,
    Pattern.bullish_block, Pattern.bearish_block.
  destruct (OrderBlocks.wants_bullish direction),
    (OrderBlocks.wants_bearish direction),
    (high c1 <? close c2), (0 <? open c2 - high c1), (low c3 <=? high c1),
    (close c2 <? low c1), (0 <? low c1 - open c2), (low c1 <=? high c3);
    cbn; rewrite ?app_nil_r, <- ?app_assoc; reflexivity.
Qed.

(** The list the loop ends with, in closed form. *)
Lemma ob_scan_found (df : DataFrame) tf direction :
  OrderBlocks.scan df tf direction
  = Ok (mjoin (Pattern.found_at df tf direction <$> range 2 (length df))).
Proof.
  unfold OrderBlocks.scan.
  rewrite (for_each_appends _ (Pattern.found_at df tf direction)); [done|].
  intros s i Hi. apply elem_of_range in Hi. by apply ob_body_found.
Qed.

(** X1.  Every order block the detector returns was read off three
    consecutive candles of the frame that pass the bullish (or bearish)
    test: it carries the time and the range of the first of them, the gap
    of the second, the frame's timeframe, and its kind is one the direction
    filter asked for. *)
Theorem order_block_comes_from_pattern rates sym tf direction r ob :
  OrderBlocks.identify_order_blocks rates sym tf direction = Ok (Report r) ->
  ob ∈ OrderBlocks.order_blocks r ->
  exists (df : DataFrame) (i : nat),
    rates = Some df /\ Pattern.order_block_at df tf direction i ob.
Proof.
  intros Hrun Hob.
  apply identify_order_blocks_Report in Hrun
    as (df & all & -> & Hscan & _ & Hlist).
  rewrite Hlist in Hob. apply elem_of_last_n in Hob.
  apply ob_scan_pattern in Hscan. rewrite Forall_forall in Hscan.
  destruct (Hscan ob Hob) as [i Hi]. by exists df, i.
Qed.

Lemma order_block_comes_from_pattern_witness :
  exists (df : DataFrame) (i : nat),
    Some Scenario.bearish_series = Some df /\
    Pattern.order_block_at df OrderBlocks.TF_4H OrderBlocks.both i
      Scenario.bearish_block.
Proof.
  apply (order_block_comes_from_pattern (Some Scenario.bearish_series)
           "XAUUSD" OrderBlocks.TF_4H OrderBlocks.both
           Scenario.bearish_report Scenario.bearish_block).
  - vm_compute. reflexivity.
  - apply list_elem_of_here.
Defined.

(** X2.  The direction filter is respected and the tags follow the
    timeframe: with "bullish" only bullish blocks are returned, with
    "bearish" only bearish ones; every block is tagged with the requested
    timeframe, and as a reversal block exactly on 4H and D1. *)
Theorem direction_filter_is_respected rates sym tf direction r ob :
  OrderBlocks.identify_order_blocks rates sym tf direction = Ok (Report r) ->
  ob ∈ OrderBlocks.order_blocks r ->
  (direction = OrderBlocks.bullish ->
     OrderBlocks.type ob = OrderBlocks.bullish_ob) /\
  (direction = OrderBlocks.bearish ->
     OrderBlocks.type ob = OrderBlocks.bearish_ob) /\
  OrderBlocks.timeframe ob = tf /\
  (OrderBlocks.strength ob = OrderBlocks.reversal <->
     tf = OrderBlocks.TF_4H \/ tf = OrderBlocks.TF_D1).
Proof.
  intros Hrun Hob.
  apply identify_order_blocks_Report in Hrun
    as (df & all & -> & Hscan & _ & Hlist).
  rewrite Hlist in Hob. apply elem_of_last_n in Hob.
  apply ob_scan_pattern in Hscan. rewrite Forall_forall in Hscan.
  destruct (Hscan ob Hob)
    as (i & c1 & c2 & c3 & _ & _ & _ & _ & _ & _ & Htf & Hstrength & Hkind).
  repeat split.
  - intros ->. destruct (OrderBlocks.type ob); [done|].
    by destruct Hkind as [? _].
  - intros ->. destruct (OrderBlocks.type ob); [|done].
    by destruct Hkind as [? _].
  - exact Htf.
  - rewrite Hstrength. destruct tf; cbn; intros; (by left) || (by right) || done.
  - rewrite Hstrength. by intros [-> | ->].
Qed.

Lemma direction_filter_is_respected_witness :
  (OrderBlocks.bearish = OrderBlocks.bullish ->
     OrderBlocks.type Scenario.bearish_block = OrderBlocks.bullish_ob) /\
  (OrderBlocks.bearish = OrderBlocks.bearish ->
     OrderBlocks.type Scenario.bearish_block = OrderBlocks.bearish_ob) /\
  OrderBlocks.timeframe Scenario.bearish_block = OrderBlocks.TF_4H /\
  (OrderBlocks.strength Scenario.bearish_block = OrderBlocks.reversal <->
     OrderBlocks.TF_4H = OrderBlocks.TF_4H
     \/ OrderBlocks.TF_4H = OrderBlocks.TF_D1).
Proof.
  apply (direction_filter_is_respected (Some Scenario.bearish_series)
           "XAUUSD" OrderBlocks.TF_4H OrderBlocks.bearish
           Scenario.bearish_report Scenario.bearish_block).
  - vm_compute. reflexivity.
  - apply list_elem_of_here.
Defined.

Lemma elem_of_found_join (df : DataFrame) tf direction (i : nat) ob :
  (2 <= i < length df)%nat ->
  ob ∈ Pattern.found_at df tf direction i ->
  ob ∈ mjoin (Pattern.found_at df tf direction <$> range 2 (length df)).
Proof.
  intros Hi Hob. apply list_elem_of_join.
  exists (Pattern.found_at df tf direction i). split; [done|].
  apply list_elem_of_fmap_2, elem_of_range. lia.
Qed.

(** X3.  No qualifying pattern is missed: whenever three consecutive
    candles pass the bullish (bearish) test and the filter lets bullish
    (bearish) blocks through, the scan ends without raising and its list
    holds the block of those candles, so the reported count is positive. *)
Theorem qualifying_triple_is_found
    (df : DataFrame) sym tf direction (i : nat) c1 c2 c3 :
  df !! i = Some c1 -> df !! (i + 1)%nat = Some c2 ->
  df !! (i + 2)%nat = Some c3 ->
  exists latest all r,
    last df = Some latest /\
    OrderBlocks.scan df tf direction = Ok all /\
    OrderBlocks.identify_order_blocks (Some df) sym tf direction
      = Ok (Report r) /\
    OrderBlocks.order_blocks_found r = length all /\
    (OrderBlocks.wants_bullish direction = true -> Pattern.bullish c1 c2 c3 ->
       Pattern.bullish_block tf c1 c2 latest ∈ all) /\
    (OrderBlocks.wants_bearish direction = true -> Pattern.bearish c1 c2 c3 ->
       Pattern.bearish_block tf c1 c2 latest ∈ all).
Proof.
  intros H1 H2 H3.
  assert (Hlen : (i + 2 < length df)%nat) by (by eapply lookup_lt_Some).
  destruct (last df) as [latest|] eqn:Hlast;
    [|apply last_None in Hlast; subst df; cbn in Hlen; lia].
  exists latest. eexists. eexists.
  split; [done|]. split; [apply ob_scan_found|].
  split; [unfold OrderBlocks.identify_order_blocks;
          rewrite ob_scan_found; reflexivity|].
  split; [reflexivity|].
  assert (Hfound : Pattern.found_at df tf direction (i + 2) =
    (if Pattern.bullish_fires direction c1 c2 c3
     then [Pattern.bullish_block tf c1 c2 latest] else [])
    ++ (if Pattern.bearish_fires direction c1 c2 c3
        then [Pattern.bearish_block tf c1 c2 latest] else [])).
  { unfold Pattern.found_at.
    replace (i + 2 - 2)%nat with i by lia.
    replace (i + 2 - 1)%nat with (i + 1)%nat by lia.
    by rewrite H1, H2, H3, Hlast. }
  split.
  - intros Hwant (Ha & Hb & Hc).
    apply (elem_of_found_join df tf direction (i + 2)); [lia|].
    rewrite Hfound. apply elem_of_app. left.
    unfold Pattern.bullish_fires. rewrite Hwant.
    apply Qlt_bool_iff in Ha, Hb. apply Qle_bool_iff in Hc.
    rewrite Ha, Hb, Hc. apply list_elem_of_here.
  - intros Hwant (Ha & Hb & Hc).
    apply (elem_of_found_join df tf direction (i + 2)); [lia|].
    rewrite Hfound. apply elem_of_app. right.
    unfold Pattern.bearish_fires. rewrite Hwant.
    apply Qlt_bool_iff in Ha, Hb. apply Qle_bool_iff in Hc.
    rewrite Ha, Hb, Hc. apply list_elem_of_here.
Qed.

Lemma qualifying_triple_is_found_witness :
  exists latest all r,
    last Scenario.bearish_series = Some latest /\
    OrderBlocks.scan Scenario.bearish_series OrderBlocks.TF_4H
      OrderBlocks.both = Ok all /\
    OrderBlocks.identify_order_blocks (Some Scenario.bearish_series)
      "XAUUSD" OrderBlocks.TF_4H OrderBlocks.both = Ok (Report r) /\
    OrderBlocks.order_blocks_found r = length all /\
    (OrderBlocks.wants_bullish OrderBlocks.both = true ->
     Pattern.bullish (Scenario.candle 1 100 101 99 100)
       (Scenario.candle 2 98 (985 # 10) 97 (975 # 10))
       (Scenario.candle 3 98 (995 # 10) 95 96) ->
     Pattern.bullish_block OrderBlocks.TF_4H
       (Scenario.candle 1 100 101 99 100)
       (Scenario.candle 2 98 (985 # 10) 97 (975 # 10)) latest ∈ all) /\
    (OrderBlocks.wants_bearish OrderBlocks.both = true ->
     Pattern.bearish (Scenario.candle 1 100 101 99 100)
       (Scenario.candle 2 98 (985 # 10) 97 (975 # 10))
       (Scenario.candle 3 98 (995 # 10) 95 96) ->
     Pattern.bearish_block OrderBlocks.TF_4H
       (Scenario.candle 1 100 101 99 100)
       (Scenario.candle 2 98 (985 # 10) 97 (975 # 10)) latest ∈ all).
Proof.
  apply (qualifying_triple_is_found Scenario.bearish_series "XAUUSD"
           OrderBlocks.TF_4H OrderBlocks.both 0); reflexivity.
Defined.

(** X4.  The order-block detector never raises: a missing answer of the
    terminal gives the error reply, and every frame, empty ones included,
    gives a report; a frame of fewer than three candles reports no block. *)
Theorem identify_order_blocks_never_raises rates sym tf direction :
  exists answer,
    OrderBlocks.identify_order_blocks rates sym tf direction = Ok answer /\
    (rates = None -> answer = ErrorReply "Error: Failed to fetch data") /\
    (forall df : DataFrame, rates = Some df ->
       exists r, answer = Report r /\
         ((length df < 3)%nat ->
            OrderBlocks.order_blocks_found r = 0%nat /\
            OrderBlocks.order_blocks r = [])).
Proof.
  destruct rates as [df|]; cbn.
  - rewrite ob_scan_found. run_step. eexists. split; [reflexivity|].
    split; [done|]. intros ? [= <-]. eexists. split; [reflexivity|].
    intros Hshort. cbn.
    replace (range 2 (length df)) with (@nil nat)
      by (unfold range; by replace (length df - 2)%nat with 0%nat by lia).
    done.
  - eexists. split; [reflexivity|]. split; [done|]. intros ? [=].
Qed.

Lemma found_at_both (df : DataFrame) tf (i : nat) :
  length (Pattern.found_at df tf OrderBlocks.both i)
  = (length (Pattern.found_at df tf OrderBlocks.bullish i)
     + length (Pattern.found_at df tf OrderBlocks.bearish i))%nat.
Proof.
  unfold Pattern.found_at.
  destruct (df !! (i - 2)%nat), (df !! (i - 1)%nat), (df !! i), (last df);
    try done.
  unfold Pattern.bullish_fires, Pattern.bearish_fires. cbn [OrderBlocks.wants_bullish OrderBlocks.wants_bearish andb].
  rewrite !length_app. repeat case_match; cbn; lia.
Qed.

Lemma join_fmap_cons {A B} (f : A -> list B) (x : A) (l : list A) :
  mjoin (f <$> x :: l) = f x ++ mjoin (f <$> l).
Proof. reflexivity. Qed.

Lemma found_count_both (df : DataFrame) tf (idxs : list nat) :
  length (mjoin (Pattern.found_at df tf OrderBlocks.both <$> idxs))
  = (length (mjoin (Pattern.found_at df tf OrderBlocks.bullish <$> idxs))
     + length (mjoin (Pattern.found_at df tf OrderBlocks.bearish <$> idxs)))%nat.
Proof.
  induction idxs as [|i rest IH]; [done|].
  rewrite !join_fmap_cons, !length_app, IH, found_at_both. lia.
Qed.

(** X5.  Scanning for both directions finds what the two one-sided scans
    find: on every frame the count reported for "both" is the sum of the
    counts reported for "bullish" and for "bearish". *)
Theorem both_count_is_sum_of_sides (df : DataFrame) sym tf :
  exists both bull bear,
    OrderBlocks.identify_order_blocks (Some df) sym tf OrderBlocks.both
      = Ok (Report both) /\
    OrderBlocks.identify_order_blocks (Some df) sym tf OrderBlocks.bullish
      = Ok (Report bull) /\
    OrderBlocks.identify_order_blocks (Some df) sym tf OrderBlocks.bearish
      = Ok (Report bear) /\
    OrderBlocks.order_blocks_found both
    = (OrderBlocks.order_blocks_found bull
       + OrderBlocks.order_blocks_found bear)%nat.
Proof.
  unfold OrderBlocks.identify_order_blocks. rewrite !ob_scan_found. run_step.
  do 3 eexists. repeat (split; [reflexivity|]). cbn.
  apply found_count_both.
Qed.

Lemma found_at_le (df : DataFrame) tf direction (i : nat) :
  (length (Pattern.found_at df tf direction i) <= 2)%nat /\
  ((forall c, c ∈ df -> low c <= high c) ->
   (length (Pattern.found_at df tf direction i) <= 1)%nat).
Proof.
  unfold Pattern.found_at.
  destruct (df !! (i - 2)%nat) as [c1|] eqn:H1; [|cbn; lia].
  destruct (df !! (i - 1)%nat) as [c2|]; [|cbn; lia].
  destruct (df !! i) as [c3|]; [|cbn; lia].
  destruct (last df) as [latest|]; [|cbn; lia].
  rewrite length_app. split; [repeat case_match; cbn; lia|].
  intros Hwf. assert (Hc1 : low c1 <= high c1)
    by (apply Hwf; by eapply list_elem_of_lookup_2).
  destruct (Pattern.bullish_fires direction c1 c2 c3) eqn:Hb;
    destruct (Pattern.bearish_fires direction c1 c2 c3) eqn:Hs; cbn; try lia.
  unfold Pattern.bullish_fires in Hb. unfold Pattern.bearish_fires in Hs.
  rewrite !andb_true_iff in Hb, Hs.
  destruct Hb as [[[_ _] Hb] _]. destruct Hs as [[[_ _] Hs] _].
  apply Qlt_bool_iff in Hb, Hs. lra.
Qed.

Lemma found_count_le (df : DataFrame) tf direction (idxs : list nat) (k : nat) :
  (forall i, length (Pattern.found_at df tf direction i) <= k)%nat ->
  (length (mjoin (Pattern.found_at df tf direction <$> idxs))
   <= k * length idxs)%nat.
Proof.
  intros Hk. induction idxs as [|i rest IH]; [cbn; lia|].
  rewrite join_fmap_cons, length_app. specialize (Hk i). cbn [length]. lia.
Qed.

(** X6.  The count is bounded by the number of candle triples: at most two
    blocks per triple, and at most one when every candle has its low at or
    below its high (a gap above the high and a gap below the low exclude
    each other). *)
Theorem order_block_count_bound rates sym tf direction r :
  OrderBlocks.identify_order_blocks rates sym tf direction = Ok (Report r) ->
  exists df : DataFrame,
    rates = Some df /\
    (OrderBlocks.order_blocks_found r <= 2 * (length df - 2))%nat /\
    ((forall c, c ∈ df -> low c <= high c) ->
     (OrderBlocks.order_blocks_found r <= length df - 2)%nat).
Proof.
  intros Hrun.
  apply identify_order_blocks_Report in Hrun
    as (df & all & -> & Hscan & Hcount & _).
  rewrite ob_scan_found in Hscan. injection Hscan as <-.
  exists df. split; [done|]. rewrite Hcount.
  assert (Hlen : length (range 2 (length df)) = (length df - 2)%nat)
    by (unfold range; apply length_seq).
  split.
  - rewrite <- Hlen. apply found_count_le. intros i. apply found_at_le.
  - intros Hwf. rewrite <- Hlen, <- (Nat.mul_1_l (length (range _ _))).
    apply found_count_le. intros i. by apply found_at_le.
Qed.

Lemma order_block_count_bound_witness :
  exists df : DataFrame,
    Some Scenario.bearish_series = Some df /\
    (OrderBlocks.order_blocks_found Scenario.bearish_report
       <= 2 * (length df - 2))%nat /\
    ((forall c, c ∈ df -> low c <= high c) ->
     (OrderBlocks.order_blocks_found Scenario.bearish_report
        <= length df - 2)%nat).
Proof.
  apply (order_block_count_bound (Some Scenario.bearish_series) "XAUUSD"
           OrderBlocks.TF_4H OrderBlocks.both Scenario.bearish_report).
  vm_compute. reflexivity.
Defined.

(* ===================================================================== *)
(** * Further properties: liquidity sweeps *)
(* ===================================================================== *)

Ltac bool_hyps :=
  repeat match goal with
         | H : _ && _ = true |- _ => apply andb_true_iff in H as [? ?]
         | H : (_ <? _) = true |- _ => apply Qlt_bool_iff in H
         | H : (_ <=? _) = true |- _ => apply Qle_bool_iff in H
         end.

Ltac sweep_fields :=
  cbn [LiquiditySweep.type LiquiditySweep.condition LiquiditySweep.sweep_time
       LiquiditySweep.swept_level LiquiditySweep.detail
       LiquiditySweep.confirmation_candle LiquiditySweep.valid].

Ltac grown_list :=
  repeat (apply Forall_app; split); try done; try apply Forall_singleton.

Lemma sweep_body_pattern (df : DataFrame) acc (i : nat) acc' :
  (5 <= i)%nat ->
  Forall (fun s => exists j, Pattern.sweep_at df j s) acc ->
  LiquiditySweep.scan_body df acc i = Ok acc' ->
  Forall (fun s => exists j, Pattern.sweep_at df j s) acc'.
Proof.
  intros Hi Hacc Hrun. unfold LiquiditySweep.scan_body in Hrun.
  bind_inv Hrun. rename a into current. apply iloc_Ok in Ha as Hcur.
  bind_inv Hrun. rename a into next1. apply iloc_Ok in Ha0 as Hnext.
  bind_inv Hrun. clear Ha1 a.
  bind_inv Hrun. rename a into recent_lows. rename Ha1 into Hlows.
  cbv zeta in Hrun.
  bind_inv Hrun. rename a into ratio. rename Ha1 into Hratio.
  bind_inv Hrun. rename a into mid. rename Ha1 into Hmid.
  bind_inv Hrun. rename a into recent_highs. rename Ha1 into Hhighs.
  assert (Forall (fun s => exists j, Pattern.sweep_at df j s) mid) as Hgood.
  { clear Hrun Hhighs.
    repeat (case_match; try bind_inv Hmid); ok_inv Hmid; grown_list.
    all: exists i; unfold Pattern.sweep_at; exists current, next1;
      sweep_fields; cbv zeta; bool_hyps; repeat (split; [done|]).
    all: try (by repeat split).
    all: by exists ratio; eexists. }
  clear Hmid.
  repeat case_match; ok_inv Hrun; grown_list.
  all: exists i; unfold Pattern.sweep_at; exists current, next1;
    sweep_fields; cbv zeta; bool_hyps; by repeat split.
Qed.

Lemma sweep_scan_pattern (df : DataFrame) all :
  LiquiditySweep.scan df = Ok all ->
  Forall (fun s => exists j, Pattern.sweep_at df j s) all.
Proof.
  unfold LiquiditySweep.scan.
  apply (for_each_invariant
           (Forall (fun s => exists j, Pattern.sweep_at df j s)));
    [|constructor].
  intros s i s' Hi. apply elem_of_range in Hi.
  apply sweep_body_pattern. lia.
Qed.

Lemma returned_sweep_pattern rates sym r s :
  LiquiditySweep.detect_liquidity_sweep rates sym = Ok (Report r) ->
  s ∈ LiquiditySweep.recent_sweeps r ->
  exists (df : DataFrame) (i : nat), rates = Some df /\ Pattern.sweep_at df i s.
Proof.
  intros Hrun Hs.
  apply detect_liquidity_sweep_Report in Hrun
    as (df & all & -> & Hscan & _ & Hlist).
  rewrite Hlist in Hs. apply elem_of_last_n in Hs.
  apply sweep_scan_pattern in Hscan. rewrite Forall_forall in Hscan.
  destruct (Hscan s Hs) as [i Hi]. by exists df, i.
Qed.

Lemma py_min_spec (a b : Q) :
  (Num.py_min a b = a \/ Num.py_min a b = b) /\
  Num.py_min a b <= a /\ Num.py_min a b <= b.
Proof.
  unfold Num.py_min. destruct (b <? a) eqn:E.
  - apply Qlt_bool_iff in E. split; [by right|]. split; lra.
  - apply Qlt_bool_false in E. split; [by left|]. split; lra.
Qed.

Lemma py_max_spec (a b : Q) :
  (Num.py_max a b = a \/ Num.py_max a b = b) /\
  a <= Num.py_max a b /\ b <= Num.py_max a b.
Proof.
  unfold Num.py_max. destruct (a <? b) eqn:E.
  - apply Qlt_bool_iff in E. split; [by right|]. split; lra.
  - apply Qlt_bool_false in E. split; [by left|]. split; lra.
Qed.

(** [series.min()] answers an element of the series that no other element
    is below; [series.max()] one that no other element is above. *)
Lemma series_min_spec (xs : list Q) (m : Q) :
  series_min xs = Ok m -> m ∈ xs /\ forall x, x ∈ xs -> m <= x.
Proof.
  destruct xs as [|x rest]; cbn; [discriminate|]. intros [= <-].
  revert x. induction rest as [|y rest IH]; intros x; cbn.
  - split; [apply list_elem_of_here|].
    intros z ->%list_elem_of_singleton. lra.
  - destruct (IH (Num.py_min x y)) as [Hin Hle].
    destruct (py_min_spec x y) as (Hor & Hx & Hy).
    split.
    + apply elem_of_cons in Hin as [Hin|Hin]; [|by do 2 right].
      rewrite Hin. destruct Hor as [-> | ->]; [by left|right; by left].
    + intros z Hz.
      assert (Hm : foldl Num.py_min (Num.py_min x y) rest <= Num.py_min x y)
        by (apply Hle; by left).
      apply elem_of_cons in Hz as [->|Hz]; [lra|].
      apply elem_of_cons in Hz as [->|Hz]; [lra|].
      apply Hle. by right.
Qed.

Lemma series_max_spec (xs : list Q) (m : Q) :
  series_max xs = Ok m -> m ∈ xs /\ forall x, x ∈ xs -> x <= m.
Proof.
  destruct xs as [|x rest]; cbn; [discriminate|]. intros [= <-].
  revert x. induction rest as [|y rest IH]; intros x; cbn.
  - split; [apply list_elem_of_here|].
    intros z ->%list_elem_of_singleton. lra.
  - destruct (IH (Num.py_max x y)) as [Hin Hle].
    destruct (py_max_spec x y) as (Hor & Hx & Hy).
    split.
    + apply elem_of_cons in Hin as [Hin|Hin]; [|by do 2 right].
      rewrite Hin. destruct Hor as [-> | ->]; [by left|right; by left].
    + intros z Hz.
      assert (Hm : Num.py_max x y <= foldl Num.py_max (Num.py_max x y) rest)
        by (apply Hle; by left).
      apply elem_of_cons in Hz as [->|Hz]; [lra|].
      apply elem_of_cons in Hz as [->|Hz]; [lra|].
      apply Hle. by right.
Qed.

(** The candles of [df.iloc[a:b]] are those at the positions from [a] up to
    [b - 1]. *)
Lemma elem_of_iloc_slice (df : DataFrame) (a b : nat) (c : Candle) :
  c ∈ iloc_slice df a b <->
  exists j : nat, (a <= j < b)%nat /\ df !! j = Some c.
Proof.
  unfold iloc_slice. rewrite list_elem_of_lookup. split.
  - intros [k Hk]. apply lookup_take_Some in Hk as [Hk Hlt].
    rewrite lookup_drop in Hk. exists (a + k)%nat. split; [lia|done].
  - intros (j & Hj & Hc). exists (j - a)%nat.
    apply lookup_take_Some. split; [|lia].
    rewrite lookup_drop. by replace (a + (j - a))%nat with j by lia.
Qed.

(** X7.  A returned bullish wick sweep is sound: its level is the lowest
    low of the five candles before the sweep candle, the sweep candle
    trades below the level and closes back above it, and the confirming
    candle closes and stays above it. *)
Theorem bullish_wick_sweep_is_sound rates sym r s :
  LiquiditySweep.detect_liquidity_sweep rates sym = Ok (Report r) ->
  s ∈ LiquiditySweep.recent_sweeps r ->
  LiquiditySweep.type s = LiquiditySweep.bullish_liq_sweep ->
  LiquiditySweep.condition s = LiquiditySweep.wick_sweep ->
  exists (df : DataFrame) (i : nat) current next1,
    rates = Some df /\ df !! i = Some current /\
    df !! (i + 1)%nat = Some next1 /\
    LiquiditySweep.sweep_time s = time current /\
    LiquiditySweep.detail s
      = LiquiditySweep.WickLow (low current) (close current) /\
    low current < LiquiditySweep.swept_level s /\
    LiquiditySweep.swept_level s < close current /\
    LiquiditySweep.swept_level s < close next1 /\
    LiquiditySweep.swept_level s < low next1 /\
    (forall (j : nat) c, (i - 5 <= j < i)%nat -> df !! j = Some c ->
       LiquiditySweep.swept_level s <= low c) /\
    (exists (j : nat) c, (i - 5 <= j < i)%nat /\ df !! j = Some c /\
       LiquiditySweep.swept_level s = low c).
Proof.
  intros Hrun Hs Htype Hcond.
  destruct (returned_sweep_pattern _ _ _ _ Hrun Hs)
    as (df & i & -> & current & next1 & Hi & Hcur & Hnext & Htime & _ & _ & Hcase).
  cbv zeta in Hcase. rewrite Htype, Hcond in Hcase.
  destruct Hcase as (Hwin & Hdetail & ? & ? & ? & ?).
  apply series_min_spec in Hwin as [Hin Hleast].
  exists df, i, current, next1. repeat (split; [done|]). split.
  - intros j c Hj Hc. apply Hleast. apply list_elem_of_fmap_2.
    apply elem_of_iloc_slice. by exists j.
  - apply list_elem_of_fmap in Hin as (c & Hlevel & Hc).
    apply elem_of_iloc_slice in Hc as (j & Hj & Hc). by exists j, c.
Qed.

Lemma bullish_wick_sweep_is_sound_witness :
  exists (df : DataFrame) (i : nat) current next1,
    Some Sample.two_sweeps_series = Some df /\ df !! i = Some current /\
    df !! (i + 1)%nat = Some next1 /\
    LiquiditySweep.sweep_time Sample.wick_found = time current /\
    LiquiditySweep.detail Sample.wick_found
      = LiquiditySweep.WickLow (low current) (close current) /\
    low current < LiquiditySweep.swept_level Sample.wick_found /\
    LiquiditySweep.swept_level Sample.wick_found < close current /\
    LiquiditySweep.swept_level Sample.wick_found < close next1 /\
    LiquiditySweep.swept_level Sample.wick_found < low next1 /\
    (forall (j : nat) c, (i - 5 <= j < i)%nat -> df !! j = Some c ->
       LiquiditySweep.swept_level Sample.wick_found <= low c) /\
    (exists (j : nat) c, (i - 5 <= j < i)%nat /\ df !! j = Some c /\
       LiquiditySweep.swept_level Sample.wick_found = low c).
Proof.
  apply (bullish_wick_sweep_is_sound (Some Sample.two_sweeps_series) "XAUUSD"
           Sample.two_sweeps_report Sample.wick_found).
  - vm_compute. reflexivity.
  - apply list_elem_of_here.
  - reflexivity.
  - reflexivity.
Defined.

(** X8.  A returned bearish sweep is always a wick sweep (the detector has
    no bearish two-candle rejection), and it is sound: its level is the
    highest high of the five candles before the sweep candle, the sweep
    candle trades above the level and closes back below it, and the
    confirming candle closes and stays below it. *)
Theorem bearish_sweep_is_sound rates sym r s :
  LiquiditySweep.detect_liquidity_sweep rates sym = Ok (Report r) ->
  s ∈ LiquiditySweep.recent_sweeps r ->
  LiquiditySweep.type s = LiquiditySweep.bearish_liq_sweep ->
  LiquiditySweep.condition s = LiquiditySweep.wick_sweep /\
  exists (df : DataFrame) (i : nat) current next1,
    rates = Some df /\ df !! i = Some current /\
    df !! (i + 1)%nat = Some next1 /\
    LiquiditySweep.sweep_time s = time current /\
    LiquiditySweep.detail s
      = LiquiditySweep.WickHigh (high current) (close current) /\
    LiquiditySweep.swept_level s < high current /\
    close current < LiquiditySweep.swept_level s /\
    close next1 < LiquiditySweep.swept_level s /\
    high next1 < LiquiditySweep.swept_level s /\
    (forall (j : nat) c, (i - 5 <= j < i)%nat -> df !! j = Some c ->
       high c <= LiquiditySweep.swept_level s) /\
    (exists (j : nat) c, (i - 5 <= j < i)%nat /\ df !! j = Some c /\
       LiquiditySweep.swept_level s = high c).
Proof.
  intros Hrun Hs Htype.
  destruct (returned_sweep_pattern _ _ _ _ Hrun Hs)
    as (df & i & -> & current & next1 & Hi & Hcur & Hnext & Htime & _ & _ & Hcase).
  cbv zeta in Hcase. rewrite Htype in Hcase.
  destruct (LiquiditySweep.condition s); [|done]. split; [done|].
  destruct Hcase as (Hwin & Hdetail & ? & ? & ? & ?).
  apply series_max_spec in Hwin as [Hin Hmost].
  exists df, i, current, next1. repeat (split; [done|]). split.
  - intros j c Hj Hc. apply Hmost. apply list_elem_of_fmap_2.
    apply elem_of_iloc_slice. by exists j.
  - apply list_elem_of_fmap in Hin as (c & Hlevel & Hc).
    apply elem_of_iloc_slice in Hc as (j & Hj & Hc). by exists j, c.
Qed.

Lemma bearish_sweep_is_sound_witness :
  LiquiditySweep.condition Sample.bearish_sweep_found
    = LiquiditySweep.wick_sweep /\
  exists (df : DataFrame) (i : nat) current next1,
    Some Sample.bearish_sweep_series = Some df /\ df !! i = Some current /\
    df !! (i + 1)%nat = Some next1 /\
    LiquiditySweep.sweep_time Sample.bearish_sweep_found = time current /\
    LiquiditySweep.detail Sample.bearish_sweep_found
      = LiquiditySweep.WickHigh (high current) (close current) /\
    LiquiditySweep.swept_level Sample.bearish_sweep_found < high current /\
    close current < LiquiditySweep.swept_level Sample.bearish_sweep_found /\
    close next1 < LiquiditySweep.swept_level Sample.bearish_sweep_found /\
    high next1 < LiquiditySweep.swept_level Sample.bearish_sweep_found /\
    (forall (j : nat) c, (i - 5 <= j < i)%nat -> df !! j = Some c ->
       high c <= LiquiditySweep.swept_level Sample.bearish_sweep_found) /\
    (exists (j : nat) c, (i - 5 <= j < i)%nat /\ df !! j = Some c /\
       LiquiditySweep.swept_level Sample.bearish_sweep_found = high c).
Proof.
  apply (bearish_sweep_is_sound (Some Sample.bearish_sweep_series) "XAUUSD"
           Sample.bearish_sweep_report Sample.bearish_sweep_found).
  - vm_compute. reflexivity.
  - apply list_elem_of_here.
  - reflexivity.
Defined.

(** X9.  A returned two-candle rejection is a bullish sweep read off two
    consecutive candles of the frame: the first is bearish and closes below
    the lowest low of the five candles before it, which is the reported
    level; the second is bullish and closes back above that level.  (The
    two body-ratio tests of the pattern are floating-point tests and are
    left out of the statement.) *)
Theorem rejection_sweep_is_sound rates sym r s :
  LiquiditySweep.detect_liquidity_sweep rates sym = Ok (Report r) ->
  s ∈ LiquiditySweep.recent_sweeps r ->
  LiquiditySweep.condition s = LiquiditySweep.two_candle_rejection ->
  LiquiditySweep.type s = LiquiditySweep.bullish_liq_sweep /\
  exists (df : DataFrame) (i : nat) current next1,
    rates = Some df /\ df !! i = Some current /\
    df !! (i + 1)%nat = Some next1 /\
    (5 <= i)%nat /\
    LiquiditySweep.sweep_time s = time current /\
    LiquiditySweep.confirmation_candle s = time next1 /\
    close current < open current /\
    close current < LiquiditySweep.swept_level s /\
    open next1 < close next1 /\
    LiquiditySweep.swept_level s < close next1 /\
    (exists (j : nat) c, (i - 5 <= j < i)%nat /\ df !! j = Some c /\
       LiquiditySweep.swept_level s = low c) /\
    (forall (j : nat) c, (i - 5 <= j < i)%nat -> df !! j = Some c ->
       LiquiditySweep.swept_level s <= low c).
Proof.
  intros Hrun Hs Hcond.
  destruct (returned_sweep_pattern _ _ _ _ Hrun Hs)
    as (df & i & -> & current & next1 & Hi & Hcur & Hnext & Htime & Hconf & _
        & Hcase).
  cbv zeta in Hcase. rewrite Hcond in Hcase.
  destruct (LiquiditySweep.type s); [|done]. split; [done|].
  destruct Hcase as (Hwin & ? & ? & ? & ? & _).
  apply series_min_spec in Hwin as [Hin Hleast].
  apply list_elem_of_fmap in Hin as (c & Hlevel & Hc).
  apply elem_of_iloc_slice in Hc as (j & Hj & Hc).
  exists df, i, current, next1.
  repeat (split; [done || lia|]). split.
  - by exists j, c.
  - intros j' c' Hj' Hc'. apply Hleast. apply list_elem_of_fmap_2.
    apply elem_of_iloc_slice. by exists j'.
Qed.

Lemma rejection_sweep_is_sound_witness :
  LiquiditySweep.type Sample.rejection_found
    = LiquiditySweep.bullish_liq_sweep /\
  exists (df : DataFrame) (i : nat) current next1,
    Some Sample.two_sweeps_series = Some df /\ df !! i = Some current /\
    df !! (i + 1)%nat = Some next1 /\
    (5 <= i)%nat /\
    LiquiditySweep.sweep_time Sample.rejection_found = time current /\
    LiquiditySweep.confirmation_candle Sample.rejection_found = time next1 /\
    close current < open current /\
    close current < LiquiditySweep.swept_level Sample.rejection_found /\
    open next1 < close next1 /\
    LiquiditySweep.swept_level Sample.rejection_found < close next1 /\
    (exists (j : nat) c, (i - 5 <= j < i)%nat /\ df !! j = Some c /\
       LiquiditySweep.swept_level Sample.rejection_found = low c) /\
    (forall (j : nat) c, (i - 5 <= j < i)%nat -> df !! j = Some c ->
       LiquiditySweep.swept_level Sample.rejection_found <= low c).
Proof.
  apply (rejection_sweep_is_sound (Some Sample.two_sweeps_series) "XAUUSD"
           Sample.two_sweeps_report Sample.rejection_found).
  - vm_compute. reflexivity.
  - apply list_elem_of_further, list_elem_of_here.
  - reflexivity.
Defined.

(** Candles with distinct times sit at distinct positions. *)
Lemma same_time_same_position (df : DataFrame) (i j : nat) c d :
  NoDup (time <$> df) ->
  df !! i = Some c -> df !! j = Some d -> time c = time d -> i = j.
Proof.
  intros Hnodup Hc Hd Htime.
  apply (NoDup_lookup (time <$> df) i j (time c)); [done| |];
    rewrite list_lookup_fmap; [by rewrite Hc|by rewrite Hd, Htime].
Qed.

(** X10.  On a frame without duplicate timestamps, a bullish wick sweep and
    a two-candle rejection are never reported for the same sweep candle:
    the first needs the candle to close above the swept low, the second
    below it. *)
Theorem wick_and_rejection_exclude_each_other rates sym r wick rejection :
  LiquiditySweep.detect_liquidity_sweep rates sym = Ok (Report r) ->
  (forall df : DataFrame, rates = Some df -> NoDup (time <$> df)) ->
  wick ∈ LiquiditySweep.recent_sweeps r ->
  rejection ∈ LiquiditySweep.recent_sweeps r ->
  LiquiditySweep.type wick = LiquiditySweep.bullish_liq_sweep ->
  LiquiditySweep.condition wick = LiquiditySweep.wick_sweep ->
  LiquiditySweep.condition rejection = LiquiditySweep.two_candle_rejection ->
  LiquiditySweep.sweep_time wick <> LiquiditySweep.sweep_time rejection.
Proof.
  intros Hrun Hnodup Hw Hr Htype Hcw Hcr Hsame.
  destruct (returned_sweep_pattern _ _ _ _ Hrun Hw)
    as (df & i & -> & c1 & n1 & _ & Hc1 & _ & Ht1 & _ & _ & Hcase1).
  destruct (returned_sweep_pattern _ _ _ _ Hrun Hr)
    as (df' & j & [= <-] & c2 & n2 & _ & Hc2 & _ & Ht2 & _ & _ & Hcase2).
  cbv zeta in Hcase1, Hcase2. rewrite Htype, Hcw in Hcase1.
  rewrite Hcr in Hcase2.
  destruct (LiquiditySweep.type rejection); [|done].
  destruct Hcase1 as (Hwin1 & _ & _ & Habove & _).
  destruct Hcase2 as (Hwin2 & _ & Hbelow & _).
  assert (i = j) as <-.
  { apply (same_time_same_position df i j c1 c2); [by apply Hnodup|done..|].
    by rewrite <- Ht1, <- Ht2. }
  rewrite Hc1 in Hc2. injection Hc2 as <-.
  rewrite Hwin1 in Hwin2. injection Hwin2 as Hlevel.
  rewrite Hlevel in Habove. lra.
Qed.

Lemma wick_and_rejection_exclude_each_other_witness :
  LiquiditySweep.sweep_time Sample.wick_found
  <> LiquiditySweep.sweep_time Sample.rejection_found.
Proof.
  apply (wick_and_rejection_exclude_each_other
           (Some Sample.two_sweeps_series) "XAUUSD" Sample.two_sweeps_report
           Sample.wick_found Sample.rejection_found).
  - vm_compute. reflexivity.
  - intros df [= <-]. vm_compute.
    repeat (apply NoDup_cons; split;
            [intros H; repeat (apply elem_of_cons in H as [H|H];
                               [discriminate H|]);
             by apply elem_of_nil in H|]).
    apply NoDup_nil_2.
  - apply list_elem_of_here.
  - apply list_elem_of_further, list_elem_of_here.
  - reflexivity.
  - reflexivity.
  - reflexivity.
Defined.

(** X11.  On a frame with at least one candle the sweep detector returns a
    report whose current price is the close of the last candle; with fewer
    than eight candles the loop has no index to visit and the report holds
    no sweep. *)
Theorem sweep_detector_returns_on_candles (df : DataFrame) sym latest :
  last df = Some latest ->
  exists r,
    LiquiditySweep.detect_liquidity_sweep (Some df) sym = Ok (Report r) /\
    LiquiditySweep.current_price r = close latest /\
    ((length df < 8)%nat ->
       LiquiditySweep.sweeps_detected r = 0%nat /\
       LiquiditySweep.recent_sweeps r = []).
Proof.
  intros Hlast. unfold LiquiditySweep.detect_liquidity_sweep.
  destruct (sweep_scan_total df) as [sweeps Hscan]. rewrite Hscan. run_step.
  unfold iloc_last. rewrite Hlast. run_step.
  eexists. split; [reflexivity|]. cbn. split; [done|].
  intros Hshort. unfold LiquiditySweep.scan in Hscan.
  replace (range 5 (length df - 2)) with (@nil nat) in Hscan
    by (unfold range; by replace (length df - 2 - 5)%nat with 0%nat by lia).
  cbn in Hscan. by injection Hscan as <-.
Qed.

Lemma sweep_detector_returns_on_candles_witness :
  exists r,
    LiquiditySweep.detect_liquidity_sweep (Some Scenario.bearish_series)
      "XAUUSD" = Ok (Report r) /\
    LiquiditySweep.current_price r = 96 /\
    ((length Scenario.bearish_series < 8)%nat ->
       LiquiditySweep.sweeps_detected r = 0%nat /\
       LiquiditySweep.recent_sweeps r = []).
Proof.
  apply (sweep_detector_returns_on_candles Scenario.bearish_series "XAUUSD"
           (Scenario.candle 3 98 (995 # 10) 95 96)).
  reflexivity.
Defined.

(* ===================================================================== *)
(** * Further properties: structure shift and points of interest *)
(* ===================================================================== *)

Lemma py_max_keeps (a b : Q) : b <= a -> Num.py_max a b = a.
Proof.
  intros Hle. unfold Num.py_max. destruct (a <? b) eqn:E; [|done].
  apply Qlt_bool_iff in E. lra.
Qed.

(** The loop that looks for the shift never moves its running high: it
    either stops at the first candle whose high exceeds the high it started
    from, or finds every candle at or below that high. *)
Lemma mss_loop_spec (df : DataFrame) (lowest_idx : nat) (recent_high : Q) :
  forall (n a : nat),
    (a + n <= length df)%nat ->
    (a = (lowest_idx + 1)%nat \/
     exists p, df !! (a - 1)%nat = Some p /\ high p <= recent_high) ->
    (exists (j : nat) c,
       (a <= j < a + n)%nat /\ df !! j = Some c /\ recent_high < high c /\
       (forall (k : nat) d, (a <= k < j)%nat -> df !! k = Some d ->
          high d <= recent_high) /\
       StructureShift.mss_loop df lowest_idx recent_high (seq a n)
       = Ok (Some (recent_high, time c)))
    \/
    ((forall (k : nat) d, (a <= k < a + n)%nat -> df !! k = Some d ->
        high d <= recent_high) /\
     StructureShift.mss_loop df lowest_idx recent_high (seq a n) = Ok None).
Proof.
  induction n as [|n IH]; intros a Hlen Hprev.
  - right. split; [intros; lia|done].
  - cbn [seq StructureShift.mss_loop].
    destruct (lookup_lt_is_Some_2 df a) as [c Hc]; [lia|].
    rewrite (proj2 (iloc_Ok df a c) Hc). run_step.
    assert (Hkeep :
      (if decide (lowest_idx + 1 < a)%nat
       then iloc df (a - 1) ≫= λ previous,
              mret (Num.py_max recent_high (high previous))
       else mret recent_high) = Ok recent_high).
    { destruct (decide (lowest_idx + 1 < a)%nat) as [Hlt|]; [|done].
      destruct Hprev as [->|(p & Hp & Hle)]; [lia|].
      rewrite (proj2 (iloc_Ok df _ p) Hp). run_step. by rewrite py_max_keeps. }
    rewrite Hkeep. run_step.
    destruct (recent_high <? high c) eqn:Hbreak.
    + apply Qlt_bool_iff in Hbreak. left. exists a, c.
      split; [lia|]. split; [done|]. split; [done|]. split; [intros; lia|done].
    + apply Qlt_bool_false in Hbreak.
      destruct (IH (S a)) as [(j & d & Hj & Hd & Hhigh & Hbefore & Hrun)
                             |(Hall & Hrun)].
      * lia.
      * right. exists c. replace (S a - 1)%nat with a by lia. done.
      * left. exists j, d. split; [lia|]. repeat (split; [done|]).
        split; [|done]. intros k e Hk He.
        destruct (decide (k = a)) as [->|]; [congruence|].
        apply (Hbefore k); [lia|done].
      * right. split; [|done]. intros k e Hk He.
        destruct (decide (k = a)) as [->|]; [congruence|].
        apply (Hall k); [lia|done].
Qed.

(** Inside a frame the loop that collects the points of interest never
    raises, and it appends at most two of them per index. *)
Lemma poi_loop_total (df : DataFrame) zone_start zone_end idxs :
  forall pois, exists pois',
    StructureShift.poi_loop df zone_start zone_end pois idxs = Ok pois' /\
    (length pois' <= length pois + 2 * length idxs)%nat.
Proof.
  induction idxs as [|i rest IH]; intros pois; cbn [StructureShift.poi_loop].
  - exists pois. split; [done|lia].
  - destruct (decide (length df - 1 <= i)%nat) as [|Hin].
    { exists pois. split; [done|cbn; lia]. }
    destruct (iloc_in_range df i) as [candle ->]; [lia|]. run_step.
    assert (Hrest : forall grown,
      (length grown <= length pois + 2)%nat ->
      exists pois',
        StructureShift.poi_loop df zone_start zone_end grown rest = Ok pois' /\
        (length pois' <= length pois + 2 * length (i :: rest))%nat).
    { intros grown Hgrown. destruct (IH grown) as (pois' & Hrun & Hlen).
      exists pois'. split; [done|]. cbn [length]. lia. }
    destruct ((zone_start <=? low candle) && (low candle <=? zone_end));
      run_step; [|apply Hrest; lia].
    destruct (decide (2 <= i)%nat);
      [destruct (iloc_in_range df (i - 2)) as [c1 ->]; [lia|];
       run_step; cbv zeta; destruct (0 <? low candle - high c1); run_step
      |run_step].
    all: destruct (decide (0 < i)%nat);
      [destruct (iloc_in_range df (i - 1)) as [prev ->]; [lia|];
       run_step; destruct (high prev <? close candle); run_step
      |run_step].
    all: apply Hrest; rewrite ?length_app; cbn [length]; lia.
Qed.

Lemma poi_loop_pattern (df : DataFrame) zone_start zone_end idxs :
  forall pois pois',
    Forall (Pattern.poi_at df zone_start zone_end) pois ->
    StructureShift.poi_loop df zone_start zone_end pois idxs = Ok pois' ->
    Forall (Pattern.poi_at df zone_start zone_end) pois'.
Proof.
  induction idxs as [|i rest IH]; intros pois pois' Hpois Hrun;
    cbn [StructureShift.poi_loop] in Hrun.
  - by injection Hrun as <-.
  - destruct (decide (length df - 1 <= i)%nat); [by injection Hrun as <-|].
    bind_inv Hrun. rename a into candle. apply iloc_Ok in Ha.
    bind_inv Hrun. rename a into grown.
    apply (IH grown); [|done]. clear Hrun IH.
    destruct ((zone_start <=? low candle) && (low candle <=? zone_end))
      eqn:Hzone; [|by ok_inv Ha0].
    apply andb_true_iff in Hzone as [Hz1 Hz2].
    apply Qle_bool_iff in Hz1, Hz2.
    bind_inv Ha0. rename a into mid.
    assert (Hmid : Forall (Pattern.poi_at df zone_start zone_end) mid).
    { destruct (decide (2 <= i)%nat); [|by ok_inv Ha1].
      bind_inv Ha1. rename a into c1. apply iloc_Ok in Ha2. cbv zeta in Ha1.
      destruct (0 <? low candle - high c1) eqn:Hgap; [|by ok_inv Ha1].
      ok_inv Ha1. apply Forall_app; split; [done|]. apply Forall_singleton.
      apply Qlt_bool_iff in Hgap.
      exists (i - 2)%nat, c1, candle. cbn.
      replace (i - 2 + 2)%nat with i by lia.
      repeat (split; [done|]). split; [lra|done]. }
    destruct (decide (0 < i)%nat); [|by ok_inv Ha0].
    bind_inv Ha0. rename a into prev. apply iloc_Ok in Ha2.
    destruct (high prev <? close candle) eqn:Hclose; [|by ok_inv Ha0].
    ok_inv Ha0. apply Forall_app; split; [done|]. apply Forall_singleton.
    apply Qlt_bool_iff in Hclose.
    exists (i - 1)%nat, prev, candle. cbn.
    replace (i - 1 + 1)%nat with i by lia. by repeat split.
Qed.

(** What a report of the locator is made of. *)
Lemma find_mss_and_poi_fields rates sym r :
  StructureShift.find_mss_and_poi rates sym = Ok (Report r) ->
  exists (df : DataFrame) (lowest_idx : nat) lowest_point latest all,
    rates = Some df /\
    StructureShift.idxmin (low <$> df) = Ok lowest_idx /\
    df !! lowest_idx = Some lowest_point /\
    last df = Some latest /\
    StructureShift.mss_loop df lowest_idx (high lowest_point)
      (range (lowest_idx + 1) (length df))
      = Ok (Some (StructureShift.mss_level r, StructureShift.mss_time r)) /\
    StructureShift.poi_loop df (low lowest_point) (StructureShift.mss_level r)
      [] (range lowest_idx (lowest_idx + 50)) = Ok all /\
    StructureShift.mss_found r = true /\
    StructureShift.mss_zone_start r = low lowest_point /\
    StructureShift.mss_zone_end r = StructureShift.mss_level r /\
    StructureShift.pois_in_zone r = length all /\
    StructureShift.pois r = last_n 5 all /\
    StructureShift.current_price r = close latest.
Proof.
  destruct rates as [df|]; cbn; [|discriminate].
  intros Hrun. bind_inv Hrun. rename a into lowest_idx.
  bind_inv Hrun. rename a into lowest_point. apply iloc_Ok in Ha0.
  bind_inv Hrun. destruct a as [[level shift_time]|]; [|discriminate].
  bind_inv Hrun. bind_inv Hrun. apply iloc_last_Ok in Ha3.
  cbn in Hrun. injection Hrun as <-. cbn.
  exists df, lowest_idx, lowest_point, a0, a. by repeat split.
Qed.

Lemma range_as_seq (a b : nat) : range a b = seq a (b - a).
Proof. reflexivity. Qed.

(** [idxmin] answers the first position that holds the smallest value:
    every earlier value is strictly larger. *)
Lemma idxmin_from_first (whole : list Q) :
  forall rest (i best : nat) (v : Q),
    drop i whole = rest ->
    whole !! best = Some v ->
    (forall (k : nat) x, (k < best)%nat -> whole !! k = Some x -> v < x) ->
    (forall (k : nat) x, (k < i)%nat -> whole !! k = Some x -> v <= x) ->
    exists v',
      whole !! StructureShift.idxmin_from rest i best v = Some v' /\
      forall (k : nat) x,
        (k < StructureShift.idxmin_from rest i best v)%nat ->
        whole !! k = Some x -> v' < x.
Proof.
  induction rest as [|x rest IH]; intros i best v Hdrop Hbest Hfirst Hlow; cbn.
  - by exists v.
  - assert (Hx : whole !! i = Some x).
    { rewrite <- (Nat.add_0_r i), <- lookup_drop, Hdrop. done. }
    assert (Hnext : drop (S i) whole = rest).
    { rewrite (drop_S _ _ _ Hx) in Hdrop. by injection Hdrop. }
    destruct (x <? v) eqn:E.
    + apply Qlt_bool_iff in E. apply IH; [done|done| |].
      * intros k y Hk Hy. specialize (Hlow k y Hk Hy). lra.
      * intros k y Hk Hy. destruct (decide (k = i)) as [->|Hne].
        -- rewrite Hx in Hy. injection Hy as <-. lra.
        -- assert (Hki : (k < i)%nat) by lia.
           specialize (Hlow k y Hki Hy). lra.
    + apply Qlt_bool_false in E. apply IH; [done|done|done|].
      intros k y Hk Hy. destruct (decide (k = i)) as [->|Hne].
      * rewrite Hx in Hy. by injection Hy as <-.
      * apply (Hlow k y); [lia|done].
Qed.

Lemma idxmin_first (xs : list Q) (k : nat) :
  StructureShift.idxmin xs = Ok k ->
  exists v, xs !! k = Some v /\
            forall (j : nat) x, (j < k)%nat -> xs !! j = Some x -> v < x.
Proof.
  destruct xs as [|x rest]; cbn; [discriminate|].
  intros [= <-]. apply (idxmin_from_first (x :: rest)); [done|done| |].
  - intros j y Hj. lia.
  - intros j y Hj Hy. assert (j = 0)%nat as -> by lia.
    cbn in Hy. injection Hy as <-. lra.
Qed.

(** X12.  When a shift is reported, its level is exactly the high of the
    lowest candle of the frame, which is the first one if several share the
    lowest low (every earlier candle has a strictly higher low); the zone
    runs from that candle's low to its high, and the shift time is that of
    the first later candle whose high exceeds the level: every candle in
    between stays at or below it. *)
Theorem shift_is_first_break_of_lowest_high rates sym r :
  StructureShift.find_mss_and_poi rates sym = Ok (Report r) ->
  exists (df : DataFrame) (lowest_idx j : nat) lowest_point breaker,
    rates = Some df /\
    df !! lowest_idx = Some lowest_point /\
    (forall c, c ∈ df -> low lowest_point <= low c) /\
    (forall (k : nat) c, (k < lowest_idx)%nat -> df !! k = Some c ->
       low lowest_point < low c) /\
    (lowest_idx < j)%nat /\ df !! j = Some breaker /\
    StructureShift.mss_level r = high lowest_point /\
    StructureShift.mss_zone_start r = low lowest_point /\
    StructureShift.mss_zone_end r = high lowest_point /\
    StructureShift.mss_time r = time breaker /\
    high lowest_point < high breaker /\
    (forall (k : nat) d, (lowest_idx < k < j)%nat -> df !! k = Some d ->
       high d <= high lowest_point).
Proof.
  intros Hrun.
  apply find_mss_and_poi_fields in Hrun
    as (df & lo & lowest & latest & all & -> & Hmin & Hlo & _ & Hloop & _
        & _ & Hstart & Hend & _).
  assert (Hlt : (lo < length df)%nat) by (by eapply lookup_lt_Some).
  destruct (idxmin_first _ _ Hmin) as (v' & Hv' & Hfirst).
  rewrite list_lookup_fmap, Hlo in Hv'. injection Hv' as <-.
  apply idxmin_spec in Hmin as (v & Hv & Hleast).
  rewrite list_lookup_fmap, Hlo in Hv. injection Hv as <-.
  rewrite range_as_seq in Hloop.
  destruct (mss_loop_spec df lo (high lowest) (length df - (lo + 1)) (lo + 1))
    as [(j & c & Hj & Hc & Hbreak & Hbefore & Heq)|(_ & Heq)];
    [lia|by left| |congruence].
  rewrite Heq in Hloop. injection Hloop as Hlevel Htime.
  exists df, lo, j, lowest, c. split; [done|]. split; [done|].
  split; [intros d Hd; apply Hleast; by apply list_elem_of_fmap_2|].
  split; [intros k d Hk Hd; apply (Hfirst k); [done|];
          by rewrite list_lookup_fmap, Hd|].
  split; [lia|]. split; [done|]. split; [done|]. split; [done|].
  split; [by rewrite Hend|]. split; [done|]. split; [done|].
  intros k d Hk Hd. apply (Hbefore k); [lia|done].
Qed.

Lemma shift_is_first_break_of_lowest_high_witness :
  exists (df : DataFrame) (lowest_idx j : nat) lowest_point breaker,
    Some Scenario.shift_series = Some df /\
    df !! lowest_idx = Some lowest_point /\
    (forall c, c ∈ df -> low lowest_point <= low c) /\
    (forall (k : nat) c, (k < lowest_idx)%nat -> df !! k = Some c ->
       low lowest_point < low c) /\
    (lowest_idx < j)%nat /\ df !! j = Some breaker /\
    StructureShift.mss_level Scenario.shift_report = high lowest_point /\
    StructureShift.mss_zone_start Scenario.shift_report = low lowest_point /\
    StructureShift.mss_zone_end Scenario.shift_report = high lowest_point /\
    StructureShift.mss_time Scenario.shift_report = time breaker /\
    high lowest_point < high breaker /\
    (forall (k : nat) d, (lowest_idx < k < j)%nat -> df !! k = Some d ->
       high d <= high lowest_point).
Proof.
  apply (shift_is_first_break_of_lowest_high (Some Scenario.shift_series)
           "XAUUSD" Scenario.shift_report).
  vm_compute. reflexivity.
Defined.

(** How the locator ends on a frame whose lowest candle is known. *)
Lemma find_mss_and_poi_outcome (df : DataFrame) sym (lowest_idx : nat)
    lowest_point :
  StructureShift.idxmin (low <$> df) = Ok lowest_idx ->
  df !! lowest_idx = Some lowest_point ->
  (exists r (j : nat) breaker,
     StructureShift.find_mss_and_poi (Some df) sym = Ok (Report r) /\
     (lowest_idx < j)%nat /\ df !! j = Some breaker /\
     high lowest_point < high breaker)
  \/
  (StructureShift.find_mss_and_poi (Some df) sym
     = Ok (ErrorReply "No MSS detected yet") /\
   forall (k : nat) d, (lowest_idx < k)%nat -> df !! k = Some d ->
     high d <= high lowest_point).
Proof.
  intros Hmin Hlo.
  assert (Hlt : (lowest_idx < length df)%nat) by (by eapply lookup_lt_Some).
  unfold StructureShift.find_mss_and_poi. rewrite Hmin. run_step.
  rewrite (proj2 (iloc_Ok df _ _) Hlo). run_step.
  rewrite (range_as_seq (lowest_idx + 1) (length df)).
  destruct (mss_loop_spec df lowest_idx (high lowest_point)
              (length df - (lowest_idx + 1)) (lowest_idx + 1))
    as [(j & c & Hj & Hc & Hbreak & _ & ->)|(Hall & ->)];
    [lia|by left| |]; run_step.
  - left.
    destruct (poi_loop_total df (low lowest_point) (high lowest_point)
                (range lowest_idx (lowest_idx + 50)) [])
      as (pois & -> & _). run_step.
    destruct (last df) as [latest|] eqn:Hlast;
      [|apply last_None in Hlast; subst df; cbn in Hlt; lia].
    unfold iloc_last. rewrite Hlast. run_step.
    eexists. exists j, c. split; [reflexivity|]. split; [lia|done].
  - right. split; [done|]. intros k d Hk Hd.
    apply (Hall k); [|done]. apply lookup_lt_Some in Hd. lia.
Qed.

(** X13.  The locator answers "No MSS detected yet" exactly when no candle
    after the lowest one has a high above the high of the lowest candle. *)
Theorem no_shift_iff_no_higher_high (df : DataFrame) sym (lowest_idx : nat)
    lowest_point :
  StructureShift.idxmin (low <$> df) = Ok lowest_idx ->
  df !! lowest_idx = Some lowest_point ->
  StructureShift.find_mss_and_poi (Some df) sym
    = Ok (ErrorReply "No MSS detected yet")
  <->
  (forall (k : nat) d, (lowest_idx < k)%nat -> df !! k = Some d ->
     high d <= high lowest_point).
Proof.
  intros Hmin Hlo.
  destruct (find_mss_and_poi_outcome df sym lowest_idx lowest_point Hmin Hlo)
    as [(r & j & c & Hrun & Hj & Hc & Hbreak)|(Hrun & Hall)].
  - split.
    + rewrite Hrun. discriminate.
    + intros Hall. specialize (Hall j c Hj Hc). lra.
  - by split.
Qed.

Lemma no_shift_iff_no_higher_high_witness :
  StructureShift.find_mss_and_poi (Some Scenario.bearish_series) "XAUUSD"
    = Ok (ErrorReply "No MSS detected yet")
  <->
  (forall (k : nat) d, (2 < k)%nat -> Scenario.bearish_series !! k = Some d ->
     high d <= high (Scenario.candle 3 98 (995 # 10) 95 96)).
Proof.
  apply (no_shift_iff_no_higher_high Scenario.bearish_series "XAUUSD" 2);
    reflexivity.
Defined.

(** X14.  The locator returns (a report or "No MSS detected yet") on every
    frame that has a candle, and raises on a frame without candles, where
    [idxmin] has nothing to choose from. *)
Theorem locator_raises_only_on_empty_frame (df : DataFrame) sym :
  (exists answer, StructureShift.find_mss_and_poi (Some df) sym = Ok answer)
  <-> df <> [].
Proof.
  split.
  - intros [answer Hrun] ->. discriminate Hrun.
  - intros Hne.
    destruct (StructureShift.idxmin (low <$> df)) as [lowest_idx|e] eqn:Hmin;
      [|destruct df; [done|discriminate Hmin]].
    apply idxmin_spec in Hmin as Hspec. destruct Hspec as (v & Hv & _).
    rewrite list_lookup_fmap in Hv.
    destruct (df !! lowest_idx) as [lowest_point|] eqn:Hlo; [|discriminate].
    destruct (find_mss_and_poi_outcome df sym lowest_idx lowest_point Hmin Hlo)
      as [(r & _ & _ & Hrun & _)|(Hrun & _)]; eauto.
Qed.

(** X15.  Every point of interest of a report lies in the shift zone and is
    well formed: a fair-value gap spans from the high of a candle to the
    low of the candle two positions later, which is strictly higher and
    inside the zone, and carries that gap as its size; an order block is
    the range of a candle whose successor closes above its high and has its
    low inside the zone.  At most 100 points are counted (two per candle
    over at most fifty candles). *)
Theorem points_of_interest_are_sound rates sym r :
  StructureShift.find_mss_and_poi rates sym = Ok (Report r) ->
  exists df : DataFrame,
    rates = Some df /\
    (StructureShift.pois_in_zone r <= 100)%nat /\
    forall p, p ∈ StructureShift.pois r ->
      Pattern.poi_at df (StructureShift.mss_zone_start r)
        (StructureShift.mss_zone_end r) p.
Proof.
  intros Hrun.
  apply find_mss_and_poi_fields in Hrun
    as (df & lo & lowest & latest & all & -> & _ & _ & _ & _ & Hpois
        & _ & Hstart & Hend & Hcount & Hlist & _).
  exists df. split; [done|]. split.
  - destruct (poi_loop_total df (low lowest) (StructureShift.mss_level r)
                (range lo (lo + 50)) []) as (all' & Hrun' & Hlen).
    rewrite Hpois in Hrun'. injection Hrun' as <-.
    rewrite Hcount. unfold range in Hlen. rewrite length_seq in Hlen.
    cbn [length] in Hlen. lia.
  - intros p Hp. rewrite Hlist in Hp. apply elem_of_last_n in Hp.
    rewrite Hstart, Hend.
    apply poi_loop_pattern in Hpois; [|constructor].
    rewrite Forall_forall in Hpois. by apply Hpois.
Qed.

Lemma points_of_interest_are_sound_witness :
  exists df : DataFrame,
    Some Scenario.shift_series = Some df /\
    (StructureShift.pois_in_zone Scenario.shift_report <= 100)%nat /\
    forall p, p ∈ StructureShift.pois Scenario.shift_report ->
      Pattern.poi_at df (StructureShift.mss_zone_start Scenario.shift_report)
        (StructureShift.mss_zone_end Scenario.shift_report) p.
Proof.
  apply (points_of_interest_are_sound (Some Scenario.shift_series) "XAUUSD"
           Scenario.shift_report).
  vm_compute. reflexivity.
Defined.

(* ===================================================================== *)
(** * Further properties: risk calculator *)
(* ===================================================================== *)



(** X17.  The calculator does not look at the side of the stop, but it
    always puts the target on the other side of the entry: for either
    direction and any levels (with a non-zero point) it returns a report
    whose levels are in the order stop, entry, target or in the order
    target, entry, stop. *)
Theorem target_is_opposite_the_stop
    info d (entry poi mss : Q) (use_mss : bool) :
  ~ Terminal.point info == 0 ->
  exists p,
    Risk.calculate_entry_sl_tp (Some info) d entry poi mss use_mss
      = Ok (Report p) /\
    Risk.direction p = d /\
    ((Risk.stop_loss p <= Risk.entry_price p /\
      Risk.entry_price p <= Risk.take_profit p)
     \/
     (Risk.take_profit p <= Risk.entry_price p /\
      Risk.entry_price p <= Risk.stop_loss p)).
Proof.
  intros Hnz.
  destruct (calculate_returns info d entry poi mss use_mss Hnz)
    as (p & Hrun & Hfields).
  exists p. split; [exact Hrun|]. cbn zeta in Hfields.
  destruct (Risk.levels d entry poi mss use_mss (Terminal.point info))
    as [[sl risk] tp] eqn:Hlevels.
  destruct Hfields as (Hdir & Hentry & Hsl & Htp & _).
  split; [exact Hdir|].
  destruct (levels_sides _ _ _ _ _ _ _ _ _ Hlevels) as [Hbelow Habove].
  rewrite Hentry, Hsl, Htp.
  destruct (Qlt_le_dec entry sl) as [Hside|Hside].
  - right. split; apply py_round_mono; [apply Habove|]; lra.
  - left. split; apply py_round_mono; [|apply Hbelow]; lra.
Qed.

(** A buy at 4190 whose reference 4200 is on the wrong side: the stop 4198
    is above the entry and the target 4174 below it. *)
Lemma target_is_opposite_the_stop_witness :
  exists p,
    Risk.calculate_entry_sl_tp (Some Scenario.gold) Risk.buy 4190 4200 4185 false
      = Ok (Report p) /\
    Risk.direction p = Risk.buy /\
    ((Risk.stop_loss p <= Risk.entry_price p /\
      Risk.entry_price p <= Risk.take_profit p)
     \/
     (Risk.take_profit p <= Risk.entry_price p /\
      Risk.entry_price p <= Risk.stop_loss p)).
Proof.
  apply (target_is_opposite_the_stop Scenario.gold Risk.buy 4190 4200 4185 false).
  cbn. intros H. discriminate H.
Defined.

(** X18.  [send_order] reaches [mt5.order_send] exactly when the terminal
    knows the symbol, the symbol is visible or can be selected, and a tick
    is available; in every other case it returns one of its three error
    payloads and submits nothing. *)
Theorem send_order_submits_iff
    mt5 d (entry_price sl_price tp_price lot_size : Q) note :
  let run := Orders.send_order mt5 d entry_price sl_price tp_price lot_size note in
  (run.2 <> [] <->
   exists info tick,
     Terminal.symbol_info mt5 = Some info /\
     (Terminal.visible info = true \/ Terminal.symbol_select mt5 = true) /\
     Terminal.symbol_info_tick mt5 = Some tick) /\
  match run.1 with
  | Orders.SymbolInfoNotAvailable
  | Orders.FailedToSelectSymbol
  | Orders.FailedToGetCurrentPrice => run.2 = []
  | Orders.OrderSendReturnedNone request
  | Orders.OrderSent _ request _ => run.2 = [request]
  end.
Proof.
  cbv zeta. unfold Orders.send_order.
  destruct (Terminal.symbol_info mt5) as [info|]; cbn;
    [|split; [|done]; split; [done|by intros (? & ? & [=] & _)]].
  destruct (Terminal.visible info) eqn:Hvisible,
    (Terminal.symbol_select mt5) eqn:Hselect; cbn.
  4: { split; [|done]. split; [done|].
       intros (info' & ? & [= <-] & [Hv|Hs] & _); congruence. }
  all: destruct (Terminal.symbol_info_tick mt5) as [tick|]; cbn;
    [|split; [|done]; split; [done|by intros (? & ? & _ & _ & [=])]].
  all: destruct d; destruct (Terminal.order_send mt5 _); cbn;
    (split; [|done]); (split; [intros _|done]);
    exists info, tick; rewrite ?Hvisible; repeat split; eauto.
Qed.

Lemma land_1_is_bit_0 (mode : Z) :
  negb (Z.land mode 1 =? 0)%Z = Z.testbit mode 0.
Proof.
  rewrite Z.bit0_odd. change 1%Z with (Z.ones 1).
  rewrite Z.land_ones by lia. change (2 ^ 1)%Z with 2%Z.
  rewrite Zodd_mod. destruct (Z.eqb_spec (mode mod 2) 0) as [->|Hne];
    [done|]. cbn. symmetry. apply Z.eqb_eq.
  pose proof (Z.mod_pos_bound mode 2). lia.
Qed.

Lemma land_2_is_bit_1 (mode : Z) :
  negb (Z.land mode 2 =? 0)%Z = Z.testbit mode 1.
Proof.
  destruct (Z.testbit mode 1) eqn:Hbit.
  - apply negb_true_iff, Z.eqb_neq. intros Hzero.
    assert (Z.testbit (Z.land mode 2) 1 = true)
      by (rewrite Z.land_spec, Hbit; reflexivity).
    rewrite Hzero in H. discriminate H.
  - apply negb_false_iff, Z.eqb_eq. apply Z.bits_inj'. intros n Hn.
    rewrite Z.land_spec, Z.bits_0.
    destruct (Z.eq_dec n 1%Z) as [->|Hne]; [by rewrite Hbit|].
    change 2%Z with (2 ^ 1)%Z. rewrite Z.pow2_bits_false by lia.
    apply andb_false_r.
Qed.

(** X19.  The request that [send_order] submits is a market deal on XAUUSD
    with magic number 7777 and a deviation of 20, carrying the given
    comment; it is a buy exactly for the direction "buy"; its filling type
    follows the flags of the symbol (FOK when bit 0 is set, else IOC when
    bit 1 is set, else RETURN); and the response reports success exactly
    when the terminal answers with the return code 10009. *)
Theorem send_order_request_is_well_formed
    mt5 d (entry_price sl_price tp_price lot_size : Q) note req :
  let run := Orders.send_order mt5 d entry_price sl_price tp_price lot_size note in
  req ∈ run.2 ->
  Terminal.symbol req = "XAUUSD" /\
  Terminal.magic req = 7777%Z /\
  Terminal.deviation req = 20%Z /\
  Terminal.comment req = note /\
  (Terminal.type req = Terminal.ORDER_TYPE_BUY <-> d = Risk.buy) /\
  (exists info,
     Terminal.symbol_info mt5 = Some info /\
     Terminal.type_filling req =
       if Z.testbit (Terminal.filling_mode info) 0
       then Terminal.ORDER_FILLING_FOK
       else if Z.testbit (Terminal.filling_mode info) 1
            then Terminal.ORDER_FILLING_IOC
            else Terminal.ORDER_FILLING_RETURN) /\
  match run.1 with
  | Orders.OrderSent outcome request success =>
      request = req /\
      (success = true <-> Terminal.retcode outcome = 10009%Z)
  | Orders.OrderSendReturnedNone request => request = req
  | _ => False
  end.
Proof.
  cbv zeta. unfold Orders.send_order.
  destruct (Terminal.symbol_info mt5) as [info|];
    [|by intros ?%elem_of_nil].
  destruct (negb (Terminal.visible info) && negb (Terminal.symbol_select mt5));
    [by intros ?%elem_of_nil|].
  destruct (Terminal.symbol_info_tick mt5) as [tick|];
    [|by intros ?%elem_of_nil].
  rewrite land_1_is_bit_0, land_2_is_bit_1.
  destruct d; cbn; destruct (Terminal.order_send mt5 _) as [outcome|]; cbn;
    intros ->%list_elem_of_singleton; cbn;
    repeat (split; [done|]).
  all: split; [by exists info|]; try done.
  all: split; [done|]; apply Z.eqb_eq.
Qed.

Lemma send_order_request_is_well_formed_witness :
  exists req,
    (Orders.send_order Scenario.quoting_terminal Risk.buy
       4190 4178 4214 (1 # 100) "7MS Strategy").2 = [req] /\
    Terminal.symbol req = "XAUUSD" /\
    Terminal.magic req = 7777%Z /\
    Terminal.type req = Terminal.ORDER_TYPE_BUY /\
    Terminal.type_filling req = Terminal.ORDER_FILLING_FOK.
Proof.
  eexists. split; [reflexivity|].
  edestruct (send_order_request_is_well_formed Scenario.quoting_terminal
               Risk.buy 4190 4178 4214 (1 # 100) "7MS Strategy")
    as (Hsym & Hmagic & _ & _ & Htype & (info & Hinfo & Hfill) & _).
  - cbn. apply list_elem_of_here.
  - injection Hinfo as <-. split; [exact Hsym|]. split; [exact Hmagic|].
    split; [by apply Htype|exact Hfill].
Defined.

(* ===================================================================== *)
(** * Further properties: approval *)
(* ===================================================================== *)

(** X20.  For each of the three words the GUI sends, a pending request is
    resolved by resuming the agent once, with exactly one decision per
    pending action: all approvals for "approve", and all rejections with
    the fixed message for "reject", whatever numbers come along. *)
Theorem one_decision_per_pending_action
    st run action_requests decision (entry_price sl_price tp_price lot_size : Q) :
  Approval.pending_interrupt st = Some action_requests ->
  Approval.agent st = Some run ->
  decision ∈ ["approve"; "reject"; "edit"] ->
  exists decisions,
    Approval.resumed_with
      (Approval.handle_approval st decision
         entry_price sl_price tp_price lot_size) = [decisions] /\
    length decisions = length action_requests /\
    (decision = "approve" -> Forall (fun dec => dec = Approval.approve) decisions) /\
    (decision = "reject" ->
       Forall (fun dec => dec = Approval.reject "Trade rejected by user")
         decisions).
Proof.
  intros Hpending Hagent Hword.
  unfold Approval.handle_approval. rewrite Hpending.
  unfold Approval.resume_value_of.
  repeat (apply elem_of_cons in Hword as [->|Hword]);
    [| | |by apply elem_of_nil in Hword].
  - rewrite decide_True by done. rewrite Hagent.
    eexists. split; [by destruct (run _)|]. rewrite length_fmap.
    split; [done|]. split; [|done]. intros _.
    apply Forall_fmap, Forall_true. done.
  - rewrite decide_False by done. rewrite decide_True by done. rewrite Hagent.
    eexists. split; [by destruct (run _)|]. rewrite length_fmap.
    split; [done|]. split; [done|]. intros _.
    apply Forall_fmap, Forall_true. done.
  - rewrite !decide_False by done. rewrite decide_True by done. rewrite Hagent.
    eexists. split; [by destruct (run _)|]. rewrite length_fmap.
    by repeat split.
Qed.

Lemma one_decision_per_pending_action_witness :
  exists decisions,
    Approval.resumed_with
      (Approval.handle_approval Scenario.waiting_state "reject"
         0 0 0 (1 # 100)) = [decisions] /\
    length decisions = length [Scenario.proposed_order] /\
    ("reject" = "approve" ->
       Forall (fun dec => dec = Approval.approve) decisions) /\
    ("reject" = "reject" ->
       Forall (fun dec => dec = Approval.reject "Trade rejected by user")
         decisions).
Proof.
  apply (one_decision_per_pending_action Scenario.waiting_state
           (fun _ => Approval.Completed) [Scenario.proposed_order]
           "reject" 0 0 0 (1 # 100)).
  - reflexivity.
  - reflexivity.
  - apply list_elem_of_further, list_elem_of_here.
Defined.

(** X21.  A request is resolved once.  Without a pending request the
    handler resumes nothing and leaves the state as it is.  After a call,
    the panel stays visible exactly when a request is pending again (the
    resumed run stopped at a further interrupt); when it is hidden, no
    request is pending, so any further decision is ignored. *)
Theorem resolution_is_exactly_once
    st decision (entry_price sl_price tp_price lot_size : Q)
    next (e s t l : Q) :
  let first := Approval.handle_approval st decision
                 entry_price sl_price tp_price lot_size in
  (Approval.pending_interrupt st = None ->
     first = {| Approval.state := st;
                Approval.resumed_with := [];
                Approval.panel_visible := false |}) /\
  (Approval.panel_visible first = true <->
     exists data, Approval.pending_interrupt (Approval.state first) = Some data
                  /\ Approval.pending_interrupt st <> None) /\
  (Approval.panel_visible first = false ->
     Approval.pending_interrupt (Approval.state first) = None /\
     Approval.handle_approval (Approval.state first) next e s t l
     = {| Approval.state := Approval.state first;
          Approval.resumed_with := [];
          Approval.panel_visible := false |}).
Proof.
  cbv zeta. unfold Approval.handle_approval.
  destruct (Approval.pending_interrupt st) as [action_requests|] eqn:Hpending.
  - split; [done|].
    destruct (Approval.resume_value_of _ _ _ _ _ _) as [resume_value|];
      [destruct (Approval.agent st) as [run|];
       [destruct (run resume_value)|]|]; cbn.
    all: split; [split|].
    all: try done.
    all: try (by intros (? & [=] & _)).
    intros _. eexists. by split.
  - split; [done|]. cbn. rewrite Hpending.
    split; [split; [done|by intros (? & [=] & _)]|done].
Qed.

(** X22.  The console handler of [main] always answers an interrupt with
    one decision per action request, chosen by the typed decision after it
    is stripped and put in lower case: approvals for "approve"; for
    "reject" rejections carrying the stripped reason, or the default
    message when nothing but blanks is typed; edits for "edit"; and for
    every other text rejections with the message "Invalid input - trade
    cancelled". *)
Theorem console_answers_every_action
    py_float py_int py_strip py_lower (typed : Console.Typed)
    (action_requests : list Approval.ActionRequest) :
  let decisions :=
    Console.typed_resume_value py_float py_int py_strip py_lower typed
      action_requests in
  let decision := py_lower (py_strip (Console.decision_line typed)) in
  let reason := py_strip (Console.reason_line typed) in
  length decisions = length action_requests /\
  (decision = "approve" ->
     Forall (fun dec => dec = Approval.approve) decisions) /\
  (decision = "reject" ->
     Forall (fun dec => dec = Approval.reject
                            (if decide (reason = "")
                             then "Trade rejected by user" else reason))
       decisions) /\
  (decision = "edit" ->
     Forall (fun dec => exists edited, dec = Approval.edit edited) decisions) /\
  (decision ∉ ["approve"; "reject"; "edit"] ->
     Forall (fun dec => dec = Approval.reject "Invalid input - trade cancelled")
       decisions).
Proof.
  cbv zeta. unfold Console.typed_resume_value, Approval.console_resume_value.
  generalize (py_lower (py_strip (Console.decision_line typed))).
  generalize (py_strip (Console.reason_line typed)).
  intros reason decision.
  repeat case_decide; subst;
    rewrite ?length_fmap, ?length_imap; (split; [done|]).
  all: repeat split; try done.
  all: try (intros Hnot; exfalso; apply Hnot; by repeat constructor).
  all: intros _.
  all: try (apply Forall_fmap, Forall_true; done).
  all: apply Forall_forall.
  all: intros dec (n & Hn)%list_elem_of_lookup.
  all: rewrite list_lookup_imap in Hn.
  all: destruct (action_requests !! n) as [action|]; [|done].
  all: cbn in Hn; injection Hn as <-; eexists; reflexivity.
Qed.

(** X23.  The two edit paths differ in the arguments they can touch.  The
    GUI handler always sets the four arguments entry_price, sl_price,
    tp_price and lot_size, adding those the proposal did not carry; the
    console handler of [main] keeps exactly the arguments of the proposal
    (it prompts for each of them and for nothing else). *)
Theorem edited_argument_keys
    (entry_price sl_price tp_price lot_size : Q)
    py_float py_int answer (n : nat) action :
  (exists edited,
     Approval.edit_decision entry_price sl_price tp_price lot_size action
       = Approval.edit edited /\
     dom (Approval.args edited)
     = dom (Approval.args action)
       ∪ {["entry_price"; "sl_price"; "tp_price"; "lot_size"]}) /\
  (exists edited,
     Approval.console_edit_decision py_float py_int answer n action
       = Approval.edit edited /\
     dom (Approval.args edited) = dom (Approval.args action)).
Proof.
  split; eexists; (split; [reflexivity|]); cbn.
  - rewrite !dom_insert_L. set_solver.
  - apply set_eq. intros key. rewrite !elem_of_dom, map_lookup_imap.
    destruct (Approval.args action !! key); cbn; split; intros [? ?]; eauto;
      discriminate.
Qed.

(* ===================================================================== *)
(** * Market data *)
(* ===================================================================== *)

Lemma last_n_nonempty {A} (n : nat) (l : list A) :
  l <> [] -> last_n (S n) l <> [].
Proof.
  unfold last_n. intros Hl Hd. apply (f_equal length) in Hd.
  rewrite length_drop in Hd. destruct l; [done|]. cbn in Hd. lia.
Qed.

Lemma last_in_last_n {A} (n : nat) (l : list A) (x : A) :
  last l = Some x -> x ∈ last_n (S n) l.
Proof.
  unfold last_n. intros Hlast. rewrite last_lookup in Hlast.
  apply list_elem_of_lookup.
  exists (pred (length l) - (length l - S n))%nat.
  rewrite lookup_drop, <- Hlast. f_equal.
  destruct l; [done|]. cbn. lia.
Qed.

Lemma tf_map_domain (tf : string) :
  is_Some (MarketData.tf_map !! tf) <-> tf ∈ ["1M"; "15M"; "1H"; "4H"; "D1"].
Proof.
  unfold MarketData.tf_map.
  rewrite !lookup_insert_is_Some', lookup_empty, !elem_of_cons, elem_of_nil.
  assert (~ is_Some (@None MarketData.Timeframe)) by (intros [? ?]; done).
  naive_solver.
Qed.

(** What the tool computes once it holds a frame with a candle in it. *)
Lemma market_data_on_frame copy_rates sym tf bars mapped df :
  MarketData.tf_map !! tf = Some mapped ->
  copy_rates sym mapped bars = Some df ->
  df <> [] ->
  exists latest highest lowest,
    last df = Some latest /\
    series_max (high <$> last_n 20 df) = Ok highest /\
    series_min (low <$> last_n 20 df) = Ok lowest /\
    MarketData.get_market_data copy_rates sym tf bars
    = Ok (Report
        {| MarketData.symbol := sym;
           MarketData.timeframe := tf;
           MarketData.bars_count := length df;
           MarketData.latest_candle :=
             {| MarketData.latest_time := time latest;
                MarketData.latest_open := open latest;
                MarketData.latest_high := high latest;
                MarketData.latest_low := low latest;
                MarketData.latest_close := close latest;
                MarketData.latest_range := high latest - low latest |};
           MarketData.recent_high := highest;
           MarketData.recent_low := lowest;
           MarketData.data_file :=
             "/analysis/" +:+ sym +:+ "_" +:+ tf +:+ "_data.csv" |}).
Proof.
  intros Hmap Hrates Hne. unfold MarketData.get_market_data.
  rewrite Hmap, Hrates.
  rewrite decide_False by (destruct df; done).
  unfold iloc_last.
  destruct (last df) as [latest|] eqn:Hlast;
    [|by apply last_None in Hlast].
  pose proof (last_n_nonempty 19 df Hne) as Htail.
  destruct (last_n 20 df) as [|c tail] eqn:Hwindow; [done|].
  exists latest. eexists. eexists.
  split; [done|]. split; [reflexivity|]. split; reflexivity.
Qed.

(** A report can only come from a known timeframe and a frame with a
    candle in it. *)
Lemma market_data_report_inv copy_rates sym tf bars report :
  MarketData.get_market_data copy_rates sym tf bars = Ok (Report report) ->
  exists mapped df,
    MarketData.tf_map !! tf = Some mapped /\
    copy_rates sym mapped bars = Some df /\ df <> [].
Proof.
  unfold MarketData.get_market_data. intros Hrun.
  destruct (MarketData.tf_map !! tf) as [mapped|]; [|discriminate].
  destruct (copy_rates sym mapped bars) as [df|] eqn:Hrates; [|discriminate].
  case_decide as Hlen; [discriminate|].
  exists mapped, df. repeat split; try done. by intros ->.
Qed.

(** X24.  Called as a tool, [get_market_data] refuses a timeframe outside
    1M, 15M, 1H, 4H, D1 with a validation error before its body runs, so
    the invalid-timeframe reply of the body is never produced.  For the
    five timeframes it never raises, because it tests for an empty answer
    before it reads the last candle, and it returns a report exactly when
    the terminal answers with at least one candle. *)
Theorem market_data_tool_outcome
    (copy_rates : string -> MarketData.Timeframe -> Z -> option DataFrame)
    (sym tf : string) (bars : Z) :
  (tf ∉ MarketData.timeframes ->
     MarketData.invoke copy_rates sym tf bars = MarketData.ValidationError) /\
  (tf ∈ MarketData.timeframes ->
     exists r,
       MarketData.invoke copy_rates sym tf bars = MarketData.Ran (Ok r) /\
       r <> ErrorReply MarketData.invalid_timeframe /\
       ((exists report, r = Report report) <->
        (exists mapped df,
           MarketData.tf_map !! tf = Some mapped /\
           copy_rates sym mapped bars = Some df /\ df <> []))).
Proof.
  unfold MarketData.invoke. split; intros Hknown.
  { by rewrite decide_False. }
  rewrite decide_True by done.
  apply tf_map_domain in Hknown as [mapped Hmap].
  assert (Hfailed : ErrorReply (MarketData.failed_to_fetch sym tf)
                    <> @ErrorReply MarketData.MarketReport
                         MarketData.invalid_timeframe).
  { unfold MarketData.failed_to_fetch, MarketData.invalid_timeframe.
    cbn. intros H. discriminate H. }
  destruct (copy_rates sym mapped bars) as [df|] eqn:Hrates.
  - destruct (decide (df = [])) as [->|Hne].
    + exists (ErrorReply (MarketData.failed_to_fetch sym tf)).
      unfold MarketData.get_market_data. rewrite Hmap, Hrates. cbn.
      split; [done|]. split; [done|]. split.
      * intros [report Hr]. discriminate.
      * intros (m & df & [= <-] & Hdf & Hne). congruence.
    + destruct (market_data_on_frame _ _ _ _ _ _ Hmap Hrates Hne)
        as (latest & highest & lowest & _ & _ & _ & ->).
      eexists. split; [reflexivity|]. split; [done|]. split.
      * intros _. by exists mapped, df.
      * intros _. eexists. reflexivity.
  - exists (ErrorReply (MarketData.failed_to_fetch sym tf)).
    unfold MarketData.get_market_data. rewrite Hmap, Hrates. cbn.
    split; [done|]. split; [done|]. split.
    + intros [report Hr]. discriminate.
    + intros (m & df & [= <-] & Hdf & Hne). congruence.
Qed.

(** X25.  In a market-data report the latest candle is the last candle of
    the frame and the bar count is the length of the frame; the recent
    high is the high of one of the last twenty candles and no high among
    them exceeds it, the recent low is the low of one of them and no low
    among them is below it.  So the latest candle always lies within the
    recent range. *)
Theorem recent_range_covers_last_twenty
    (copy_rates : string -> MarketData.Timeframe -> Z -> option DataFrame)
    (sym tf : string) (bars : Z) (report : MarketData.MarketReport) :
  MarketData.get_market_data copy_rates sym tf bars = Ok (Report report) ->
  exists mapped df latest,
    MarketData.tf_map !! tf = Some mapped /\
    copy_rates sym mapped bars = Some df /\
    last df = Some latest /\
    MarketData.bars_count report = length df /\
    MarketData.latest_high (MarketData.latest_candle report) = high latest /\
    MarketData.latest_low (MarketData.latest_candle report) = low latest /\
    MarketData.latest_close (MarketData.latest_candle report) = close latest /\
    MarketData.latest_range (MarketData.latest_candle report)
      = high latest - low latest /\
    (exists c, c ∈ last_n 20 df /\ MarketData.recent_high report = high c) /\
    (exists c, c ∈ last_n 20 df /\ MarketData.recent_low report = low c) /\
    (forall c, c ∈ last_n 20 df ->
       MarketData.recent_low report <= low c /\
       high c <= MarketData.recent_high report) /\
    MarketData.recent_low report <= low latest /\
    high latest <= MarketData.recent_high report.
Proof.
  intros Hrun.
  destruct (market_data_report_inv _ _ _ _ _ Hrun)
    as (mapped & df & Hmap & Hrates & Hne).
  destruct (market_data_on_frame _ _ _ _ _ _ Hmap Hrates Hne)
    as (latest & highest & lowest & Hlast & Hmax & Hmin & Heq).
  rewrite Hrun in Heq. injection Heq as ->.
  apply series_max_spec in Hmax as [Hmax_in Hmax_le].
  apply series_min_spec in Hmin as [Hmin_in Hmin_le].
  apply list_elem_of_fmap in Hmax_in as (cmax & -> & Hcmax).
  apply list_elem_of_fmap in Hmin_in as (cmin & -> & Hcmin).
  assert (Hwindow : forall c, c ∈ last_n 20 df ->
            low cmin <= low c /\ high c <= high cmax).
  { intros c Hc. split.
    - apply Hmin_le. by apply list_elem_of_fmap_2.
    - apply Hmax_le. by apply list_elem_of_fmap_2. }
  exists mapped, df, latest. cbn.
  repeat split; try done.
  - by exists cmax.
  - by exists cmin.
  - by apply Hwindow.
  - by apply Hwindow.
  - apply Hwindow. by apply last_in_last_n.
  - apply Hwindow. by apply last_in_last_n.
Qed.

Lemma recent_range_covers_last_twenty_witness :
  exists mapped df latest,
    MarketData.tf_map !! "15M" = Some mapped /\
    Desk.rates "XAUUSD" mapped 500 = Some df /\
    last df = Some latest /\
    MarketData.bars_count Desk.market_report = length df /\
    MarketData.latest_high (MarketData.latest_candle Desk.market_report)
      = high latest /\
    MarketData.latest_low (MarketData.latest_candle Desk.market_report)
      = low latest /\
    MarketData.latest_close (MarketData.latest_candle Desk.market_report)
      = close latest /\
    MarketData.latest_range (MarketData.latest_candle Desk.market_report)
      = high latest - low latest /\
    (exists c, c ∈ last_n 20 df /\
               MarketData.recent_high Desk.market_report = high c) /\
    (exists c, c ∈ last_n 20 df /\
               MarketData.recent_low Desk.market_report = low c) /\
    (forall c, c ∈ last_n 20 df ->
       MarketData.recent_low Desk.market_report <= low c /\
       high c <= MarketData.recent_high Desk.market_report) /\
    MarketData.recent_low Desk.market_report <= low latest /\
    high latest <= MarketData.recent_high Desk.market_report.
Proof.
  apply (recent_range_covers_last_twenty Desk.rates "XAUUSD" "15M" 500).
  vm_compute. reflexivity.
Defined.

(* ===================================================================== *)
(** * Filling mode and return codes *)
(* ===================================================================== *)

(** One turn of the loop of [get_filling_mode], once the symbol
    information and the tick are there. *)
Lemma try_modes_step mt5 sym lot tick mode rest :
  FillingProbe.volume_min mt5 = Some lot ->
  FillingProbe.symbol_info_tick mt5 = Some tick ->
  (Probe.accepts mt5 sym lot tick mode /\
   FillingProbe.try_modes mt5 sym (mode :: rest) = FillingProbe.Chosen mode)
  \/
  (~ Probe.accepts mt5 sym lot tick mode /\
   FillingProbe.try_modes mt5 sym (mode :: rest)
   = FillingProbe.try_modes mt5 sym rest).
Proof.
  intros Hlot Htick. unfold Probe.accepts. cbn [FillingProbe.try_modes].
  rewrite Hlot, Htick.
  destruct (FillingProbe.order_check mt5 _) as [retcode|]; [|by right].
  destruct (retcode =? Terminal.TRADE_RETCODE_DONE)%Z eqn:Hdone.
  - apply Z.eqb_eq in Hdone as ->. by left.
  - apply Z.eqb_neq in Hdone. right. split; [|done]. by intros [= ->].
Qed.

(** X26.  With symbol information and a tick at hand, [get_filling_mode]
    returns the first of FOK, IOC, RETURN that the terminal's order check
    accepts with return code 10009, and RETURN when the check accepts
    none of them, so a returned RETURN does not tell that the mode was
    accepted.  Without symbol information or without a tick the helper
    raises instead of falling back. *)
Theorem filling_mode_is_first_accepted
    (mt5 : FillingProbe.Answers) (sym : string) :
  match FillingProbe.volume_min mt5, FillingProbe.symbol_info_tick mt5 with
  | Some lot, Some tick =>
      exists mode,
        FillingProbe.get_filling_mode mt5 sym = FillingProbe.Chosen mode /\
        ((Probe.accepts mt5 sym lot tick mode /\
          forall earlier,
            (Probe.rank earlier < Probe.rank mode)%nat ->
            ~ Probe.accepts mt5 sym lot tick earlier)
         \/
         (mode = Terminal.ORDER_FILLING_RETURN /\
          forall other, ~ Probe.accepts mt5 sym lot tick other))
  | _, _ =>
      FillingProbe.get_filling_mode mt5 sym = FillingProbe.AttributeErrorRaised
  end.
Proof.
  unfold FillingProbe.get_filling_mode, FillingProbe.filling_modes.
  destruct (FillingProbe.volume_min mt5) as [lot|] eqn:Hlot;
    [|cbn; by rewrite Hlot].
  destruct (FillingProbe.symbol_info_tick mt5) as [tick|] eqn:Htick;
    [|cbn; by rewrite Hlot, Htick].
  destruct (try_modes_step mt5 sym lot tick Terminal.ORDER_FILLING_FOK
              [Terminal.ORDER_FILLING_IOC; Terminal.ORDER_FILLING_RETURN]
              Hlot Htick) as [[Hfok ->] | [Hfok ->]].
  { eexists. split; [reflexivity|]. left. split; [done|].
    intros earlier Hrank. destruct earlier; cbn in Hrank; lia. }
  destruct (try_modes_step mt5 sym lot tick Terminal.ORDER_FILLING_IOC
              [Terminal.ORDER_FILLING_RETURN]
              Hlot Htick) as [[Hioc ->] | [Hioc ->]].
  { eexists. split; [reflexivity|]. left. split; [done|].
    intros earlier Hrank. destruct earlier; cbn in Hrank; (done || lia). }
  destruct (try_modes_step mt5 sym lot tick Terminal.ORDER_FILLING_RETURN []
              Hlot Htick) as [[Hret ->] | [Hret ->]].
  { eexists. split; [reflexivity|]. left. split; [done|].
    intros earlier Hrank. destruct earlier; cbn in Hrank; (done || lia). }
  cbn. eexists. split; [reflexivity|]. right. split; [done|].
  intros other. by destruct other.
Qed.

Lemma unknown_is_no_completion (digits : string) :
  "Unknown retcode: " +:+ digits <> "TRADE_RETCODE_DONE - Request completed".
Proof. cbn. discriminate. Qed.

Lemma retcode_outside_table (retcode : Z) :
  (retcode < 10004 \/ retcode = 10005 \/ 10030 < retcode)%Z ->
  Retcode.retcode_dict !! retcode = None.
Proof.
  intros Hout. unfold Retcode.retcode_dict.
  apply not_elem_of_list_to_map_1. cbn [fmap list_fmap fst].
  intros Hin.
  repeat (apply elem_of_cons in Hin as [Hin|Hin]; [lia|]).
  by apply elem_of_nil in Hin.
Qed.

Lemma retcode_inside_table (retcode : Z) :
  (10004 <= retcode <= 10030)%Z -> retcode <> 10005%Z ->
  exists text,
    Retcode.retcode_dict !! retcode = Some text /\
    text <> "Unknown retcode: " +:+ pretty retcode /\
    (text = "TRADE_RETCODE_DONE - Request completed"
     <-> retcode = Terminal.TRADE_RETCODE_DONE).
Proof.
  intros Hrange Hnot.
  assert (Hcases :
    (retcode = 10004 \/ retcode = 10006 \/ retcode = 10007 \/
     retcode = 10008 \/ retcode = 10009 \/ retcode = 10010 \/
     retcode = 10011 \/ retcode = 10012 \/ retcode = 10013 \/
     retcode = 10014 \/ retcode = 10015 \/ retcode = 10016 \/
     retcode = 10017 \/ retcode = 10018 \/ retcode = 10019 \/
     retcode = 10020 \/ retcode = 10021 \/ retcode = 10022 \/
     retcode = 10023 \/ retcode = 10024 \/ retcode = 10025 \/
     retcode = 10026 \/ retcode = 10027 \/ retcode = 10028 \/
     retcode = 10029 \/ retcode = 10030)%Z) by lia.
  repeat match type of Hcases with
         | _ \/ _ => destruct Hcases as [->|Hcases]
         end; subst.
  all: eexists; (split; [vm_compute; reflexivity|]).
  all: split; [cbn; discriminate|].
  all: unfold Terminal.TRADE_RETCODE_DONE; split; (done || discriminate).
Qed.

(** X27.  [get_retcode_description] answers "Unknown retcode: n" exactly
    for the codes outside its table, that is below 10004, above 10030, or
    10005; and it answers "TRADE_RETCODE_DONE - Request completed"
    exactly for 10009, the code on which [send_order] reports success. *)
Theorem retcode_description_table (retcode : Z) :
  (Retcode.get_retcode_description retcode
     = "Unknown retcode: " +:+ pretty retcode
   <-> (retcode < 10004 \/ retcode = 10005 \/ 10030 < retcode)%Z) /\
  (Retcode.get_retcode_description retcode
     = "TRADE_RETCODE_DONE - Request completed"
   <-> retcode = Terminal.TRADE_RETCODE_DONE).
Proof.
  unfold Retcode.get_retcode_description.
  destruct (decide (retcode < 10004 \/ retcode = 10005 \/ 10030 < retcode)%Z)
    as [Hout|Hin].
  - rewrite (retcode_outside_table retcode Hout). cbn [default].
    split; [done|]. split.
    + intros Heq. by apply unknown_is_no_completion in Heq.
    + unfold Terminal.TRADE_RETCODE_DONE. lia.
  - destruct (retcode_inside_table retcode) as (text & -> & Hknown & Hdone);
      [lia..|].
    cbn [default]. split; [|done]. split; [done|]. intros Hout. done.
Qed.

(* ===================================================================== *)
(** * The agent's stream and the analysis run *)
(* ===================================================================== *)

(** One turn of the loop of [process_stream]. *)
Lemma process_stream_step (chunk : Stream.Chunk) later raises_at_end :
  Stream.process_stream (chunk :: later) raises_at_end
  = match Stream.actionable chunk with
    | Some data =>
        if forallb Stream.renders data then Approval.Interrupted data
        else Approval.StreamRaised
    | None =>
        if Stream.faulty chunk then Approval.StreamRaised
        else Stream.process_stream later raises_at_end
    end.
Proof.
  unfold Stream.actionable, Stream.faulty. cbn [Stream.process_stream].
  destruct (Stream.interrupts chunk) as [[|[|[[|action more]|]|] others]|];
    reflexivity.
Qed.

Lemma actionable_nonempty (chunk : Stream.Chunk) data :
  Stream.actionable chunk = Some data -> data <> [].
Proof.
  unfold Stream.actionable.
  destruct (Stream.interrupts chunk) as [[|[|[[|action more]|]|] others]|];
    intros [= <-]; done.
Qed.

Lemma process_stream_interrupted chunks raises_at_end data :
  Stream.process_stream chunks raises_at_end = Approval.Interrupted data <->
  exists before chunk after,
    chunks = before ++ chunk :: after /\
    Stream.actionable chunk = Some data /\
    forallb Stream.renders data = true /\
    Forall Probe.passed before.
Proof.
  induction chunks as [|first later IH].
  - cbn. split.
    + by destruct raises_at_end.
    + intros (before & chunk & after & Heq & _). by destruct before.
  - rewrite process_stream_step.
    destruct (Stream.actionable first) as [found|] eqn:Hact.
    + split.
      * destruct (forallb Stream.renders found) eqn:Hrenders; [|done].
        intros [= <-]. by exists [], first, later.
      * intros (before & chunk & after & Heq & Hdata & Hrenders & Hpassed).
        destruct before as [|first' before'].
        -- injection Heq as <- <-.
           assert (found = data) as -> by congruence.
           by rewrite Hrenders.
        -- injection Heq as <- _. apply Forall_cons in Hpassed as [[H _] _].
           congruence.
    + destruct (Stream.faulty first) eqn:Hfaulty.
      * split; [done|].
        intros (before & chunk & after & Heq & Hdata & _ & Hpassed).
        destruct before as [|first' before'].
        -- injection Heq as <- <-. congruence.
        -- injection Heq as <- _. apply Forall_cons in Hpassed as [[_ H] _].
           congruence.
      * rewrite IH. split.
        -- intros (before & chunk & after & -> & Hdata & Hrenders & Hpassed).
           exists (first :: before), chunk, after.
           split; [done|]. split; [done|]. split; [done|].
           by apply Forall_cons.
        -- intros (before & chunk & after & Heq & Hdata & Hrenders & Hpassed).
           destruct before as [|first' before'].
           ++ injection Heq as <- <-. congruence.
           ++ injection Heq as <- ->.
              apply Forall_cons in Hpassed as [_ Hpassed].
              by exists before', chunk, after.
Qed.

Lemma process_stream_completed chunks raises_at_end :
  Stream.process_stream chunks raises_at_end = Approval.Completed <->
  raises_at_end = false /\ Forall Probe.passed chunks.
Proof.
  induction chunks as [|first later IH].
  - cbn. destruct raises_at_end; split; try done. by intros [? _].
  - rewrite process_stream_step, Forall_cons. unfold Probe.passed at 1.
    destruct (Stream.actionable first) as [found|].
    + split; [by destruct (forallb Stream.renders found)|].
      by intros (_ & [? _] & _).
    + destruct (Stream.faulty first).
      * split; [done|]. by intros (_ & [_ ?] & _).
      * rewrite IH. tauto.
Qed.

(** X28.  [stream_agent_with_interrupt] reports an interrupt exactly at
    the first chunk whose first interrupt carries a non-empty list of
    action requests, provided the approval card of that list can be
    rendered (the direction of every request is a string or missing) and
    no chunk before it makes the read of its first interrupt raise (an
    empty interrupt sequence, or a truthy value that is no dictionary): it
    returns that list, which is therefore never empty, and reads no later
    chunk.  It
    reports completion exactly when every chunk is passed by (it has no
    interrupt, or a first interrupt that is falsy or names no action) and
    the agent's generator ends without raising; in every other case it
    raises. *)
Theorem stream_stops_at_first_proposal (stream : Stream.Streamed) :
  (forall data,
     Stream.stream_agent_with_interrupt stream = Approval.Interrupted data <->
     exists before chunk after,
       Stream.chunks stream = before ++ chunk :: after /\
       Stream.actionable chunk = Some data /\
       data <> [] /\
       Forall (fun action => Stream.renders action = true) data /\
       Forall Probe.passed before) /\
  (Stream.stream_agent_with_interrupt stream = Approval.Completed <->
   Stream.raises stream = false /\
   Forall Probe.passed (Stream.chunks stream)) /\
  (Stream.stream_agent_with_interrupt stream = Approval.StreamRaised <->
   (forall data,
      Stream.stream_agent_with_interrupt stream <> Approval.Interrupted data) /\
   Stream.stream_agent_with_interrupt stream <> Approval.Completed).
Proof.
  unfold Stream.stream_agent_with_interrupt. split; [|split].
  - intros data. rewrite process_stream_interrupted. split.
    + intros (before & chunk & after & Heq & Hdata & Hrenders & Hpassed).
      exists before, chunk, after. repeat split; try done.
      * by apply (actionable_nonempty chunk).
      * apply Forall_forall. intros action Haction.
        rewrite forallb_forall in Hrenders. apply Hrenders.
        by apply list_elem_of_In.
    + intros (before & chunk & after & Heq & Hdata & _ & Hrenders & Hpassed).
      exists before, chunk, after. repeat split; try done.
      apply forallb_forall. intros action Haction.
      rewrite Forall_forall in Hrenders. apply Hrenders.
      by apply list_elem_of_In.
  - apply process_stream_completed.
  - destruct (Stream.process_stream _ _); split; try done.
    + intros [_ H]. done.
    + intros [H _]. by specialize (H action_requests).
Qed.

(** What [run_agent_analysis] does once it holds an agent. *)
Lemma analyse_outcome agent env :
  (exists data,
     Stream.stream_agent_with_interrupt (Analysis.initial_stream env)
       = Approval.Interrupted data /\
     data <> [] /\
     exists action,
       last data = Some action /\
       Analysis.analyse agent env
       = (Analysis.leave (Some agent) (Analysis.thread_id env) (Some data),
          {| Analysis.approval_visible := true;
             Analysis.prefilled := Some (Probe.shown_values action) |}))
  \/
  ((forall data,
      Stream.stream_agent_with_interrupt (Analysis.initial_stream env)
        <> Approval.Interrupted data) /\
   Analysis.analyse agent env
   = (Analysis.leave (Some agent) (Analysis.thread_id env) None,
      Analysis.hidden)).
Proof.
  unfold Analysis.analyse.
  destruct (Stream.stream_agent_with_interrupt (Analysis.initial_stream env))
    as [|data|] eqn:Hstream; [by right| |by right].
  left. exists data. split; [done|].
  assert (Hne : data <> []).
  { unfold Stream.stream_agent_with_interrupt in Hstream.
    apply process_stream_interrupted in Hstream
      as (before & chunk & after & _ & Hdata & _ & _).
    by apply (actionable_nonempty chunk). }
  split; [done|].
  destruct (last data) as [action|] eqn:Hlast;
    [|by apply last_None in Hlast].
  by exists action.
Qed.

(** X29.  A call of [run_agent_analysis] while a run is in progress
    changes nothing and shows no panel.  Any other call ends with the
    running flag cleared, and the panel is shown exactly when a request
    is left pending; a pending request is always the non-empty list on
    which the new stream stopped (never one left over from before the
    call), the agent is then in place, the thread is the fresh one, and
    the number fields show the values of the last action of the list. *)
Theorem analysis_run_leaves_consistent_state
    (st : Analysis.RunState) (env : Analysis.Startup) :
  let after := (Analysis.run_agent_analysis st env).1 in
  let shown := (Analysis.run_agent_analysis st env).2 in
  (Analysis.is_running st = true -> after = st /\ shown = Analysis.hidden) /\
  (Analysis.is_running st = false ->
     Analysis.is_running after = false /\
     (Analysis.approval_visible shown = true <->
      is_Some (Approval.pending_interrupt (Analysis.core after))) /\
     forall data,
       Approval.pending_interrupt (Analysis.core after) = Some data ->
       data <> [] /\
       Stream.stream_agent_with_interrupt (Analysis.initial_stream env)
         = Approval.Interrupted data /\
       is_Some (Approval.agent (Analysis.core after)) /\
       Approval.current_thread_id (Analysis.core after)
         = Analysis.thread_id env /\
       exists action,
         last data = Some action /\
         Analysis.prefilled shown = Some (Probe.shown_values action)).
Proof.
  cbv zeta. unfold Analysis.run_agent_analysis.
  destruct (Analysis.is_running st) eqn:Hrunning.
  { split; [done|]. intros [=]. }
  split; [intros [=]|]. intros _.
  assert (Hquiet : forall agent thread,
    let after := Analysis.leave agent thread None in
    Analysis.is_running after = false /\
    (Analysis.approval_visible Analysis.hidden = true <->
     is_Some (Approval.pending_interrupt (Analysis.core after))) /\
    forall data,
      Approval.pending_interrupt (Analysis.core after) = Some data ->
      data <> [] /\
      Stream.stream_agent_with_interrupt (Analysis.initial_stream env)
        = Approval.Interrupted data /\
      is_Some (Approval.agent (Analysis.core after)) /\
      Approval.current_thread_id (Analysis.core after)
        = Analysis.thread_id env /\
      exists action,
        last data = Some action /\
        Analysis.prefilled Analysis.hidden
        = Some (Probe.shown_values action)).
  { intros agent thread. cbn. split; [done|]. split; [|done].
    split; [done|]. by intros [? ?]. }
  assert (Hanalyse : forall agent,
    let after := (Analysis.analyse agent env).1 in
    let shown := (Analysis.analyse agent env).2 in
    Analysis.is_running after = false /\
    (Analysis.approval_visible shown = true <->
     is_Some (Approval.pending_interrupt (Analysis.core after))) /\
    forall data,
      Approval.pending_interrupt (Analysis.core after) = Some data ->
      data <> [] /\
      Stream.stream_agent_with_interrupt (Analysis.initial_stream env)
        = Approval.Interrupted data /\
      is_Some (Approval.agent (Analysis.core after)) /\
      Approval.current_thread_id (Analysis.core after)
        = Analysis.thread_id env /\
      exists action,
        last data = Some action /\
        Analysis.prefilled shown = Some (Probe.shown_values action)).
  { intros agent.
    destruct (analyse_outcome agent env)
      as [(data & Hstream & Hne & action & Hlast & ->) | [_ ->]];
      [|apply Hquiet].
    cbn. split; [done|]. split; [by split|].
    intros data' [= <-]. repeat split; try done. by exists action. }
  destruct (Approval.agent (Analysis.core st)) as [agent|];
    [apply Hanalyse|].
  destruct (Analysis.initialize_mt5 env); cbn [negb]; [|apply Hquiet].
  destruct (Analysis.check_symbol env); cbn [negb]; [|apply Hquiet].
  destruct (Analysis.create_7ms_agent env) as [agent|];
    [apply Hanalyse|apply Hquiet].
Qed.

(** A run that shows the panel has stopped at an interrupt and holds an
    agent. *)
Lemma visible_run_inv st env :
  Analysis.is_running st = false ->
  Analysis.approval_visible (Analysis.run_agent_analysis st env).2 = true ->
  exists agent data,
    Stream.stream_agent_with_interrupt (Analysis.initial_stream env)
      = Approval.Interrupted data /\
    data <> [] /\
    (Analysis.run_agent_analysis st env).1
    = Analysis.leave (Some agent) (Analysis.thread_id env) (Some data).
Proof.
  intros Hidle. unfold Analysis.run_agent_analysis. rewrite Hidle.
  assert (Hanalyse : forall agent,
    Analysis.approval_visible (Analysis.analyse agent env).2 = true ->
    exists agent' data,
      Stream.stream_agent_with_interrupt (Analysis.initial_stream env)
        = Approval.Interrupted data /\
      data <> [] /\
      (Analysis.analyse agent env).1
      = Analysis.leave (Some agent') (Analysis.thread_id env) (Some data)).
  { intros agent.
    destruct (analyse_outcome agent env)
      as [(data & Hstream & Hne & action & Hlast & ->) | [_ ->]];
      [|discriminate].
    intros _. by exists agent, data. }
  destruct (Approval.agent (Analysis.core st)) as [agent|];
    [apply Hanalyse|].
  destruct (Analysis.initialize_mt5 env); cbn [negb]; [|discriminate].
  destruct (Analysis.check_symbol env); cbn [negb]; [|discriminate].
  destruct (Analysis.create_7ms_agent env) as [agent|];
    [apply Hanalyse|discriminate].
Qed.

Lemma resume_value_covers_request decision
    (entry_price sl_price tp_price lot_size : Q)
    (data : list Approval.ActionRequest) :
  decision ∈ ["approve"; "reject"; "edit"] ->
  exists resume_value,
    Approval.resume_value_of decision entry_price sl_price tp_price lot_size
      data = Some resume_value /\
    length resume_value = length data.
Proof.
  rewrite !elem_of_cons, elem_of_nil. unfold Approval.resume_value_of.
  intros [->|[->|[->|[]]]]; repeat case_decide; try done;
    eexists; (split; [reflexivity|]); by rewrite length_fmap.
Qed.

(** X30.  After a run that shows the approval panel, each of the three
    decisions of the GUI resumes the agent exactly once on the request on
    which the run stopped, with one decision per action request and at
    least one decision; afterwards the panel is visible again exactly
    when the resumed run left a further request pending. *)
Theorem decision_after_run_resumes_once
    (st : Analysis.RunState) (env : Analysis.Startup) (decision : string)
    (entry_price sl_price tp_price lot_size : Q) :
  Analysis.is_running st = false ->
  Analysis.approval_visible (Analysis.run_agent_analysis st env).2 = true ->
  decision ∈ ["approve"; "reject"; "edit"] ->
  let after := Analysis.core (Analysis.run_agent_analysis st env).1 in
  let handled :=
    Approval.handle_approval after decision
      entry_price sl_price tp_price lot_size in
  exists data resume_value,
    Stream.stream_agent_with_interrupt (Analysis.initial_stream env)
      = Approval.Interrupted data /\
    Approval.pending_interrupt after = Some data /\
    Approval.resumed_with handled = [resume_value] /\
    length resume_value = length data /\
    (0 < length data)%nat /\
    (Approval.panel_visible handled = true <->
     is_Some (Approval.pending_interrupt (Approval.state handled))).
Proof.
  intros Hidle Hvisible Hdecision. cbv zeta.
  destruct (visible_run_inv st env Hidle Hvisible)
    as (agent & data & Hstream & Hne & ->).
  destruct (resume_value_covers_request decision
              entry_price sl_price tp_price lot_size data Hdecision)
    as (resume_value & Hresume & Hlength).
  exists data, resume_value.
  split; [done|]. split; [done|].
  unfold Approval.handle_approval.
  cbn [Analysis.leave Analysis.core Approval.pending_interrupt Approval.agent].
  rewrite Hresume.
  assert (0 < length data)%nat by (destruct data; [done|cbn; lia]).
  destruct (agent resume_value) as [|further|]; cbn.
  all: repeat split; try done.
  all: by intros [? ?].
Qed.

Lemma decision_after_run_resumes_once_witness :
  exists data resume_value,
    Stream.stream_agent_with_interrupt (Analysis.initial_stream Desk.startup)
      = Approval.Interrupted data /\
    Approval.pending_interrupt
      (Analysis.core (Analysis.run_agent_analysis Desk.idle Desk.startup).1)
      = Some data /\
    Approval.resumed_with
      (Approval.handle_approval
         (Analysis.core (Analysis.run_agent_analysis Desk.idle Desk.startup).1)
         "approve" 4190 4178 4214 (1 # 100))
      = [resume_value] /\
    length resume_value = length data /\
    (0 < length data)%nat /\
    (Approval.panel_visible
       (Approval.handle_approval
          (Analysis.core
             (Analysis.run_agent_analysis Desk.idle Desk.startup).1)
          "approve" 4190 4178 4214 (1 # 100)) = true <->
     is_Some
       (Approval.pending_interrupt
          (Approval.state
             (Approval.handle_approval
                (Analysis.core
                   (Analysis.run_agent_analysis Desk.idle Desk.startup).1)
                "approve" 4190 4178 4214 (1 # 100))))).
Proof.
  apply (decision_after_run_resumes_once Desk.idle Desk.startup "approve"
           4190 4178 4214 (1 # 100)).
  - reflexivity.
  - reflexivity.
  - apply list_elem_of_here.
Defined.
